(** * Apartments scraper: URL normalisation, pagination, partitioning,
      the per-link extraction pipeline and the two CSV sinks.

    Shallow embedding of [scraper.py].  Python [str] values are modelled as
    Stdlib strings, whose 8-bit characters are read as the code points
    U+0000..U+00FF; integers that index or count are [nat], years and the
    configured number of workers are [Z].
    A raised exception is an explicit result ([None], or [Raise msg]).

    The functions of Python's [urllib.parse] that [normalize_url] calls are
    embedded from CPython 3.11 ([Lib/urllib/parse.py]); the two checks of
    that module that need Unicode tables or IP address parsing are taken as
    parameters ([PyLib]). *)

From Stdlib Require Import Ascii String NArith ZArith Lia DecimalString.
From stdpp Require Import gmap strings list fin_maps.

(** ** Python string primitives *)

Module PyStr.

Definition ord (c : ascii) : N := N_of_ascii c.

Definition between (lo hi : N) (c : ascii) : bool :=
  (lo <=? ord c)%N && (ord c <=? hi)%N.

Definition is_char (a c : ascii) : bool := Ascii.eqb a c.

(** [str.isspace] on the code points below 256. *)
Definition isspace (c : ascii) : bool :=
  between 9 13 c || between 28 32 c || (ord c =? 133)%N || (ord c =? 160)%N.

Definition isascii (c : ascii) : bool := (ord c <=? 127)%N.

Definition isupper (c : ascii) : bool :=
  between 65 90 c || between 192 214 c || between 216 222 c.

(** ASCII letters: [c.isascii() and c.isalpha()]. *)
Definition isasciialpha (c : ascii) : bool :=
  between 65 90 c || between 97 122 c.

Definition isdigit (c : ascii) : bool := between 48 57 c.

Definition lower_char (c : ascii) : ascii :=
  if isupper c then ascii_of_N (ord c + 32) else c.

Fixpoint lower (s : string) : string :=
  match s with
  | EmptyString => EmptyString
  | String c s' => String (lower_char c) (lower s')
  end.

Fixpoint all_chars (p : ascii -> bool) (s : string) : bool :=
  match s with
  | EmptyString => true
  | String c s' => p c && all_chars p s'
  end.

(** [c in s] for a single character. *)
Fixpoint has_char (c : ascii) (s : string) : bool :=
  match s with
  | EmptyString => false
  | String a s' => is_char c a || has_char c s'
  end.

(** [s.lstrip(chars)] and [s.rstrip(chars)], the character set as a test. *)
Fixpoint lstrip (p : ascii -> bool) (s : string) : string :=
  match s with
  | EmptyString => EmptyString
  | String c s' => if p c then lstrip p s' else s
  end.

Fixpoint rstrip (p : ascii -> bool) (s : string) : string :=
  match s with
  | EmptyString => EmptyString
  | String c s' =>
      match rstrip p s' with
      | EmptyString => if p c then EmptyString else String c EmptyString
      | r => String c r
      end
  end.

(** [s.strip()] *)
Definition strip (s : string) : string := rstrip isspace (lstrip isspace s).

(** [s.startswith(pre)] *)
Fixpoint startswith (pre s : string) : bool :=
  match pre, s with
  | EmptyString, _ => true
  | String a pre', String b s' => Ascii.eqb a b && startswith pre' s'
  | String _ _, EmptyString => false
  end.

(** [sub in s] *)
Fixpoint contains (sub s : string) : bool :=
  startswith sub s ||
  match s with
  | EmptyString => false
  | String _ s' => contains sub s'
  end.

(** [s.find(c)]: the index of the first [c], [None] for -1. *)
Fixpoint find (c : ascii) (s : string) : option nat :=
  match s with
  | EmptyString => None
  | String a s' => if is_char c a then Some 0 else S <$> find c s'
  end.

(** [s.rfind(c)] *)
Fixpoint rfind (c : ascii) (s : string) : option nat :=
  match s with
  | EmptyString => None
  | String a s' =>
      match rfind c s' with
      | Some i => Some (S i)
      | None => if is_char c a then Some 0 else None
      end
  end.

(** [s[:n]] and [s[n:]] *)
Fixpoint take (n : nat) (s : string) : string :=
  match n, s with
  | S n', String c s' => String c (take n' s')
  | _, _ => EmptyString
  end.

Fixpoint drop (n : nat) (s : string) : string :=
  match n, s with
  | S n', String _ s' => drop n' s'
  | _, _ => s
  end.

(** [s.find(c, start)] *)
Definition find_from (c : ascii) (start : nat) (s : string) : option nat :=
  (fun i => start + i) <$> find c (drop start s).

(** [s.replace(c, empty)] *)
Fixpoint remove (c : ascii) (s : string) : string :=
  match s with
  | EmptyString => EmptyString
  | String a s' => if is_char c a then remove c s' else String a (remove c s')
  end.

(** [s.split(c)] *)
Fixpoint split (c : ascii) (s : string) : list string :=
  match s with
  | EmptyString => [EmptyString]
  | String a s' =>
      if is_char c a then EmptyString :: split c s'
      else match split c s' with
           | x :: r => String a x :: r
           | [] => [String a EmptyString]
           end
  end.

(** [s.split(c, 1)] when [c in s]: the text before and after the first [c]. *)
Definition split1 (c : ascii) (s : string) : string * string :=
  match find c s with
  | Some i => (take i s, drop (S i) s)
  | None => (s, EmptyString)
  end.

(** [sep.join(l)] *)
Fixpoint join (sep : string) (l : list string) : string :=
  match l with
  | [] => EmptyString
  | [x] => x
  | x :: r => String.append x (String.append sep (join sep r))
  end.

(** [re.sub(r"/+", "/", s)]: of every run of slashes the last one stays. *)
Fixpoint re_sub_slashes (s : string) : string :=
  match s with
  | EmptyString => EmptyString
  | String c s' =>
      match s' with
      | String c' _ =>
          if is_char "/" c && is_char "/" c' then re_sub_slashes s'
          else String c (re_sub_slashes s')
      | EmptyString => String c EmptyString
      end
  end.

(** Python truthiness of a string, [s or d]. *)
Definition nonempty (s : string) : bool :=
  match s with EmptyString => false | _ => true end.

Definition or_else (s d : string) : string := if nonempty s then s else d.

End PyStr.

(** ** urllib.parse (CPython 3.11) *)

(** The parts of [urllib.parse] that are not string processing:
    [_check_bracketed_netloc] (IPv6 and IPvFuture literals, through
    [ipaddress]) and the NFKC test of [_checknetloc] (through
    [unicodedata]).  [true] means that the check passes, [false] that it
    raises [ValueError]. *)
Class PyLib := {
  check_bracketed_netloc : string -> bool;
  checknetloc_nfkc : string -> bool
}.

Module Urllib.
Import PyStr.

Record SplitResult := mkSplit {
  scheme : string; netloc : string; path : string;
  query : string; fragment : string }.

Record ParseResult := mkParse {
  pscheme : string; pnetloc : string; ppath : string;
  pparams : string; pquery : string; pfragment : string }.

Definition uses_relative : list string :=
  [EmptyString; "ftp"; "http"; "gopher"; "nntp"; "imap"; "wais"; "file"; "https";
   "shttp"; "mms"; "prospero"; "rtsp"; "rtspu"; "sftp"; "svn"; "svn+ssh";
   "ws"; "wss"]%string.

Definition uses_netloc : list string :=
  [EmptyString; "ftp"; "http"; "gopher"; "nntp"; "telnet"; "imap"; "wais"; "file";
   "mms"; "https"; "shttp"; "snews"; "prospero"; "rtsp"; "rtspu"; "rsync";
   "svn"; "svn+ssh"; "sftp"; "nfs"; "git"; "git+ssh"; "ws"; "wss"]%string.

Definition uses_params : list string :=
  [EmptyString; "ftp"; "hdl"; "prospero"; "http"; "imap"; "https"; "shttp"; "rtsp";
   "rtspu"; "sip"; "sips"; "mms"; "sftp"; "tel"]%string.

(** [x in l] for a list of strings. *)
Definition mem (x : string) (l : list string) : bool :=
  existsb (String.eqb x) l.

Definition scheme_char (c : ascii) : bool :=
  isasciialpha c || isdigit c || is_char "+" c || is_char "-" c || is_char "." c.

(** [_WHATWG_C0_CONTROL_OR_SPACE] *)
Definition c0_control_or_space (c : ascii) : bool := (ord c <=? 32)%N.

(** The loop over [_UNSAFE_URL_BYTES_TO_REMOVE]. *)
Definition remove_unsafe (s : string) : string :=
  remove "010" (remove "013" (remove "009" s)).

(** [_splitnetloc(url, 2)]: the end of the authority is the earliest of
    the delimiters [/], [?] and [#] from index 2 on. *)
Definition is_delim (c : ascii) : bool :=
  is_char "/" c || is_char "?" c || is_char "#" c.

Fixpoint span_netloc (s : string) : string * string :=
  match s with
  | EmptyString => (EmptyString, EmptyString)
  | String c s' =>
      if is_delim c then (EmptyString, s)
      else let '(n, r) := span_netloc s' in (String c n, r)
  end.

Definition splitnetloc2 (url : string) : string * string :=
  span_netloc (drop 2 url).

Section WithLib.
Context `{!PyLib}.

(** [_checknetloc] *)
Definition checknetloc (n : string) : bool :=
  if negb (nonempty n) || all_chars isascii n then true
  else checknetloc_nfkc n.

(** [urlsplit(url, scheme)]; [None] stands for [ValueError]. *)
Definition urlsplit (url0 scheme0 : string) : option SplitResult :=
  let url := remove_unsafe (lstrip c0_control_or_space url0) in
  let scheme1 :=
    remove_unsafe
      (rstrip c0_control_or_space (lstrip c0_control_or_space scheme0)) in
  let '(sch, url) :=
    match find ":" url, url with
    | Some (S i'), String c0 _ =>
        if isasciialpha c0 && all_chars scheme_char (take (S i') url)
        then (lower (take (S i') url), drop (S (S i')) url)
        else (scheme1, url)
    | _, _ => (scheme1, url)
    end in
  '(nl, url) ←
     (if startswith "//" url then
        let '(nl, rest) := splitnetloc2 url in
        let ob := has_char "[" nl in
        let cb := has_char "]" nl in
        if (ob && negb cb) || (cb && negb ob) then None
        else if ob && cb then
          (if check_bracketed_netloc nl then Some (nl, rest) else None)
        else Some (nl, rest)
      else Some (EmptyString, url));
  let '(url, frag) :=
    if has_char "#" url then split1 "#" url else (url, EmptyString) in
  let '(url, qry) :=
    if has_char "?" url then split1 "?" url else (url, EmptyString) in
  if checknetloc nl then Some (mkSplit sch nl url qry frag) else None.

(** [_splitparams] *)
Definition splitparams (url : string) : string * string :=
  if has_char "/" url then
    match rfind "/" url with
    | Some j =>
        match find_from ";" j url with
        | Some i => (take i url, drop (S i) url)
        | None => (url, EmptyString)
        end
    | None => (url, EmptyString)
    end
  else
    match find ";" url with
    | Some i => (take i url, drop (S i) url)
    | None => (url, EmptyString)
    end.

(** [urlparse(url, scheme)] *)
Definition urlparse (url scheme0 : string) : option ParseResult :=
  r ← urlsplit url scheme0;
  let '(u, params) :=
    if mem (scheme r) uses_params && has_char ";" (path r)
    then splitparams (path r) else (path r, EmptyString) in
  Some (mkParse (scheme r) (netloc r) u params (query r) (fragment r)).

(** [urlunsplit] *)
Definition urlunsplit (sch nl url qry frag : string) : string :=
  let url :=
    if nonempty nl ||
       (nonempty sch && mem sch uses_netloc && negb (startswith "//" url))
    then
      let url :=
        if nonempty url && negb (startswith "/" url)
        then String "/" url else url in
      String.append "//" (String.append nl url)
    else url in
  let url :=
    if nonempty sch then String.append sch (String ":" url) else url in
  let url :=
    if nonempty qry then String.append url (String "?" qry) else url in
  if nonempty frag then String.append url (String "#" frag) else url.

(** [urlunparse] *)
Definition urlunparse (p : ParseResult) : string :=
  let url :=
    if nonempty (pparams p)
    then String.append (ppath p) (String ";" (pparams p)) else ppath p in
  urlunsplit (pscheme p) (pnetloc p) url (pquery p) (pfragment p).

(** [segments[1:-1] = filter(None, segments[1:-1])] *)
Definition filter_middle (segs : list string) : list string :=
  match segs with
  | x :: (_ :: _) as r =>
      x :: List.filter nonempty (removelast r) ++ [List.last r EmptyString]
  | _ => segs
  end.

(** The loop of [urljoin] over the segments; [rev_acc] is [resolved_path]
    in reverse. *)
Fixpoint resolve (segs : list string) (rev_acc : list string) : list string :=
  match segs with
  | [] => rev rev_acc
  | seg :: r =>
      if String.eqb seg ".." then resolve r (tail rev_acc)
      else if String.eqb seg "." then resolve r rev_acc
      else resolve r (seg :: rev_acc)
  end.

(** [urljoin(base, url)] *)
Definition urljoin (base url : string) : option string :=
  if negb (nonempty base) then Some url
  else if negb (nonempty url) then Some base
  else
    b ← urlparse base EmptyString;
    p ← urlparse url (pscheme b);
    if negb (String.eqb (pscheme p) (pscheme b)) ||
       negb (mem (pscheme p) uses_relative)
    then Some url
    else if mem (pscheme p) uses_netloc && nonempty (pnetloc p)
    then Some (urlunparse p)
    else
      let nl := if mem (pscheme p) uses_netloc then pnetloc b else pnetloc p in
      if negb (nonempty (ppath p)) && negb (nonempty (pparams p)) then
        let qry := if nonempty (pquery p) then pquery p else pquery b in
        Some (urlunparse
                (mkParse (pscheme p) nl (ppath b) (pparams b) qry (pfragment p)))
      else
        let base_parts := split "/" (ppath b) in
        let base_parts :=
          if nonempty (List.last base_parts EmptyString)
          then removelast base_parts else base_parts in
        let segments :=
          if startswith "/" (ppath p) then split "/" (ppath p)
          else filter_middle (base_parts ++ split "/" (ppath p)) in
        let resolved := resolve segments [] in
        let lastseg := List.last segments EmptyString in
        let resolved :=
          if String.eqb lastseg "." || String.eqb lastseg ".."
          then resolved ++ [EmptyString] else resolved in
        Some (urlunparse
                (mkParse (pscheme p) nl (or_else (join "/" resolved) "/")
                   (pparams p) (pquery p) (pfragment p))).

End WithLib.
End Urllib.

(** ** scraper.py: configuration *)

Definition SEARCH_URL : string := "https://www.apartments.com/apartments/seattle-wa/".
Definition OUTPUT_CSV : string := "results.csv".
Definition MIN_YEAR : Z := 2023.
Definition CITY_FILTER : string := "Seattle".
Definition WORKERS : Z := 1.
Definition MAX_LISTINGS : option nat := None.

(** ** scraper.py: normalize_url *)

Section Normalize.
Context `{!PyLib}.
Import PyStr Urllib.

(** The body of the [try]; [None] is an exception that reaches the
    handler. *)
Definition normalize_url_try (u0 : string) : option string :=
  if negb (nonempty u0) then Some EmptyString
  else
    let u := strip u0 in
    if startswith "javascript:" (lower u) || startswith "mailto:" (lower u)
    then Some EmptyString
    else
      p ← urlsplit u EmptyString;
      p ← (if negb (nonempty (netloc p))
           then joined ← urljoin SEARCH_URL u; urlsplit joined EmptyString
           else Some p);
      let sch := if negb (nonempty (scheme p)) then "https"%string else scheme p in
      let nl := lower (netloc p) in
      let nl := if startswith "www." nl then drop 4 nl else nl in
      let pth := re_sub_slashes (or_else (path p) "/") in
      let pth := rstrip (is_char "/") pth in
      Some (urlunsplit sch nl pth EmptyString EmptyString).

(** [except Exception:] return the empty string *)
Definition normalize_url (u : string) : string :=
  default EmptyString (normalize_url_try u).

End Normalize.


(** ** The world outside the program *)

(** Result of a call that may raise: [Raise msg] carries [str(e)]. *)
Inductive result (A : Type) : Type :=
  | Ok (a : A)
  | Raise (msg : string).
Arguments Ok {A} a.
Arguments Raise {A} msg.

(** A cell of a CSV row: text or an integer. *)
Inductive cell := CStr (s : string) | CInt (z : Z).

Abbreviation row := (list cell).

(** A Python file object.  The [csv.writer] keeps a reference to it, so
    file objects live in a store and are named by their index there. *)
Record file_obj := mkFile { f_name : string; f_closed : bool }.

(** The files, and what the file system refuses: [open] for writing raises
    on the paths of [denied] (a directory that does not exist, a file that
    is read-only or locked), and on a [full] device every write raises. *)
Record World := mkWorld {
  files : gmap string (list row);   (* path -> rows of the CSV file *)
  handles : list file_obj;          (* every file object opened so far *)
  denied : gset string;             (* paths that cannot be opened for writing *)
  full : bool                       (* no space left on the device *)
}.

(** State and exceptions: what a statement leaves behind stays, also when
    it raises. *)
Definition IO (A : Type) : Type := World -> World * result A.

#[global] Instance IO_ret : MRet IO := fun _ a w => (w, Ok a).

#[global] Instance IO_bind : MBind IO := fun _ _ k m w =>
  match m w with
  | (w', Ok a) => k a w'
  | (w', Raise e) => (w', Raise e)
  end.

Definition raise {A} (msg : string) : IO A := fun w => (w, Raise msg).

(** [try: m except Exception as e: h e] *)
Definition try_except {A} (m : IO A) (h : string -> IO A) : IO A := fun w =>
  match m w with
  | (w', Ok a) => (w', Ok a)
  | (w', Raise e) => h e w'
  end.

(** [for x in l: body x] *)
Fixpoint for_each {A} (l : list A) (body : A -> IO unit) : IO unit :=
  match l with
  | [] => mret tt
  | x :: r => body x ≫= (fun _ => for_each r body)
  end.

Inductive open_mode := mode_r | mode_w | mode_a.

(** [open(path, mode)]: returns the index of the new file object. *)
Definition py_open (p : string) (m : open_mode) : IO nat := fun w =>
  let h := length (handles w) in
  let opened fs :=
    (mkWorld fs (handles w ++ [mkFile p false]) (denied w) (full w), Ok h) in
  match m with
  | mode_r =>
      match files w !! p with
      | Some _ => opened (files w)
      | None => (w, Raise "FileNotFoundError")
      end
  | mode_w =>
      if decide (p ∈ denied w) then (w, Raise "PermissionError")
      else opened (<[p := []]> (files w))
  | mode_a =>
      if decide (p ∈ denied w) then (w, Raise "PermissionError")
      else
        match files w !! p with
        | Some _ => opened (files w)
        | None => opened (<[p := []]> (files w))
        end
  end.

(** [f.close()] *)
Definition py_close (h : nat) : IO unit := fun w =>
  match handles w !! h with
  | Some f =>
      (mkWorld (files w) (<[h := mkFile (f_name f) true]> (handles w))
         (denied w) (full w), Ok tt)
  | None => (w, Ok tt)
  end.

(** [with open(path, mode) as f: body f]: the file object is closed when
    the block is left, normally or by an exception. *)
Definition with_open {A} (p : string) (m : open_mode) (body : nat -> IO A) : IO A :=
  h ← py_open p m;
  try_except (a ← body h; _ ← py_close h; mret a)
             (fun e => _ ← py_close h; raise e).

(** [csv.writer(f).writerow(r)]: writing to a closed file raises
    [ValueError], writing to a full device raises [OSError]. *)
Definition writerow (writer : nat) (r : row) : IO unit := fun w =>
  match handles w !! writer with
  | Some f =>
      if f_closed f then (w, Raise "I/O operation on closed file.")
      else if full w then (w, Raise "No space left on device")
      else (mkWorld (<[f_name f := default [] (files w !! f_name f) ++ [r]]> (files w))
              (handles w) (denied w) (full w), Ok tt)
  | None => (w, Raise "I/O operation on closed file.")
  end.

(** ** The browser *)

Inductive By := CSS_SELECTOR | XPATH.

(** A DOM element as the program reads it: its text and its attributes.
    An element access that raises is caught next to the access in
    [scraper.py] and has the effect of an absent value, so elements are
    plain data. *)
Record Element := mkElement {
  text : string;
  get_attribute : string -> option string
}.

(** The Selenium driver, an external collaborator.
    - [get]: [driver.get(url)], the new state and [Some msg] if it raised;
    - [find_elements]: [None] if the query raised;
    - [page_source], [current_url]: the properties of the same names;
    - [reveal]: lines 136-174, the scrolling and the clicks on "show more"
      buttons, every exception swallowed;
    - [advance]: lines 234-271, the search for a "Next" control with the
      click or the navigation to its href and the wait; the flag is
      [found_next]. *)
Class Driver (D : Type) := {
  get : D -> string -> D * option string;
  find_elements : D -> By -> string -> option (list Element);
  page_source : D -> result string;
  current_url : D -> string;
  reveal : D -> D;
  advance : D -> D * bool
}.

(** ** scraper.py: collect_listing_links *)

Definition link_selectors : list string :=
  ["li.placard a[href]"; "article.placard a[href]"; ".placard a[href]";
   "a.placardTitle[href]"; "a.property-link[href]"; "a[href*='/apartments/']"]%string.

(** Python truthiness of [max_listings]: [None] and [0] are false. *)
Definition reached (cap : option nat) (n : nat) : bool :=
  match cap with
  | Some (S m) => S m <=? n
  | _ => false
  end.

Section Collect.
Context `{!PyLib} {D : Type} `{!Driver D}.
Import PyStr.

(** The locals of the traversal that the loop updates. *)
Record Traversal := mkTraversal {
  collected : list string;
  seen : gset string;
  visited_page_urls : gset string;
  page_index : nat            (* the loop variable, 0 before the loop *)
}.

(** The loop over the anchors found by one selector (lines 181-194 and
    206-219). *)
Fixpoint gather (elems : list Element) (t : Traversal) (page_links : list string)
  : Traversal * list string :=
  match elems with
  | [] => (t, page_links)
  | e :: r =>
      match get_attribute e "href" with
      | Some raw_href =>
          if negb (nonempty raw_href) then gather r t page_links
          else
            let href := normalize_url raw_href in
            if negb (nonempty href) then gather r t page_links
            else if decide (href ∈ seen t) then gather r t page_links
            else gather r
                   (mkTraversal (collected t ++ [href]) ({[href]} ∪ seen t)
                      (visited_page_urls t) (page_index t))
                   (page_links ++ [href])
      | None => gather r t page_links
      end
  end.

(** The loop over [link_selectors] (lines 178-200): it is left once a
    selector has brought the page to 30 links. *)
Fixpoint gather_selectors (d : D) (sels : list string) (t : Traversal)
    (page_links : list string) : Traversal * list string :=
  match sels with
  | [] => (t, page_links)
  | sel :: r =>
      match find_elements d CSS_SELECTOR sel with
      | Some elems =>
          let '(t', pl) := gather elems t page_links in
          if 30 <=? length pl then (t', pl) else gather_selectors d r t' pl
      | None => gather_selectors d r t page_links
      end
  end.

(** Lines 203-221 *)
Definition gather_fallback (d : D) (t : Traversal) (page_links : list string)
  : Traversal * list string :=
  match page_links with
  | [] =>
      match find_elements d CSS_SELECTOR "a[href*='/apartments/']" with
      | Some anchors => gather anchors t page_links
      | None => (t, page_links)
      end
  | _ => (t, page_links)
  end.

(** The [for page_index in range(1, max_pages + 1)] loop; [remaining] is
    the number of values of the range not yet taken. *)
Fixpoint paginate (remaining : nat) (max_listings : option nat) (d : D)
    (t : Traversal) : Traversal :=
  match remaining with
  | 0 => t
  | S remaining' =>
      let t := mkTraversal (collected t) (seen t) (visited_page_urls t)
                 (S (page_index t)) in
      let current := current_url d in
      if decide (current ∈ visited_page_urls t) then t
      else
        let t := mkTraversal (collected t) (seen t)
                   ({[current]} ∪ visited_page_urls t) (page_index t) in
        let d := reveal d in
        let '(t, page_links) := gather_selectors d link_selectors t [] in
        let '(t, page_links) := gather_fallback d t page_links in
        if reached max_listings (length (collected t)) then t
        else if reached MAX_LISTINGS (length (collected t)) then t
        else
          let '(d, found_next) := advance d in
          if found_next then paginate remaining' max_listings d t else t
  end.

(** [collect_listing_links(driver, search_url, max_listings, max_pages)];
    [Raise] when the first [driver.get] raises. *)
Definition traverse (d : D) (search_url : string) (max_listings : option nat)
    (max_pages : nat) : result Traversal :=
  match get d search_url with
  | (d, None) => Ok (paginate max_pages max_listings d (mkTraversal [] ∅ ∅ 0))
  | (_, Some e) => Raise e
  end.

Definition collect_listing_links (d : D) (search_url : string)
    (max_listings : option nat) (max_pages : nat) : result (list string) :=
  match traverse d search_url max_listings max_pages with
  | Ok t => Ok (collected t)
  | Raise e => Raise e
  end.

End Collect.

(** ** scraper.py: the audit log *)

Definition log_header : row :=
  [CStr "worker"; CStr "index"; CStr "total"; CStr "title"; CStr "address";
   CStr "url"; CStr "built_year"; CStr "status"; CStr "note"].

Definition results_header : row :=
  [CStr "title"; CStr "address"; CStr "built_year"; CStr "url"].

(** [open(path, "r").close()] guarded by [except FileNotFoundError]:
    does the file exist? *)
Definition file_exists (p : string) : IO bool :=
  try_except (h ← py_open p mode_r; _ ← py_close h; mret true)
             (fun _ => mret false).

(** [_append_log_row(logfile, row)].  [csv_lock] serialises the callers;
    one call is one uninterrupted step of the world. *)
Definition _append_log_row (logfile : string) (r : row) : IO unit :=
  try_except
    (ex ← file_exists logfile;
     let write_header := negb ex in
     with_open logfile mode_a (fun f =>
       let writer := f in
       _ ← (if write_header then writerow writer log_header else mret tt);
       writerow writer r))
    (fun _ => mret tt).

(** ** scraper.py: the extraction pipeline *)

Inductive status := unknown | no_built_in | too_old | city_mismatch | saved | error.

Definition status_str (s : status) : string :=
  match s with
  | unknown => "unknown"
  | no_built_in => "no_built_in"
  | too_old => "too_old"
  | city_mismatch => "city_mismatch"
  | saved => "saved"
  | error => "error"
  end.

(** The locals of one loop iteration when it logs its row. *)
Record ExtractionRecord := mkRecord {
  title : string;
  address : string;
  built_year : option Z;
  rec_status : status;
  note : string
}.

(** A tuple of [results]: [(title, address, built_year, url)]. *)
Record ResultRow := mkResult {
  r_title : string; r_address : string; r_built_year : Z; r_url : string }.

Module Re.
Import PyStr.

(** A literal of the pattern under [re.IGNORECASE]; on the code points
    below 256 a letter of ['Built in'] matches its two ASCII cases only. *)
Fixpoint match_ci (pat s : string) : option string :=
  match pat, s with
  | EmptyString, _ => Some s
  | String p pat', String c s' =>
      if Ascii.eqb (lower_char c) (lower_char p) then match_ci pat' s' else None
  | String _ _, EmptyString => None
  end.

Definition digit_val (c : ascii) : Z := Z.of_N (ord c) - 48.

(** [([0-9]{4})] followed by [int(m.group(1))]. *)
Definition match_year (s : string) : option Z :=
  match s with
  | String a (String b (String c (String d _))) =>
      if isdigit a && isdigit b && isdigit c && isdigit d
      then Some (1000 * digit_val a + 100 * digit_val b + 10 * digit_val c + digit_val d)%Z
      else None
  | _ => None
  end.

(** The pattern ['Built in\s*([0-9]{4})'] tried at the start of [s].
    A character of [\s] is no digit, so the greedy [\s*] never has to give
    characters back. *)
Definition match_built_in (s : string) : option Z :=
  rest ← match_ci "Built in" s;
  match_year (lstrip isspace rest).

(** [re.search(...)] followed by [int(m.group(1))]: the leftmost match. *)
Fixpoint search_built_in (s : string) : option Z :=
  match match_built_in s with
  | Some y => Some y
  | None =>
      match s with
      | EmptyString => None
      | String _ s' => search_built_in s'
      end
  end.

End Re.

(** [str(n)] of an integer. *)
Definition str_of_int (z : Z) : string := NilZero.string_of_int (Z.to_int z).

Definition dquote : string := String "034" EmptyString.

Section Worker.
Context `{!PyLib} {D : Type} `{!Driver D}.
Import PyStr.

(** Lines 325-330 *)
Definition extract_title (d : D) : string :=
  match find_elements d CSS_SELECTOR "h1" with
  | Some (el :: _) => if nonempty (strip (text el)) then strip (text el) else EmptyString
  | _ => EmptyString
  end.

(** Lines 332-348 *)
Definition extract_address (d : D) : string :=
  let address :=
    match find_elements d CSS_SELECTOR ".propertyAddress, .property-address, .js-address" with
    | Some (el :: _) => if nonempty (strip (text el)) then strip (text el) else EmptyString
    | _ => EmptyString
    end in
  if negb (nonempty address) then
    match find_elements d CSS_SELECTOR "meta[name='description']" with
    | Some (m :: _) =>
        match get_attribute m "content" with
        | Some content => if nonempty content then strip content else address
        | None => address
        end
    | _ => address
    end
  else address.

(** Lines 357-385: the filters, on the text of a page that was read. *)
Definition classify (ttl addr page_text : string) (min_year : Z)
    (city_filter : string) : ExtractionRecord :=
  match Re.search_built_in page_text with
  | None =>
      mkRecord ttl addr None no_built_in "'Built in' phrase not found"
  | Some y =>
      if (y <? min_year)%Z then
        mkRecord ttl addr (Some y) too_old
          (String.append "Built in "
             (String.append (str_of_int y) (String.append " < " (str_of_int min_year))))
      else if nonempty city_filter &&
              (negb (nonempty addr) || negb (contains (lower city_filter) (lower addr)))
      then
        mkRecord ttl addr (Some y) city_mismatch
          (String.append "Address does not contain '" (String.append city_filter "'"))
      else
        mkRecord ttl addr (Some y) saved (String.append "Built in " (str_of_int y))
  end.

(** One iteration of the loop up to its log row (lines 313-394). *)
Definition visit (d : D) (link : string) (min_year : Z) (city_filter : string)
  : D * ExtractionRecord :=
  match get d link with
  | (d, Some e) => (d, mkRecord EmptyString EmptyString None error e)
  | (d, None) =>
      let ttl := extract_title d in
      let addr := extract_address d in
      match page_source d with
      | Raise e => (d, mkRecord ttl addr None error e)
      | Ok page_text => (d, classify ttl addr page_text min_year city_filter)
      end
  end.

(** The tuple passed to [_append_log_row]; a row without a year has the
    empty string in its place. *)
Definition log_row (worker_id idx total : nat) (link : string)
    (r : ExtractionRecord) : row :=
  [CInt (Z.of_nat worker_id); CInt (Z.of_nat idx); CInt (Z.of_nat total);
   CStr (title r); CStr (address r); CStr link;
   match built_year r with
   | Some y => CInt y
   | None => CStr EmptyString
   end;
   CStr (status_str (rec_status r)); CStr (note r)].

Definition log_file : string := "screened_log.csv".

(** [for idx, link in enumerate(links, start=1)] *)
Fixpoint visit_links (worker_id idx total : nat) (links : list string)
    (min_year : Z) (city_filter : string) (d : D) (results : list ResultRow)
  : IO (list ResultRow) :=
  match links with
  | [] => mret results
  | link :: rest =>
      let '(d, r) := visit d link min_year city_filter in
      let results :=
        match rec_status r, built_year r with
        | saved, Some y => results ++ [mkResult (title r) (address r) y link]
        | _, _ => results
        end in
      _ ← _append_log_row log_file (log_row worker_id idx total link r);
      visit_links worker_id (S idx) total rest min_year city_filter d results
  end.

(** Lines 402-411: the dedup pass. *)
Fixpoint dedupe (results unique : list ResultRow) (seen_res : gset string)
  : list ResultRow :=
  match results with
  | [] => unique
  | r :: rest =>
      let key := normalize_url (r_url r) in
      if negb (nonempty key) || bool_decide (key ∈ seen_res)
      then dedupe rest unique seen_res
      else dedupe rest (unique ++ [r]) ({[key]} ∪ seen_res)
  end.

Definition hyperlink_formula (r : ResultRow) : string :=
  String.append "=HYPERLINK("
    (String.append dquote (String.append (r_url r) (String.append dquote
      (String.append ", " (String.append dquote
        (String.append (or_else (r_title r) "Listing")
          (String.append dquote ")"))))))).

(** Lines 415-433.  The [for row in results] loop comes after the [with]
    block: [writer] still refers to the file object that the block has
    closed. *)
Definition write_results (output_csv : string) (results : list ResultRow)
  : IO unit :=
  try_except
    (ex ← file_exists output_csv;
     let mode := if negb ex then mode_w else mode_a in
     writer ← with_open output_csv mode (fun f =>
       let writer := f in
       _ ← (match mode with
            | mode_w => writerow writer results_header
            | _ => mret tt
            end);
       mret writer);
     for_each results (fun r =>
       writerow writer
         [CStr (r_title r); CStr (r_address r); CInt (r_built_year r);
          CStr (hyperlink_formula r)]))
    (fun _ => mret tt).

(** [process_link_batch]; [d] is the driver that [make_chrome_driver]
    returns. *)
Definition process_link_batch (d : D) (links : list string) (min_year : Z)
    (city_filter output_csv : string) (worker_id : nat) : IO unit :=
  results ← visit_links worker_id 1 (length links) links min_year city_filter d [];
  let results :=
    match results with
    | [] => results
    | _ => dedupe results [] ∅
    end in
  match results with
  | [] => mret tt
  | _ => write_results output_csv results
  end.

End Worker.

(** ** scraper.py: main *)

(** [math.ceil(n / workers)] for [workers > 0]. *)
Definition ceil_div (n workers : nat) : nat := (n + workers - 1) / workers.

(** Lines 451-454.  [requested] is [WORKERS], any integer.  [None] is the
    [ZeroDivisionError] of [n / 0].  With a negative number of workers
    [range(workers)] is empty: the batch size is computed but no batch is
    cut. *)
Definition make_batches (requested : Z) (links : list string)
  : option (list (list string)) :=
  let n := length links in
  let workers := (requested `min` Z.of_nat n)%Z in
  if (workers =? 0)%Z then None
  else
    let batch_size := ceil_div n (Z.to_nat workers) in
    Some ((fun i => take ((S i) * batch_size - i * batch_size)
                      (drop (i * batch_size) links))
            <$> seq 0 (Z.to_nat workers)).

(** Lines 459-462: the batches handed to the pool, with their worker
    numbers. *)
Fixpoint submit (i : nat) (batches : list (list string))
  : list (nat * list string) :=
  match batches with
  | [] => []
  | [] :: r => submit (S i) r
  | batch :: r => (i, batch) :: submit (S i) r
  end.

Section Main.
Context `{!PyLib} {D : Type} `{!Driver D}.

(** [main] up to the submission of the jobs: the result is the list of
    [(worker_id, batch)] given to [process_link_batch], which the pool
    then runs in parallel. *)
Definition main_with (requested : Z) (master : D) : IO (list (nat * list string)) :=
  match collect_listing_links master SEARCH_URL None 50 with
  | Raise e => raise e
  | Ok links =>
      match links with
      | [] => mret []
      | _ =>
          _ ← with_open OUTPUT_CSV mode_w (fun f => writerow f results_header);
          match make_batches requested links with
          | None => raise "ZeroDivisionError"
          | Some batches =>
              (* ThreadPoolExecutor(max_workers=workers) *)
              if (requested `min` Z.of_nat (length links) <? 0)%Z
              then raise "max_workers must be greater than 0"
              else mret (submit 1 batches)
          end
      end
  end.

Definition main (master : D) : IO (list (nat * list string)) :=
  main_with WORKERS master.

End Main.

(** ** Concrete collaborators for the examples *)

(** A library in which both parametrised checks refuse.  The examples have
    no bracketed host and no non-ASCII authority, so neither check is
    reached on them. *)
#[global] Instance plain_lib : PyLib :=
  {| check_bracketed_netloc := fun _ => false;
     checknetloc_nfkc := fun _ => false |}.

(** A site of static pages.  The browser is at a page or, after a failed
    navigation, nowhere. *)
Record page := mkPage {
  pg_url : string;
  pg_h1 : list string;            (* texts of the h1 elements *)
  pg_address : list string;       (* texts of the address elements *)
  pg_source : string;
  pg_hrefs : list string;         (* anchors matched by every selector *)
  pg_next : option string         (* target of the Next control *)
}.

Record browser := mkBrowser { site : list page; here : option page }.

Definition lookup_page (s : list page) (u : string) : option page :=
  List.find (fun p => String.eqb (pg_url p) u) s.

Definition text_element (t : string) : Element := mkElement t (fun _ => None).

Definition anchor (href : string) : Element :=
  mkElement EmptyString (fun a => if String.eqb a "href" then Some href else None).

Definition browse (b : browser) (u : string) : browser * option string :=
  match lookup_page (site b) u with
  | Some p => (mkBrowser (site b) (Some p), None)
  | None => (mkBrowser (site b) None, Some "net::ERR_NAME_NOT_RESOLVED"%string)
  end.

#[global] Instance static_driver : Driver browser := {|
  get := browse;
  find_elements b _ sel :=
    match here b with
    | None => Some []
    | Some p =>
        if String.eqb sel "h1" then Some (text_element <$> pg_h1 p)
        else if String.eqb sel ".propertyAddress, .property-address, .js-address"
        then Some (text_element <$> pg_address p)
        else if String.eqb sel "meta[name='description']" then Some []
        else Some (anchor <$> pg_hrefs p)
    end;
  page_source b :=
    match here b with
    | Some p => Ok (pg_source p)
    | None => Raise "no such window"
    end;
  current_url b := match here b with Some p => pg_url p | None => "about:blank"%string end;
  reveal b := b;
  advance b :=
    match here b with
    | Some p =>
        match pg_next p with
        | Some u => ((browse b u).1, true)
        | None => (b, false)
        end
    | None => (b, false)
    end
|}.

(** A browser whose tab dies right after every navigation: [driver.get]
    returns, every later query raises. *)
Inductive dead_tab := DeadTab.

#[global] Instance dead_tab_driver : Driver dead_tab := {|
  get d _ := (d, None);
  find_elements _ _ _ := None;
  page_source _ := Raise "no such window: target window already closed";
  current_url _ := "about:blank"%string;
  reveal d := d;
  advance d := (d, false)
|}.

(** A listing that passes both filters. *)
Definition listing_a : page :=
  mkPage "https://apartments.com/the-ave" ["The Ave"] ["12 Pine St, Seattle, WA"]
    "<h1>The Ave</h1> Built in 2024" [] None.

(** The world as [main] leaves it: the result sink with its header. *)
Definition world0 : World :=
  mkWorld {[ "results.csv"%string := [results_header] ]} [] ∅ false.

Definition empty_world : World := mkWorld ∅ [] ∅ false.

(** The first [k] slices of width [bs] of a list, as a recursion on the
    list; [make_batches] computes them by index (lemma
    [make_batches_chunks]). *)
Fixpoint chunks (bs k : nat) (l : list string) : list (list string) :=
  match k with
  | 0 => []
  | S k' => take bs l :: chunks bs k' (drop bs l)
  end.

(** ** Vocabulary of the properties *)

(** *** Sites and inputs of the examples *)

(** A search page on which no selector finds an anchor. *)
Definition empty_search : browser :=
  mkBrowser [mkPage SEARCH_URL [] [] "<html></html>" [] None] None.

(** A site whose Next control goes round in a circle of two pages. *)
Definition circular_site : browser :=
  mkBrowser
    [mkPage SEARCH_URL [] [] "<html></html>"
       ["https://www.apartments.com/the-ave/"%string]
       (Some "https://www.apartments.com/apartments/seattle-wa/2/"%string);
     mkPage "https://www.apartments.com/apartments/seattle-wa/2/" [] []
       "<html></html>" ["https://www.apartments.com/the-bay/"%string]
       (Some SEARCH_URL)]
    None.

(** A browser that can reach one listing. *)
Definition one_listing : browser := mkBrowser [listing_a] None.


(** Two links of one listing, one other listing, and a link without a
    usable key. *)
Definition saved_example : list ResultRow :=
  [mkResult "A" "1 Pine St, Seattle" 2024 "https://www.example.com/a/";
   mkResult "B" "2 Pine St, Seattle" 2023 "https://example.com/b";
   mkResult "A again" "1 Pine St, Seattle" 2024 "https://example.com/a?tour=1";
   mkResult "mail" "Seattle" 2024 "mailto:office@example.com"].

(** *** The dedup pass *)

Section DedupPass.
Context `{!PyLib}.

(** The key of a saved record: the CanonicalURL of its link. *)
Definition key (r : ResultRow) : string := normalize_url (r_url r).

(** The pass without its accumulator. *)
Fixpoint dedupe_from (seen_res : gset string) (results : list ResultRow)
  : list ResultRow :=
  match results with
  | [] => []
  | r :: rest =>
      if decide (key r = EmptyString ∨ key r ∈ seen_res)
      then dedupe_from seen_res rest
      else r :: dedupe_from ({[key r]} ∪ seen_res) rest
  end.

End DedupPass.

(** *** The audit log *)

(** The file system takes a write to [p]: the file can be opened for
    writing and the device is not full. *)
Definition writable (w : World) (p : string) : Prop :=
  (p ∉ denied w) ∧ full w = false.




Section AuditRows.
Context `{!PyLib} {D : Type} `{!Driver D}.


(** The records of a batch in the order of its links; the browser goes
    from each link to the next as in the loop. *)
Fixpoint batch_records (d : D) (links : list string) (min_year : Z)
    (city_filter : string) : list ExtractionRecord :=
  match links with
  | [] => []
  | link :: rest =>
      (visit d link min_year city_filter).2
      :: batch_records (visit d link min_year city_filter).1 rest min_year
           city_filter
  end.

End AuditRows.

#[global] Instance status_eq_dec : EqDecision status.
Proof. solve_decision. Defined.

#[global] Instance cell_eq_dec : EqDecision cell.
Proof. solve_decision. Defined.


(** The tuple that line 383 appends to [results] for a record with the
    status [saved]; the other records give none. *)
Definition saved_row (link : string) (r : ExtractionRecord) : option ResultRow :=
  match rec_status r, built_year r with
  | saved, Some y => Some (mkResult (title r) (address r) y link)
  | _, _ => None
  end.


(** *** The links of a traversal *)

(** The links gathered so far are pairwise different, all of them are in
    the set [seen], and none is the empty sentinel. *)
Definition links_inv (t : Traversal) : Prop :=
  NoDup (collected t) ∧
  (∀ x, x ∈ collected t → x ∈ seen t) ∧
  Forall (fun x => x ≠ EmptyString) (collected t).

(** *** The phrase of the year of construction *)




(** [sub] occurs in [s] when letter case is ignored. *)
Definition ci_substring (sub s : string) : Prop :=
  ∃ pre post, PyStr.lower s = pre +:+ PyStr.lower sub +:+ post.

(** *** Characters of URLs *)

(** Printable ASCII. *)
Definition graphic (c : ascii) : bool := PyStr.between 33 126 c.

(** A character of a path: printable, and neither [?] nor [#]. *)
Definition path_char (c : ascii) : bool :=
  graphic c && negb (PyStr.is_char "?" c) && negb (PyStr.is_char "#" c).

(** [s[-1]] of a string that is not empty. *)
Fixpoint last_char (s : string) : option ascii :=
  match s with
  | EmptyString => None
  | String c EmptyString => Some c
  | String _ s' => last_char s'
  end.

(** *** URLs as they are written *)

(** A character of a host as it is written: printable, no delimiter of
    the authority and no bracket; upper case is allowed. *)
Definition raw_host_char (c : ascii) : bool :=
  graphic c && negb (Urllib.is_delim c) &&
  negb (PyStr.is_char "[" c) && negb (PyStr.is_char "]" c).

Definition url_host (h : string) : bool :=
  PyStr.nonempty h && PyStr.all_chars raw_host_char h.

(** A path: empty or from the root, printable, without [?] and [#]. *)
Definition url_path (p : string) : bool :=
  PyStr.all_chars path_char p &&
  (negb (PyStr.nonempty p) || PyStr.startswith "/" p).

(** What follows the path: nothing, a query, a fragment, or both. *)
Definition url_tail (t : string) : bool :=
  PyStr.all_chars graphic t &&
  (negb (PyStr.nonempty t) || PyStr.startswith "?" t || PyStr.startswith "#" t).

(** [scheme://host/path?query#fragment] from its parts. *)
Definition absolute_url (sch h p t : string) : string :=
  sch +:+ "://" +:+ h +:+ p +:+ t.

(** The text before the first [c], as [urlsplit] cuts off the fragment and
    then the query. *)
Definition cut (c : ascii) (x : string) : string :=
  (if PyStr.has_char c x then PyStr.split1 c x else (x, EmptyString)).1.

(** Neither [?] nor [#]. *)
Definition plain_char (c : ascii) : bool :=
  negb (PyStr.is_char "?" c) && negb (PyStr.is_char "#" c).

(** A link from the root of the site: a path that starts with one slash,
    has no parameters and no segment [.] or [..]. *)
Definition root_relative (p : string) : bool :=
  url_path p && PyStr.nonempty p && negb (PyStr.startswith "//" p) &&
  negb (PyStr.has_char ";" p) &&
  forallb (fun seg => negb (String.eqb seg ".") && negb (String.eqb seg ".."))
    (PyStr.split "/" p).

(** *** Results of normalize_url *)

(** Tab, carriage return and line feed, the characters that [urlsplit]
    removes from its argument. *)
Definition unsafe_char (c : ascii) : bool :=
  PyStr.is_char "009" c || PyStr.is_char "013" c || PyStr.is_char "010" c.

(** A character of a scheme as [urlsplit] returns it, in lower case. *)
Definition valid_scheme_char (c : ascii) : bool :=
  Urllib.scheme_char c && negb (PyStr.isupper c).

(** A scheme as [urlsplit] returns it: it starts with a letter. *)
Definition valid_scheme (s : string) : bool :=
  match s with
  | String c _ => PyStr.isasciialpha c && PyStr.all_chars valid_scheme_char s
  | EmptyString => false
  end.

(** A character of an authority that [urlsplit] has cut out. *)
Definition host_ok (c : ascii) : bool :=
  negb (Urllib.is_delim c) && negb (unsafe_char c).

(** A character of a path that [urlsplit] has cut out. *)
Definition path_ok (c : ascii) : bool :=
  plain_char c && negb (unsafe_char c).

(** [url = '/' + url] of [urlunsplit], for a path that is not empty and
    does not start with [/]. *)
Definition rooted (pth : string) : string :=
  if PyStr.nonempty pth && negb (PyStr.startswith "/" pth)
  then String "/" pth else pth.

(** The parts from which [normalize_url] builds its result. *)
Definition out_parts (sch nl pth : string) : Prop :=
  valid_scheme sch = true ∧
  PyStr.all_chars host_ok nl = true ∧ PyStr.lower nl = nl ∧
  PyStr.all_chars path_ok pth = true ∧
  PyStr.contains "//" pth = false ∧ last_char pth ≠ Some "/"%char ∧
  (nl ≠ EmptyString → pth = EmptyString ∨ PyStr.startswith "/" pth = true).

Section StableResults.
Context `{!PyLib}.

(** The checks of [urlsplit] on an authority: brackets in pairs and
    approved by the library, and the NFKC test. *)
Definition accepts (nl : string) : bool :=
  let ob := PyStr.has_char "[" nl in
  let cb := PyStr.has_char "]" nl in
  negb ((ob && negb cb) || (cb && negb ob)) &&
  (if ob && cb then check_bracketed_netloc nl else true) &&
  Urllib.checknetloc nl.

(** A stable result: the sentinel, or a link without white space at its
    ends that is no [javascript:] and no [mailto:] link, that [urlsplit]
    accepts, whose host does not begin with [www.], and that has a host
    if its scheme is [https]. *)
Definition stable (r : string) : Prop :=
  r = EmptyString ∨
  (PyStr.strip r = r ∧
   PyStr.startswith "javascript:" (PyStr.lower r) = false ∧
   PyStr.startswith "mailto:" (PyStr.lower r) = false ∧
   ∃ p, Urllib.urlsplit r EmptyString = Some p ∧
        PyStr.startswith "www." (Urllib.netloc p) = false ∧
        ¬ (Urllib.scheme p = "https"%string ∧
           Urllib.netloc p = EmptyString)).

End StableResults.

(** * Properties *)

(** ** The result sink *)

Lemma lookup_new_handle (hs : list file_obj) (f : file_obj) :
  (hs ++ [f]) !! length hs = Some f.
Proof. by rewrite lookup_app_r, Nat.sub_diag. Qed.

Lemma writerow_closed (w : World) (h : nat) (f : file_obj) (r : row) :
  handles w !! h = Some f → f_closed f = true →
  writerow h r w = (w, Raise "I/O operation on closed file.").
Proof. intros Hh Hc. unfold writerow. by rewrite Hh, Hc. Qed.

Lemma for_each_closed (w : World) (h : nat) (f : file_obj) (A : Type)
    (l : list A) (mk : A → row) :
  handles w !! h = Some f → f_closed f = true → l ≠ [] →
  for_each l (fun x => writerow h (mk x)) w
  = (w, Raise "I/O operation on closed file.").
Proof.
  intros Hh Hc Hl. destruct l as [|x l]; [done|].
  cbn [for_each]. unfold mbind, IO_bind.
  by rewrite (writerow_closed w h f).
Qed.

Lemma insert_new_handle (hs : list file_obj) (f g : file_obj) :
  <[length hs := g]> (hs ++ [f]) = hs ++ [g].
Proof.
  rewrite insert_app_r_alt, Nat.sub_diag by lia. done.
Qed.

Lemma file_exists_run (p : string) (w : World) :
  file_exists p w
  = match files w !! p with
    | Some _ =>
        (mkWorld (files w) (handles w ++ [mkFile p true]) (denied w) (full w),
         Ok true)
    | None => (w, Ok false)
    end.
Proof.
  unfold file_exists, try_except, mbind, IO_bind, py_open, py_close.
  destruct (files w !! p); [|done]. simpl.
  by rewrite lookup_new_handle, insert_new_handle.
Qed.

(** What [write_results] does to the files whenever it has rows to write:
    a sink that exists is left as it is, a missing one is created, with
    its header if the device takes it, and no row of [results] is
    written. *)
Lemma write_results_files (w : World) (output_csv : string)
    (results : list ResultRow) :
  results ≠ [] →
  files (write_results output_csv results w).1
  = match files w !! output_csv with
    | Some _ => files w
    | None =>
        if decide (output_csv ∈ denied w) then files w
        else <[output_csv := if full w then [] else [results_header]]> (files w)
    end.
Proof.
  intros Hres. unfold write_results, try_except at 1.
  unfold mbind at 1, IO_bind at 1. rewrite file_exists_run.
  destruct (files w !! output_csv) as [rows|] eqn:Hf;
    destruct (decide (output_csv ∈ denied w)) as [Hd|Hd].
  - unfold with_open, mbind, IO_bind, py_open, py_close, try_except, mret,
      IO_ret. simpl. by rewrite decide_True.
  - unfold with_open, mbind, IO_bind, py_open, py_close, try_except, mret,
      IO_ret. simpl. rewrite decide_False, Hf by done.
    simpl. rewrite lookup_new_handle. simpl. rewrite insert_new_handle.
    set (w1 := mkWorld _ _ _ _).
    rewrite (for_each_closed w1 (length (handles w ++ [mkFile output_csv true]))
               (mkFile output_csv true)); [done|apply lookup_new_handle|done|done].
  - unfold with_open, mbind, IO_bind, py_open, py_close, try_except, mret,
      IO_ret. simpl. by rewrite decide_True.
  - unfold with_open, mbind, IO_bind, py_open, py_close, try_except,
      mret, IO_ret. unfold writerow at 1. simpl. rewrite decide_False by done.
    simpl. rewrite lookup_new_handle. simpl.
    destruct (full w) eqn:Hfull; simpl.
    + rewrite lookup_new_handle. by simpl.
    + rewrite lookup_new_handle. simpl.
      rewrite insert_new_handle, lookup_insert_eq, insert_insert_eq. simpl.
      set (w1 := mkWorld _ _ _ _).
      rewrite (for_each_closed w1 (length (handles w))
                 (mkFile output_csv true)); [done|apply lookup_new_handle|done|done].
Qed.

Lemma try_except_unit (m : IO unit) (w : World) :
  (try_except m (fun _ => mret tt) w).2 = Ok tt.
Proof. unfold try_except. by destruct (m w) as [w' [[]|e]]. Qed.

(** Whatever the file system does, the call returns normally. *)
Lemma append_log_row_ok (w : World) (logfile : string) (r : row) :
  (_append_log_row logfile r w).2 = Ok tt.
Proof. apply try_except_unit. Qed.

(** The world that a call leaves, in every state of the file system. *)
Lemma append_log_row_run (w : World) (logfile : string) (r : row) :
  ∃ opened,
    Forall (fun f => f_closed f = true) opened ∧
    (_append_log_row logfile r w).1
    = mkWorld
        (if decide (logfile ∈ denied w) then files w
         else if full w then
           match files w !! logfile with
           | Some _ => files w
           | None => <[logfile := []]> (files w)
           end
         else
           <[logfile := match files w !! logfile with
                        | Some rows => rows ++ [r]
                        | None => [log_header; r]
                        end]> (files w))
        (handles w ++ opened) (denied w) (full w).
Proof.
  unfold _append_log_row, try_except at 1.
  unfold mbind at 1, IO_bind at 1. rewrite file_exists_run.
  destruct (decide (logfile ∈ denied w)) as [Hd|Hd];
    [|destruct (full w) eqn:Hfull];
    destruct (files w !! logfile) as [rows|] eqn:Hf.
  - unfold with_open, mbind, IO_bind, py_open, py_close, try_except,
      mret, IO_ret, writerow, raise. simpl. rewrite decide_True by done.
    exists [mkFile logfile true]. split; [by repeat constructor|done].
  - unfold with_open, mbind, IO_bind, py_open, py_close, try_except,
      mret, IO_ret, writerow, raise. simpl. rewrite decide_True by done.
    exists []. split; [constructor|]. rewrite app_nil_r. by destruct w.
  - unfold with_open, mbind, IO_bind, py_open, py_close, try_except,
      mret, IO_ret, writerow, raise. simpl.
    rewrite decide_False, Hf by done. simpl.
    repeat first [rewrite lookup_new_handle; simpl | rewrite Hfull; simpl].
    rewrite insert_new_handle.
    exists [mkFile logfile true; mkFile logfile true].
    split; [by repeat constructor|]. by rewrite <- app_assoc.
  - unfold with_open, mbind, IO_bind, py_open, py_close, try_except,
      mret, IO_ret, writerow, raise. simpl.
    rewrite decide_False, Hf by done. simpl.
    repeat first [rewrite lookup_new_handle; simpl | rewrite Hfull; simpl].
    rewrite insert_new_handle.
    exists [mkFile logfile true]. split; [by repeat constructor|done].
  - unfold with_open, mbind, IO_bind, py_open, py_close, try_except,
      mret, IO_ret, writerow, raise. simpl.
    rewrite decide_False, Hf by done. simpl.
    repeat first [rewrite lookup_new_handle; simpl | rewrite Hfull; simpl].
    rewrite insert_new_handle, Hf.
    exists [mkFile logfile true; mkFile logfile true].
    split; [by repeat constructor|]. by rewrite <- app_assoc.
  - unfold with_open, mbind, IO_bind, py_open, py_close, try_except,
      mret, IO_ret, writerow, raise. simpl.
    rewrite decide_False, Hf by done. simpl.
    repeat first [rewrite lookup_new_handle; simpl | rewrite Hfull; simpl].
    rewrite insert_new_handle, !lookup_insert_eq, !insert_insert_eq.
    exists [mkFile logfile true]. split; [by repeat constructor|done].
Qed.


(** What the file system refuses does not change. *)
Lemma append_log_row_env (w : World) (logfile : string) (r : row) :
  denied (_append_log_row logfile r w).1 = denied w ∧
  full (_append_log_row logfile r w).1 = full w.
Proof.
  by destruct (append_log_row_run w logfile r) as (opened & _ & ->).
Qed.

(** The files beside the log are not touched. *)
Lemma append_log_row_frame (w : World) (logfile : string) (r : row)
    (p : string) :
  p ≠ logfile →
  files (_append_log_row logfile r w).1 !! p = files w !! p.
Proof.
  intros Hp. destruct (append_log_row_run w logfile r) as (opened & _ & ->).
  cbn [files].
  destruct (decide _); [done|].
  destruct (full w); [destruct (files w !! logfile); [done|]|];
    by rewrite lookup_insert_ne.
Qed.


(** C1, at a batch of one link that passes every filter: the audit log
    gets the row with status [saved], but the result sink still holds its
    header only.  The rows are written after the [with] block has closed
    the file, the write raises and the handler swallows it. *)
Theorem C1_saved_row_not_written :
  let w := (process_link_batch (mkBrowser [listing_a] None)
              ["https://apartments.com/the-ave"%string]
              MIN_YEAR CITY_FILTER OUTPUT_CSV 1 world0).1 in
  files w !! OUTPUT_CSV = Some [results_header] ∧
  files w !! log_file
  = Some [log_header;
          [CInt 1; CInt 1; CInt 1; CStr "The Ave";
           CStr "12 Pine St, Seattle, WA";
           CStr "https://apartments.com/the-ave"; CInt 2024;
           CStr "saved"; CStr "Built in 2024"]].
Proof. split; vm_compute; reflexivity. Qed.

(** ** normalize_url on the inputs of the specification *)

(** C4 as stated fails: the result does not have the scheme [https]. *)
Lemma C4_result_is_not_https :
  normalize_url "HTTP://WWW.Example.com//a//b/" ≠ "https://example.com/a/b"%string.
Proof. vm_compute. discriminate. Qed.

(** C4, amended: the host is lower-cased and loses its leading [www.],
    the slashes of the path are collapsed, the trailing slash goes, and
    the scheme is the lower-cased scheme of the input, [http]. *)
Theorem C4_normalize_example `{!PyLib} :
  normalize_url "HTTP://WWW.Example.com//a//b/" = "http://example.com/a/b"%string.
Proof. vm_compute. reflexivity. Qed.

(** C5, at a [tel:] link: it is returned as it is, not the empty
    sentinel. *)
Theorem C5_tel_is_not_rejected `{!PyLib} :
  normalize_url "tel:+12065550100" = "tel:+12065550100"%string.
Proof. vm_compute. reflexivity. Qed.

(** The two schemes that the code tests for give the sentinel. *)
Lemma normalize_javascript_mailto `{!PyLib} :
  normalize_url "javascript:void(0)" = EmptyString ∧
  normalize_url "mailto:a@b.com" = EmptyString.
Proof. split; vm_compute; reflexivity. Qed.

(** C10 as stated fails: each application removes one leading [www.]. *)
Lemma C10_not_idempotent :
  normalize_url (normalize_url "http://www.www.a.com")
  ≠ normalize_url "http://www.www.a.com".
Proof. vm_compute. discriminate. Qed.

(** Other ways in which a second call changes the result: a space before
    the slash at the end of the path is stripped only by the second
    call. *)
Lemma normalize_space_before_slash :
  normalize_url "http://a.com/x /" = String.append "http://a.com/x" " " ∧
  normalize_url (normalize_url "http://a.com/x /") = "http://a.com/x"%string.
Proof. split; vm_compute; reflexivity. Qed.

(** A tab inside the scheme hides a [javascript:] link from the test of
    line 47; [urlsplit] removes the tab, and the second call rejects what
    the first one returned. *)
Lemma normalize_tab_in_scheme :
  normalize_url ("java" +:+ String "009" "script:x") = "javascript:x"%string ∧
  normalize_url (normalize_url ("java" +:+ String "009" "script:x"))
  = EmptyString.
Proof. split; vm_compute; reflexivity. Qed.

(** A host that is nothing but [www.] leaves an [https] link without a
    host, which the second call takes for a relative link. *)
Lemma normalize_www_only :
  normalize_url "https://www./x" = "https:///x"%string ∧
  normalize_url (normalize_url "https://www./x")
  = "https://apartments.com/x"%string.
Proof. split; vm_compute; reflexivity. Qed.

(** ** main without links *)

(** C3 as stated fails: after a traversal without links no job is
    submitted, and the result sink does not exist. *)
Lemma C3_sink_is_not_created :
  collect_listing_links empty_search SEARCH_URL None 50 = Ok [] ∧
  (main empty_search empty_world).2 = Ok [] ∧
  files (main empty_search empty_world).1 !! OUTPUT_CSV = None.
Proof. repeat split; vm_compute; reflexivity. Qed.

Section MainProps.
Context `{!PyLib} {D : Type} `{!Driver D}.

(** C3, amended: when the traversal yields no link, [main] returns before
    the header is written; it submits no job and leaves every file as it
    was. *)
Theorem C3_no_links_no_workers (master : D) (w : World) :
  collect_listing_links master SEARCH_URL None 50 = Ok [] →
  main master w = (w, Ok []).
Proof. intros Hl. unfold main, main_with. by rewrite Hl. Qed.

End MainProps.

Lemma C3_no_links_no_workers_witness :
  collect_listing_links empty_search SEARCH_URL None 50 = Ok [] ∧
  main empty_search empty_world = (empty_world, Ok []).
Proof.
  split; [vm_compute; reflexivity|].
  apply (C3_no_links_no_workers empty_search empty_world).
  vm_compute; reflexivity.
Defined.

(** ** The work partitioner *)

Lemma ceil_div_covers (n w : nat) : 0 < w → n ≤ w * ceil_div n w.
Proof.
  intros Hw. unfold ceil_div.
  pose proof (Nat.div_mod_eq (n + w - 1) w) as Hd.
  pose proof (Nat.mod_upper_bound (n + w - 1) w) as Hm. lia.
Qed.

Lemma ceil_div_pos (n w : nat) : 0 < w → 0 < n → 0 < ceil_div n w.
Proof.
  intros Hw Hn. pose proof (ceil_div_covers n w Hw).
  destruct (ceil_div n w); lia.
Qed.

Lemma slice_width (i bs : nat) : S i * bs - i * bs = bs.
Proof. cbn. lia. Qed.

Lemma slices_chunks (bs k : nat) (l : list string) :
  (fun i => take (S i * bs - i * bs) (drop (i * bs) l)) <$> seq 0 k
  = chunks bs k l.
Proof.
  rewrite (list_fmap_ext _ (fun i => take bs (drop (i * bs) l)))
    by (intros; by rewrite slice_width).
  revert l. induction k as [|k IH]; intros l; [done|].
  cbn [seq chunks fmap list_fmap]. f_equal.
  rewrite <- IH, <- fmap_S_seq, <- list_fmap_compose.
  apply list_fmap_ext. intros _ i _. cbn.
  by rewrite drop_drop.
Qed.

Lemma make_batches_chunks (requested : nat) (links : list string) :
  0 < requested `min` length links →
  make_batches (Z.of_nat requested) links
  = Some (chunks (ceil_div (length links) (requested `min` length links))
            (requested `min` length links) links).
Proof.
  intros Hw. unfold make_batches.
  assert (Z.to_nat (Z.of_nat requested `min` Z.of_nat (length links))
          = requested `min` length links) as -> by lia.
  destruct (Z.eqb_spec (Z.of_nat requested `min` Z.of_nat (length links)) 0);
    [lia|].
  by rewrite slices_chunks.
Qed.









(** ** The dedup pass of the result sink *)

Section Dedup.
Context `{!PyLib}.

Lemma nonempty_false (s : string) : PyStr.nonempty s = false ↔ s = EmptyString.
Proof. by destruct s. Qed.

Lemma dedupe_acc (results unique : list ResultRow) (seen_res : gset string) :
  dedupe results unique seen_res = unique ++ dedupe_from seen_res results.
Proof.
  revert unique seen_res.
  induction results as [|r rest IH]; intros unique seen_res; cbn.
  - by rewrite app_nil_r.
  - fold (key r). destruct (decide _) as [Hskip|Hkeep].
    + assert (negb (PyStr.nonempty (key r)) || bool_decide (key r ∈ seen_res) = true)
        as ->; [|apply IH].
      destruct Hskip as [->|Hin]; [done|].
      rewrite (bool_decide_eq_true_2 _ Hin). apply orb_true_r.
    + assert (negb (PyStr.nonempty (key r)) || bool_decide (key r ∈ seen_res) = false)
        as ->.
      { apply orb_false_iff. split.
        - destruct (key r); [|done]. contradict Hkeep. by left.
        - apply bool_decide_eq_false_2. intros Hin. apply Hkeep. by right. }
      rewrite IH, <- app_assoc. done.
Qed.

Lemma dedupe_from_sublist (seen_res : gset string) (results : list ResultRow) :
  dedupe_from seen_res results `sublist_of` results.
Proof.
  revert seen_res. induction results as [|r rest IH]; intros seen_res; cbn.
  - constructor.
  - destruct (decide _); [apply sublist_cons|apply sublist_skip]; apply IH.
Qed.

Lemma dedupe_from_keys (seen_res : gset string) (results : list ResultRow) (r : ResultRow) :
  r ∈ dedupe_from seen_res results →
  key r ≠ EmptyString ∧ key r ∉ seen_res.
Proof.
  revert seen_res. induction results as [|r0 rest IH]; intros seen_res; cbn.
  - intros Hin. by apply elem_of_nil in Hin.
  - destruct (decide _) as [Hskip|Hkeep]; [apply IH|].
    intros [->|Hin]%elem_of_cons.
    + split; intros ?; apply Hkeep; auto.
    + destruct (IH _ Hin) as [? Hnot]. split; [done|]. set_solver.
Qed.

Lemma dedupe_from_NoDup (seen_res : gset string) (results : list ResultRow) :
  NoDup (key <$> dedupe_from seen_res results).
Proof.
  revert seen_res. induction results as [|r rest IH]; intros seen_res; cbn.
  - constructor.
  - destruct (decide _) as [Hskip|Hkeep]; [apply IH|].
    cbn. constructor; [|apply IH].
    intros (r' & Heq & Hin)%list_elem_of_fmap.
    apply dedupe_from_keys in Hin as [_ Hnot]. set_solver.
Qed.

Lemma dedupe_from_first (seen_res : gset string) (results : list ResultRow)
    (k : string) :
  k ≠ EmptyString →
  filter (fun r => key r = k) (dedupe_from seen_res results)
  = if decide (k ∈ seen_res) then []
    else take 1 (filter (fun r => key r = k) results).
Proof.
  intros Hk. revert seen_res.
  induction results as [|r rest IH]; intros seen_res; cbn [dedupe_from].
  - by destruct (decide _).
  - destruct (decide (key r = EmptyString ∨ key r ∈ seen_res)) as [Hskip|Hkeep].
    + rewrite IH. rewrite filter_cons.
      destruct (decide (key r = k)) as [Heq|Hne]; [|done].
      destruct (decide (k ∈ seen_res)) as [|Hnot]; [done|].
      destruct Hskip as [He|Hin]; congruence.
    + rewrite !filter_cons.
      destruct (decide (key r = k)) as [Heq|Hne].
      * rewrite IH. rewrite decide_True by set_solver.
        rewrite decide_False; [done|]. intros Hin. apply Hkeep. right. congruence.
      * rewrite IH. destruct (decide (k ∈ seen_res)) as [Hin|Hnot].
        -- by rewrite decide_True by set_solver.
        -- by rewrite decide_False by set_solver.
Qed.

(** C8: the dedup pass returns a subsequence of the saved records, in
    their order, with pairwise different keys; for every usable key (one
    that is not the unusable sentinel) the records of the output with that
    key are the first such record of the input and no other; records whose
    key is the sentinel are not kept. *)
Theorem C8_dedupe_keeps_first (results : list ResultRow) :
  let out := dedupe results [] ∅ in
  out `sublist_of` results ∧
  NoDup (key <$> out) ∧
  (∀ k, k ≠ EmptyString →
     filter (fun r => key r = k) out
     = take 1 (filter (fun r => key r = k) results)) ∧
  (∀ r, r ∈ out → key r ≠ EmptyString).
Proof.
  cbn. rewrite dedupe_acc. cbn [app].
  split; [apply dedupe_from_sublist|].
  split; [apply dedupe_from_NoDup|].
  split.
  - intros k Hk. rewrite dedupe_from_first by done.
    by rewrite decide_False by set_solver.
  - intros r Hin. by apply dedupe_from_keys in Hin as [? _].
Qed.

End Dedup.

Lemma C8_dedupe_keeps_first_witness :
  "https://example.com/a"%string ≠ EmptyString ∧
  filter (fun r => key r = "https://example.com/a"%string)
    (dedupe saved_example [] ∅)
  = take 1 (filter (fun r => key r = "https://example.com/a"%string) saved_example) ∧
  dedupe saved_example [] ∅
  = [mkResult "A" "1 Pine St, Seattle" 2024 "https://www.example.com/a/";
     mkResult "B" "2 Pine St, Seattle" 2023 "https://example.com/b"].
Proof.
  split; [done|]. split.
  - apply (proj1 (proj2 (proj2 (C8_dedupe_keeps_first saved_example)))
             "https://example.com/a"%string).
    done.
  - vm_compute. reflexivity.
Defined.

(** ** The audit log *)

Section Audit.
Context `{!PyLib} {D : Type} `{!Driver D}.




(** One iteration of the loop of a worker. *)
Lemma visit_links_cons (worker_id idx total : nat) (link : string)
    (rest : list string) (min_year : Z) (city_filter : string) (d : D)
    (results : list ResultRow) (w : World) :
  visit_links worker_id idx total (link :: rest) min_year city_filter d results w
  = visit_links worker_id (S idx) total rest min_year city_filter
      (visit d link min_year city_filter).1
      (results ++ option_list (saved_row link (visit d link min_year city_filter).2))
      (_append_log_row log_file
         (log_row worker_id idx total link (visit d link min_year city_filter).2)
         w).1.
Proof.
  cbn [visit_links]. destruct (visit d link min_year city_filter) as [d1 r].
  cbn [fst snd]. unfold mbind, IO_bind.
  pose proof (append_log_row_ok w log_file
                (log_row worker_id idx total link r)) as Hok.
  destruct (_append_log_row log_file _ w) as [w1 res].
  cbn [fst snd] in *. subst res. f_equal.
  unfold saved_row. destruct (rec_status r), (built_year r); cbn;
    by rewrite ?app_nil_r.
Qed.


(** The rows that the loop keeps for the result sink: it never raises. *)
Lemma visit_links_result (worker_id idx total : nat) (links : list string)
    (min_year : Z) (city_filter : string) (d : D) (results : list ResultRow)
    (w : World) :
  (visit_links worker_id idx total links min_year city_filter d results w).2
  = Ok (results ++ omap (fun lr => saved_row lr.1 lr.2)
                    (zip links (batch_records d links min_year city_filter))).
Proof.
  revert idx d results w.
  induction links as [|link rest IH]; intros idx d results w.
  - cbn. by rewrite app_nil_r.
  - rewrite visit_links_cons, IH. cbn [batch_records zip_with omap list_omap fst snd].
    destruct (saved_row link _); cbn; by rewrite <- app_assoc.
Qed.

(** The loop touches the audit log only, and leaves what the file system
    refuses as it is. *)
Lemma visit_links_frame (worker_id idx total : nat) (links : list string)
    (min_year : Z) (city_filter : string) (d : D) (results : list ResultRow)
    (w : World) :
  let w' := (visit_links worker_id idx total links min_year city_filter d
               results w).1 in
  denied w' = denied w ∧ full w' = full w ∧
  ∀ p, p ≠ log_file → files w' !! p = files w !! p.
Proof.
  cbn zeta. revert idx d results w.
  induction links as [|link rest IH]; intros idx d results w; [done|].
  rewrite visit_links_cons.
  match goal with |- context [visit_links _ _ _ _ _ _ ?d1 ?res1 ?w1] =>
    destruct (IH (S idx) d1 res1 w1) as (-> & -> & Hother) end.
  destruct (append_log_row_env w log_file
              (log_row worker_id idx total link
                 (visit d link min_year city_filter).2)) as [-> ->].
  split; [done|]. split; [done|].
  intros p Hp. by rewrite Hother, append_log_row_frame.
Qed.







End Audit.



(** ** The pagination traversal *)

Section Pagination.
Context `{!PyLib} {D : Type} `{!Driver D}.

Lemma gather_pages (elems : list Element) (t : Traversal) (pl : list string) :
  visited_page_urls (gather elems t pl).1 = visited_page_urls t ∧
  page_index (gather elems t pl).1 = page_index t.
Proof.
  revert t pl. induction elems as [|e r IH]; intros t pl; cbn; [done|].
  destruct (get_attribute e "href") as [raw|]; [|apply IH].
  destruct (negb (PyStr.nonempty raw)); [apply IH|].
  destruct (negb (PyStr.nonempty (normalize_url raw))); [apply IH|].
  destruct (decide _); [apply IH|].
  destruct (IH (mkTraversal (collected t ++ [normalize_url raw])
                  ({[normalize_url raw]} ∪ seen t) (visited_page_urls t)
                  (page_index t)) (pl ++ [normalize_url raw])) as [-> ->].
  done.
Qed.

Lemma gather_selectors_pages (d : D) (sels : list string) (t : Traversal)
    (pl : list string) :
  visited_page_urls (gather_selectors d sels t pl).1 = visited_page_urls t ∧
  page_index (gather_selectors d sels t pl).1 = page_index t.
Proof.
  revert t pl. induction sels as [|sel r IH]; intros t pl;
    cbn [gather_selectors]; [done|].
  destruct (find_elements d CSS_SELECTOR sel) as [elems|]; [|apply IH].
  pose proof (gather_pages elems t pl) as Hg.
  destruct (gather elems t pl) as [t' pl']. cbn in Hg.
  destruct (30 <=? length pl'); [done|].
  destruct (IH t' pl') as [-> ->]. done.
Qed.

Lemma gather_fallback_pages (d : D) (t : Traversal) (pl : list string) :
  visited_page_urls (gather_fallback d t pl).1 = visited_page_urls t ∧
  page_index (gather_fallback d t pl).1 = page_index t.
Proof.
  unfold gather_fallback. destruct pl; [|done].
  destruct (find_elements d CSS_SELECTOR _); [apply gather_pages|done].
Qed.

(** The loop guard: at a page whose URL was visited, the loop is left at
    once, with nothing read from the page and no Next control tried. *)
Lemma paginate_guard (remaining : nat) (max_listings : option nat) (d : D)
    (t : Traversal) :
  current_url d ∈ visited_page_urls t →
  paginate (S remaining) max_listings d t
  = mkTraversal (collected t) (seen t) (visited_page_urls t) (S (page_index t)).
Proof. intros Hin. cbn. by rewrite decide_True. Qed.

(** The iterations counted by [page_index]: no more than the values of the
    range, and all but the last one at a page URL that was new. *)
Lemma paginate_bounds (remaining : nat) (max_listings : option nat) (d : D)
    (t : Traversal) :
  let t' := paginate remaining max_listings d t in
  page_index t' ≤ page_index t + remaining ∧
  visited_page_urls t ⊆ visited_page_urls t' ∧
  page_index t' + size (visited_page_urls t)
  ≤ S (page_index t + size (visited_page_urls t')).
Proof.
  revert d t. induction remaining as [|n IH]; intros d t; cbn [paginate].
  - split; [lia|]. split; [done|lia].
  - cbn [visited_page_urls page_index collected seen].
    destruct (decide (current_url d ∈ visited_page_urls t)) as [Hin|Hnew];
      cbn [visited_page_urls page_index];
      [split; [lia|]; split; [done|lia]|].
    set (t0 := mkTraversal (collected t) (seen t)
                 ({[current_url d]} ∪ visited_page_urls t) (S (page_index t))).
    pose proof (gather_selectors_pages (reveal d) link_selectors t0 []) as Hs.
    destruct (gather_selectors (reveal d) link_selectors t0 []) as [t1 pl1].
    pose proof (gather_fallback_pages (reveal d) t1 pl1) as Hb.
    destruct (gather_fallback (reveal d) t1 pl1) as [t2 pl2].
    cbn [fst] in Hs, Hb. destruct Hs as [Hs1 Hs2], Hb as [Hb1 Hb2].
    rewrite Hs1 in Hb1. rewrite Hs2 in Hb2. cbn [visited_page_urls page_index t0] in Hb1, Hb2.
    assert (size (visited_page_urls t2) = S (size (visited_page_urls t))) as Hsz.
    { rewrite Hb1, size_union, size_singleton by set_solver. done. }
    assert (visited_page_urls t ⊆ visited_page_urls t2) as Hsub
      by (rewrite Hb1; set_solver).
    destruct (reached max_listings _); [split; [lia|]; split; [done|lia]|].
    destruct (reached MAX_LISTINGS _); [split; [lia|]; split; [done|lia]|].
    destruct (advance (reveal d)) as [d' found_next].
    destruct found_next; [|split; [lia|]; split; [done|lia]].
    destruct (IH d' t2) as (Hi1 & Hi2 & Hi3).
    split; [lia|]. split; [by etrans|lia].
Qed.

(** C9: the traversal is a total function of the browser, so it returns
    whatever the pages and their Next controls do.  It runs at most
    [max_pages] iterations, and at most one more than the number of
    different page URLs it has been at; an iteration that finds the
    browser at a page URL already visited leaves the loop at once. *)
Theorem C9_pagination_terminates (d : D) (search_url : string)
    (max_listings : option nat) (max_pages : nat) :
  (match traverse d search_url max_listings max_pages with
   | Ok t =>
       page_index t ≤ max_pages ∧
       page_index t ≤ S (size (visited_page_urls t))
   | Raise _ => True
   end) ∧
  (∀ (remaining : nat) (d1 : D) (t : Traversal),
     current_url d1 ∈ visited_page_urls t →
     paginate (S remaining) max_listings d1 t
     = mkTraversal (collected t) (seen t) (visited_page_urls t)
         (S (page_index t))).
Proof.
  split; [|intros; by apply paginate_guard].
  unfold traverse. destruct (get d search_url) as [d0 [e|]]; [done|].
  pose proof (paginate_bounds max_pages max_listings d0
                (mkTraversal [] ∅ ∅ 0)) as (Hb1 & _ & Hb3).
  cbn -[size] in Hb1, Hb3. rewrite size_empty in Hb3. split; lia.
Qed.

End Pagination.

(** On the circular site the traversal stops in its third iteration, back
    at the first page, with fifty iterations allowed. *)
Lemma C9_pagination_terminates_witness :
  (∃ t, traverse circular_site SEARCH_URL None 50 = Ok t ∧
        page_index t = 3 ∧ size (visited_page_urls t) = 2 ∧
        collected t = ["https://apartments.com/the-ave";
                       "https://apartments.com/the-bay"]%string) ∧
  let d1 := (get circular_site SEARCH_URL).1 in
  let t1 := mkTraversal [] ∅ {[SEARCH_URL]} 1 in
  current_url d1 ∈ visited_page_urls t1 ∧
  paginate 49 None d1 t1 = mkTraversal [] ∅ {[SEARCH_URL]} 2.
Proof.
  split.
  - eexists. split; [vm_compute; reflexivity|]. vm_compute. done.
  - intros d1 t1. split; [vm_compute; set_solver|].
    apply (proj2 (C9_pagination_terminates circular_site SEARCH_URL None 50)
             48 d1 t1).
    vm_compute. set_solver.
Defined.

(** ** Strings *)

Module StrFacts.
Import PyStr.

Lemma sapp_nil_l (s : string) : EmptyString +:+ s = s.
Proof. reflexivity. Qed.

Lemma sapp_cons (c : ascii) (s t : string) :
  String c s +:+ t = String c (s +:+ t).
Proof. reflexivity. Qed.

Lemma sapp_nil_r (s : string) : s +:+ EmptyString = s.
Proof. induction s as [|c s IH]; [done|]. by rewrite sapp_cons, IH. Qed.

Lemma sapp_assoc (s t u : string) : (s +:+ t) +:+ u = s +:+ (t +:+ u).
Proof. induction s as [|c s IH]; [done|]. by rewrite !sapp_cons, IH. Qed.

Lemma lower_app (s t : string) : lower (s +:+ t) = lower s +:+ lower t.
Proof. induction s as [|c s IH]; [done|]. rewrite sapp_cons. cbn. by rewrite IH. Qed.

Lemma all_chars_app (p : ascii → bool) (s t : string) :
  all_chars p (s +:+ t) = all_chars p s && all_chars p t.
Proof.
  induction s as [|c s IH]; [done|]. rewrite sapp_cons. cbn.
  by rewrite IH, andb_assoc.
Qed.

Lemma startswith_app (pre post : string) : startswith pre (pre +:+ post) = true.
Proof.
  induction pre as [|c pre IH]; [done|]. rewrite sapp_cons. cbn.
  by rewrite Ascii.eqb_refl, IH.
Qed.

Lemma startswith_inv (pre s : string) :
  startswith pre s = true → ∃ post, s = pre +:+ post.
Proof.
  revert s. induction pre as [|c pre IH]; intros s Hs.
  - by exists s.
  - destruct s as [|c' s]; [done|]. cbn in Hs.
    apply andb_true_iff in Hs as [Hc Hs]. apply Ascii.eqb_eq in Hc as ->.
    destruct (IH s Hs) as [post ->]. by exists post.
Qed.

(** [sub in s] holds exactly when [s] is some text, [sub], and some text. *)
Lemma contains_spec (sub s : string) :
  contains sub s = true ↔ ∃ pre post, s = pre +:+ sub +:+ post.
Proof.
  split.
  - induction s as [|c s IH]; cbn; intros Hc.
    + rewrite orb_false_r in Hc. apply startswith_inv in Hc as [post ->].
      by exists EmptyString, post.
    + apply orb_true_iff in Hc as [Hc|Hc].
      * apply startswith_inv in Hc as [post ->]. by exists EmptyString, post.
      * destruct (IH Hc) as (pre & post & ->). by exists (String c pre), post.
  - intros (pre & post & ->). induction pre as [|c pre IH].
    + rewrite sapp_nil_l. destruct (sub +:+ post) eqn:E; cbn; rewrite <- E;
        by rewrite startswith_app.
    + rewrite sapp_cons. cbn. rewrite IH. apply orb_true_r.
Qed.

Lemma lstrip_app_all (p : ascii → bool) (ws s : string) :
  all_chars p ws = true → lstrip p (ws +:+ s) = lstrip p s.
Proof.
  induction ws as [|c ws IH]; [done|]. cbn. intros [Hc Hws]%andb_true_iff.
  rewrite sapp_cons. cbn. rewrite Hc. by apply IH.
Qed.



End StrFacts.

(** ** The extraction pipeline *)

Module ReFacts.
Import PyStr StrFacts Re.









Lemma search_built_in_inv (s : string) (y : Z) :
  search_built_in s = Some y →
  ∃ pre suf, s = pre +:+ suf ∧ match_built_in suf = Some y.
Proof.
  induction s as [|c s IH]; cbn [search_built_in].
  - destruct (match_built_in EmptyString) eqn:Hm; [|done].
    intros [= <-]. by exists EmptyString, EmptyString.
  - destruct (match_built_in (String c s)) eqn:Hm.
    + intros [= <-]. by exists EmptyString, (String c s).
    + intros Hs. destruct (IH Hs) as (pre & suf & -> & Hsuf).
      by exists (String c pre), suf.
Qed.



Lemma contains_ci (sub s : string) :
  contains (lower sub) (lower s) = true ↔ ci_substring sub s.
Proof. apply contains_spec. Qed.

End ReFacts.

Section Pipeline.
Context `{!PyLib} {D : Type} `{!Driver D}.
Import PyStr.

Lemma classify_address (ttl addr page_text : string) (min_year : Z)
    (city_filter : string) :
  address (classify ttl addr page_text min_year city_filter) = addr.
Proof.
  unfold classify. destruct (Re.search_built_in page_text); [|done].
  destruct (_ <? _)%Z; [done|]. by destruct (_ && _).
Qed.

Lemma classify_status (ttl addr page_text : string) (min_year : Z)
    (city_filter : string) :
  let r := classify ttl addr page_text min_year city_filter in
  match Re.search_built_in page_text with
  | None => rec_status r = no_built_in ∧ built_year r = None
  | Some y =>
      built_year r = Some y ∧
      rec_status r
      = if (y <? min_year)%Z then too_old
        else if nonempty city_filter &&
                (negb (nonempty addr) ||
                 negb (contains (lower city_filter) (lower addr)))
             then city_mismatch else saved
  end.
Proof.
  unfold classify. destruct (Re.search_built_in page_text); [|done].
  destruct (_ <? _)%Z; [done|]. by destruct (_ && _).
Qed.


End Pipeline.



(** ** Characters and parts of URLs *)

Module CharFacts.
Import PyStr StrFacts Urllib.

Lemma graphic_facts (c : ascii) :
  graphic c = true →
  isspace c = false ∧ isascii c = true ∧
  is_char "009" c = false ∧ is_char "013" c = false ∧ is_char "010" c = false.
Proof. destruct c as [[] [] [] [] [] [] [] []]; vm_compute; intuition congruence. Qed.

Lemma path_char_facts (c : ascii) :
  path_char c = true →
  graphic c = true ∧ is_char "?" c = false ∧ is_char "#" c = false.
Proof. destruct c as [[] [] [] [] [] [] [] []]; vm_compute; intuition congruence. Qed.

Lemma all_chars_impl (p q : ascii → bool) (s : string) :
  (∀ c, p c = true → q c = true) → all_chars p s = true → all_chars q s = true.
Proof.
  intros Hpq. induction s as [|c s IH]; [done|]. cbn.
  intros [Hc Hs]%andb_true_iff. by rewrite (Hpq c Hc), IH.
Qed.

Lemma has_char_none (a : ascii) (p : ascii → bool) (s : string) :
  (∀ c, p c = true → is_char a c = false) →
  all_chars p s = true → has_char a s = false.
Proof.
  intros Hp. induction s as [|c s IH]; [done|]. cbn.
  intros [Hc Hs]%andb_true_iff. by rewrite (Hp c Hc), IH.
Qed.

Lemma remove_none (a : ascii) (s : string) :
  has_char a s = false → remove a s = s.
Proof.
  induction s as [|c s IH]; [done|]. cbn.
  intros [Hc Hs]%orb_false_iff. by rewrite Hc, IH.
Qed.

Lemma remove_unsafe_graphic (s : string) :
  all_chars graphic s = true → remove_unsafe s = s.
Proof.
  intros Hs. unfold remove_unsafe.
  rewrite (remove_none "009"), (remove_none "013"), (remove_none "010"); try done;
    apply (has_char_none _ graphic); try done; intros c Hc;
    by destruct (graphic_facts c Hc) as (_ & _ & ? & ? & ?).
Qed.

Lemma rstrip_none (q : ascii → bool) (s : string) :
  all_chars (fun c => negb (q c)) s = true → rstrip q s = s.
Proof.
  induction s as [|c s IH]; [done|]. cbn.
  intros [Hc Hs]%andb_true_iff. rewrite (IH Hs).
  apply negb_true_iff in Hc. rewrite Hc. by destruct s.
Qed.

Lemma strip_graphic (s : string) : all_chars graphic s = true → strip s = s.
Proof.
  intros Hs. unfold strip.
  assert (all_chars (fun c => negb (isspace c)) s = true) as Hns.
  { apply (all_chars_impl graphic); [|done]. intros c Hc.
    by destruct (graphic_facts c Hc) as [-> _]. }
  assert (lstrip isspace s = s) as ->; [|by apply rstrip_none].
  destruct s as [|c s]; [done|]. cbn in *.
  apply andb_true_iff in Hns as [Hc _]. apply negb_true_iff in Hc. by rewrite Hc.
Qed.

Lemma span_netloc_app (s : string) :
  s = (span_netloc s).1 +:+ (span_netloc s).2.
Proof.
  induction s as [|c s IH]; [done|]. cbn.
  destruct (is_delim c); [done|].
  destruct (span_netloc s) as [n r]. cbn in *. by rewrite sapp_cons, <- IH.
Qed.

Lemma re_sub_slashes_id (p : string) :
  contains "//" p = false → re_sub_slashes p = p.
Proof.
  induction p as [|c p IH]; [done|]. intros Hc.
  cbn [contains] in Hc. apply orb_false_iff in Hc as [Hst Hc].
  cbn [re_sub_slashes]. destruct p as [|c' p]; [done|].
  cbn [startswith] in Hst. rewrite andb_true_r in Hst.
  unfold is_char. rewrite Hst. by rewrite (IH Hc).
Qed.

Lemma rstrip_last (q : ascii → bool) (s : string) :
  (∀ c, last_char s = Some c → q c = false) → rstrip q s = s.
Proof.
  induction s as [|c s IH]; [done|]. intros Hl. cbn [rstrip].
  destruct s as [|c' s].
  - cbn. by rewrite (Hl c).
  - rewrite IH; [done|]. intros c0 Hc0. by apply Hl.
Qed.

Lemma path_no_char (a : ascii) (p : string) :
  path_char a = false → all_chars path_char p = true → has_char a p = false.
Proof.
  intros Ha. apply has_char_none. intros c Hc. unfold is_char.
  destruct (Ascii.eqb_spec a c) as [->|]; congruence.
Qed.

End CharFacts.

(** * Further properties of the program *)

(** ** The audit log and the files of a worker *)



Section WorkerFiles.
Context `{!PyLib} {D : Type} `{!Driver D}.

(** X2: With its browser at hand (the creation of the browser and its
    [quit] apart), a worker never raises, whatever the pages do: every
    failure of a navigation, of a page or of a write is caught.  Of the
    files it changes the audit log and the result sink only, and a result
    sink that exists keeps the rows that it holds. *)
Theorem process_link_batch_files (d : D) (links : list string) (min_year : Z)
    (city_filter output_csv : string) (worker_id : nat) (w : World) :
  let run := process_link_batch d links min_year city_filter output_csv
               worker_id w in
  run.2 = Ok tt ∧
  (∀ p, p ≠ log_file → p ≠ output_csv → files run.1 !! p = files w !! p) ∧
  (output_csv ≠ log_file →
   ∀ rows, files w !! output_csv = Some rows →
     ∃ more, files run.1 !! output_csv = Some (rows ++ more)).
Proof.
  cbn zeta. unfold process_link_batch, mbind, IO_bind.
  destruct (visit_links_frame worker_id 1 (length links) links min_year
              city_filter d [] w) as (_ & _ & Hother).
  pose proof (visit_links_result worker_id 1 (length links) links min_year
                city_filter d [] w) as Hok.
  destruct (visit_links _ _ _ _ _ _ _ _ _) as [w1 res]. cbn [fst snd] in *.
  subst res.
  match goal with
  | |- context [match ?o with [] => mret tt | _ => _ end] => set (out := o)
  end.
  assert ((∀ p, p ≠ log_file → p ≠ output_csv →
             files (match out with
                    | [] => mret tt
                    | _ => write_results output_csv out
                    end w1).1 !! p = files w1 !! p) ∧
          (∀ rows, files w1 !! output_csv = Some rows →
             files (match out with
                    | [] => mret tt
                    | _ => write_results output_csv out
                    end w1).1 !! output_csv = Some rows) ∧
          (match out with
           | [] => mret tt
           | _ => write_results output_csv out
           end w1).2 = Ok tt) as (Hf1 & Hf2 & Hres).
  { destruct out as [|r0 out']; [done|].
    rewrite write_results_files by done. unfold write_results.
    split; [|split; [|apply try_except_unit]].
    - intros p _ Hp. destruct (files w1 !! output_csv); [done|].
      destruct (decide (output_csv ∈ denied w1)); [done|].
      by rewrite lookup_insert_ne.
    - intros rows Hrows. by rewrite Hrows. }
  split; [done|]. split.
  - intros p Hl Ho. by rewrite Hf1, Hother.
  - intros Hne rows Hrows. exists []. rewrite app_nil_r.
    apply Hf2. by rewrite Hother.
Qed.

End WorkerFiles.

(** At the batch of the one listing, with a result sink that holds its
    header, and with a file of another name beside it. *)
Lemma process_link_batch_files_witness :
  let w := mkWorld {[ "results.csv"%string := [results_header];
                      "notes.txt"%string := [[CStr "keep"]] ]} [] ∅ false in
  let run := process_link_batch one_listing
               ["https://apartments.com/the-ave"%string]
               MIN_YEAR CITY_FILTER OUTPUT_CSV 1 w in
  files run.1 !! "notes.txt"%string = Some [[CStr "keep"]] ∧
  ∃ more, files run.1 !! OUTPUT_CSV = Some ([results_header] ++ more).
Proof.
  intros w run. subst run.
  destruct (process_link_batch_files one_listing
              ["https://apartments.com/the-ave"%string]
              MIN_YEAR CITY_FILTER OUTPUT_CSV 1 w) as (_ & Hother & Hkeep).
  split.
  - rewrite (Hother "notes.txt"%string); [by vm_compute| |]; vm_compute;
      discriminate.
  - apply Hkeep; [vm_compute; discriminate|by vm_compute].
Defined.

(** ** The rows that a worker saves *)

Lemma digit_val_range (c : ascii) :
  PyStr.isdigit c = true → (0 ≤ Re.digit_val c ≤ 9)%Z.
Proof.
  destruct c as [[] [] [] [] [] [] [] []]; intros Hd; vm_compute in Hd;
    try discriminate Hd; vm_compute; split; intros Hx; discriminate Hx.
Qed.

Lemma match_year_range (s : string) (y : Z) :
  Re.match_year s = Some y → (0 ≤ y ≤ 9999)%Z.
Proof.
  unfold Re.match_year.
  destruct s as [|a [|b [|c [|d rest]]]]; try discriminate.
  destruct (PyStr.isdigit a) eqn:Ha, (PyStr.isdigit b) eqn:Hb,
    (PyStr.isdigit c) eqn:Hc, (PyStr.isdigit d) eqn:Hd; try discriminate.
  cbn [andb]. intros [= <-].
  pose proof (digit_val_range a Ha). pose proof (digit_val_range b Hb).
  pose proof (digit_val_range c Hc). pose proof (digit_val_range d Hd). lia.
Qed.

Lemma search_built_in_range (text : string) (y : Z) :
  Re.search_built_in text = Some y → (0 ≤ y ≤ 9999)%Z.
Proof.
  intros (pre & suf & _ & Hm)%ReFacts.search_built_in_inv.
  unfold Re.match_built_in in Hm.
  destruct (Re.match_ci "Built in" suf) as [after|]; [|done].
  by apply match_year_range in Hm.
Qed.

Section SavedRows.
Context `{!PyLib} {D : Type} `{!Driver D}.
Import PyStr.

Lemma visit_saved (d : D) (link : string) (min_year : Z) (city_filter : string) :
  let r := (visit d link min_year city_filter).2 in
  rec_status r = saved →
  ∃ y, built_year r = Some y ∧ (min_year ≤ y ≤ 9999)%Z ∧
       (city_filter = EmptyString ∨
        (address r ≠ EmptyString ∧ ci_substring city_filter (address r))).
Proof.
  cbn zeta. unfold visit.
  destruct (get d link) as [d1 [e|]]; cbn [snd]; [done|].
  destruct (page_source d1) as [page_text|e]; cbn [snd]; [|done].
  pose proof (classify_status (extract_title d1) (extract_address d1)
                page_text min_year city_filter) as Hst.
  cbn zeta in Hst. rewrite classify_address.
  destruct (Re.search_built_in page_text) as [y|] eqn:Hs.
  - destruct Hst as [-> ->]. intros Hsaved. exists y.
    split; [done|].
    destruct (y <? min_year)%Z eqn:Hy; [done|]. apply Z.ltb_ge in Hy.
    pose proof (search_built_in_range page_text y Hs).
    split; [lia|].
    destruct (nonempty city_filter) eqn:Hcf; [|left; by destruct city_filter].
    right. cbn [andb] in Hsaved.
    destruct (nonempty (extract_address d1)) eqn:Ha; cbn in Hsaved;
      [|done].
    destruct (contains _ _) eqn:Hc; [|done].
    split; [by destruct (extract_address d1)|].
    by apply ReFacts.contains_ci.
  - destruct Hst as [-> _]. done.
Qed.

Lemma saved_row_Some (link : string) (r : ExtractionRecord) (x : ResultRow) :
  saved_row link r = Some x →
  rec_status r = saved ∧ built_year r = Some (r_built_year x) ∧
  r_url x = link ∧ r_address x = address r.
Proof.
  unfold saved_row.
  destruct (rec_status r), (built_year r); try discriminate.
  by intros [= <-].
Qed.



Lemma batch_saved_rows (d : D) (links : list string) (min_year : Z)
    (city_filter : string) :
  Forall (fun x =>
            r_url x ∈ links ∧ (min_year ≤ r_built_year x ≤ 9999)%Z ∧
            (city_filter = EmptyString ∨
             (r_address x ≠ EmptyString ∧
              ci_substring city_filter (r_address x))))
    (omap (fun lr => saved_row lr.1 lr.2)
       (zip links (batch_records d links min_year city_filter))).
Proof.
  revert d. induction links as [|link rest IH]; intros d; [constructor|].
  cbn [batch_records zip_with omap list_omap fst snd].
  assert (Forall (fun x =>
            r_url x ∈ link :: rest ∧ (min_year ≤ r_built_year x ≤ 9999)%Z ∧
            (city_filter = EmptyString ∨
             (r_address x ≠ EmptyString ∧
              ci_substring city_filter (r_address x))))
    (omap (fun lr => saved_row lr.1 lr.2)
       (zip rest (batch_records (visit d link min_year city_filter).1 rest
                    min_year city_filter)))) as Hrest.
  { eapply Forall_impl; [apply IH|]. intros x (Hin & Hrest). split; [|done].
    by apply list_elem_of_further. }
  destruct (saved_row link _) as [x|] eqn:Hx; [|done].
  constructor; [|done].
  apply saved_row_Some in Hx as (Hs & Hy & Hu & Ha).
  destruct (visit_saved d link min_year city_filter Hs) as (y & Hy' & Hr & Hc).
  rewrite Hy in Hy'. injection Hy' as ->. rewrite Ha.
  split; [rewrite Hu; apply list_elem_of_here|]. by split.
Qed.




(** X4: Every row that a worker hands to the writer of the result sink belongs
    to a link of its batch, has a year of construction from the minimum
    year to 9999 and, when a city filter is set, an address that is not
    empty and contains the city, letter case ignored. *)
Theorem saved_rows_pass_filters (d : D) (links : list string) (min_year : Z)
    (city_filter : string) (worker_id : nat) (w : World) :
  ∃ out,
    (visit_links worker_id 1 (length links) links min_year city_filter d [] w).2
    = Ok out ∧
    Forall (fun x =>
              r_url x ∈ links ∧ (min_year ≤ r_built_year x ≤ 9999)%Z ∧
              (city_filter = EmptyString ∨
               (r_address x ≠ EmptyString ∧
                ci_substring city_filter (r_address x))))
      (dedupe out [] ∅).
Proof.
  eexists. split; [apply visit_links_result|].
  rewrite app_nil_l, dedupe_acc, app_nil_l.
  apply Forall_forall. intros x Hx.
  eapply elem_of_sublist in Hx; [|apply dedupe_from_sublist].
  revert x Hx. apply Forall_forall, batch_saved_rows.
Qed.

End SavedRows.


(** ** main once links were found *)

Section MainRuns.
Context `{!PyLib} {D : Type} `{!Driver D}.

Lemma main_with_run (master : D) (w : World) (l : string)
    (links : list string) (requested : Z) :
  collect_listing_links master SEARCH_URL None 50 = Ok (l :: links) →
  (∀ p, p ≠ OUTPUT_CSV →
     files (main_with requested master w).1 !! p = files w !! p) ∧
  (writable w OUTPUT_CSV →
   files (main_with requested master w).1 !! OUTPUT_CSV
   = Some [results_header] ∧
   (main_with requested master w).2
   = match make_batches requested (l :: links) with
     | None => Raise "ZeroDivisionError"
     | Some batches =>
         if (requested `min` Z.of_nat (length (l :: links)) <? 0)%Z
         then Raise "max_workers must be greater than 0"
         else Ok (submit 1 batches)
     end) ∧
  (¬ writable w OUTPUT_CSV → ∃ e, (main_with requested master w).2 = Raise e).
Proof.
  intros Hl. unfold main_with, writable. rewrite Hl.
  unfold with_open, mbind, IO_bind, py_open, py_close, try_except, mret,
    IO_ret, writerow, raise.
  simpl. destruct (decide (OUTPUT_CSV ∈ denied w)) as [Hd|Hd]; simpl.
  { split; [done|]. split; [by intros [? _]|]. eauto. }
  rewrite lookup_new_handle. simpl. destruct (full w) eqn:Hfull; simpl.
  { rewrite lookup_new_handle. simpl.
    split; [intros p Hp; by rewrite lookup_insert_ne|].
    split; [by intros [_ ?]|]. eauto. }
  rewrite lookup_new_handle. simpl.
  rewrite lookup_insert_eq, insert_insert_eq. simpl.
  split; [|split; [|intros Hn; exfalso; by apply Hn]].
  - intros p Hp.
    destruct (make_batches requested (l :: links)); simpl;
      [destruct (_ <? _)%Z; simpl|]; by rewrite lookup_insert_ne.
  - intros _.
    destruct (make_batches requested (l :: links)); simpl;
      [destruct (_ <? _)%Z; simpl|]; by rewrite lookup_insert_eq.
Qed.

(** X5: When the traversal has found links, [main] starts the result sink
    afresh: whatever the file held, it holds the header and nothing else
    when the jobs are handed out, and no other file is touched.  The sink
    is reset whenever it can be written; if it cannot, [main] ends with
    the error of the failed write and hands out no job. *)
Theorem main_resets_sink (master : D) (w : World) (l : string)
    (links : list string) (requested : Z) :
  collect_listing_links master SEARCH_URL None 50 = Ok (l :: links) →
  (∀ jobs, (main_with requested master w).2 = Ok jobs →
     files (main_with requested master w).1 !! OUTPUT_CSV
     = Some [results_header]) ∧
  (writable w OUTPUT_CSV →
   files (main_with requested master w).1 !! OUTPUT_CSV
   = Some [results_header]) ∧
  (¬ writable w OUTPUT_CSV →
   ∃ e, (main_with requested master w).2 = Raise e) ∧
  (∀ p, p ≠ OUTPUT_CSV →
     files (main_with requested master w).1 !! p = files w !! p).
Proof.
  intros Hl.
  destruct (main_with_run master w l links requested Hl)
    as (Hother & Hw & Hfail).
  split; [|split; [by intros [? _]%Hw|by split]].
  intros jobs Hjobs.
  destruct (decide (OUTPUT_CSV ∈ denied w)) as [Hd|Hd].
  - destruct Hfail as [e He]; [by intros [? _]|]. congruence.
  - destruct (full w) eqn:Hfull.
    + destruct Hfail as [e He]; [intros [_ ?]; congruence|]. congruence.
    + by apply Hw.
Qed.

(** X6: With links found and a result sink that can be written, [main]
    fails with [ZeroDivisionError] when the number of workers asked for is
    0 and with the [ValueError] of the pool when it is negative, in both
    cases after the result sink has been replaced by its header; with a
    positive number it hands out at least one job. *)
Theorem main_zero_workers (master : D) (w : World) (l : string)
    (links : list string) (requested : Z) :
  collect_listing_links master SEARCH_URL None 50 = Ok (l :: links) →
  writable w OUTPUT_CSV →
  (requested = 0%Z →
   (main_with requested master w).2 = Raise "ZeroDivisionError" ∧
   files (main_with requested master w).1 !! OUTPUT_CSV
   = Some [results_header]) ∧
  ((requested < 0)%Z →
   (main_with requested master w).2
   = Raise "max_workers must be greater than 0" ∧
   files (main_with requested master w).1 !! OUTPUT_CSV
   = Some [results_header]) ∧
  ((0 < requested)%Z →
   ∃ job jobs, (main_with requested master w).2 = Ok (job :: jobs)).
Proof.
  intros Hl Hw.
  destruct (main_with_run master w l links requested Hl) as (_ & Hrun & _).
  destruct (Hrun Hw) as [Hf ->]. clear Hrun.
  split; [|split].
  - intros ->. by split.
  - intros Hneg. split; [|done].
    unfold make_batches.
    destruct (Z.eqb_spec (requested `min` Z.of_nat (length (l :: links))) 0)
      as [H0|_]; [cbn [length] in H0; lia|].
    destruct (Z.ltb_spec (requested `min` Z.of_nat (length (l :: links))) 0)
      as [_|Hge]; [done|cbn [length] in Hge; lia].
  - intros Hpos.
    destruct (Z.ltb_spec (requested `min` Z.of_nat (length (l :: links))) 0)
      as [Hlt|_]; [cbn [length] in Hlt; lia|].
    rewrite <- (Z2Nat.id requested) by lia.
    assert (0 < Z.to_nat requested) as Hk by lia.
    rewrite make_batches_chunks by (cbn [length]; lia).
    assert (0 < ceil_div (length (l :: links))
                  (Z.to_nat requested `min` length (l :: links)))
      as Hbs by (apply ceil_div_pos; cbn [length]; lia).
    destruct (Z.to_nat requested `min` length (l :: links)) as [|k] eqn:Hmin;
      [cbn [length] in Hmin; lia|].
    destruct (ceil_div _ _) as [|bs]; [lia|].
    cbn. eauto.
Qed.

End MainRuns.

(** On the circular site, with a result sink left by an earlier run. *)
Lemma main_resets_sink_witness :
  let w := mkWorld {[ OUTPUT_CSV := [results_header; [CStr "old row"]] ]} []
             ∅ false in
  collect_listing_links circular_site SEARCH_URL None 50
  = Ok ["https://apartments.com/the-ave"; "https://apartments.com/the-bay"]%string ∧
  (main_with 1 circular_site w).2
  = Ok [(1, ["https://apartments.com/the-ave";
             "https://apartments.com/the-bay"]%string)] ∧
  files (main_with 1 circular_site w).1 !! OUTPUT_CSV = Some [results_header].
Proof.
  intros w. split; [vm_compute; reflexivity|].
  split; [vm_compute; reflexivity|].
  destruct (main_resets_sink circular_site w "https://apartments.com/the-ave"
              ["https://apartments.com/the-bay"%string] 1) as [Hjobs _];
    [vm_compute; reflexivity|].
  apply (Hjobs [(1, ["https://apartments.com/the-ave";
                     "https://apartments.com/the-bay"]%string)]).
  vm_compute. reflexivity.
Defined.

Lemma main_zero_workers_witness :
  collect_listing_links circular_site SEARCH_URL None 50
  = Ok ["https://apartments.com/the-ave"; "https://apartments.com/the-bay"]%string ∧
  writable empty_world OUTPUT_CSV ∧
  (main_with 0 circular_site empty_world).2 = Raise "ZeroDivisionError" ∧
  (main_with (-1) circular_site empty_world).2
  = Raise "max_workers must be greater than 0" ∧
  ∃ job jobs, (main_with 2 circular_site empty_world).2 = Ok (job :: jobs).
Proof.
  assert (writable empty_world OUTPUT_CSV) as Hw
    by (split; [apply not_elem_of_empty|reflexivity]).
  split; [vm_compute; reflexivity|]. split; [exact Hw|].
  split; [|split].
  - apply (main_zero_workers circular_site empty_world
             "https://apartments.com/the-ave"
             ["https://apartments.com/the-bay"%string] 0);
      [vm_compute; reflexivity|exact Hw|reflexivity].
  - apply (main_zero_workers circular_site empty_world
             "https://apartments.com/the-ave"
             ["https://apartments.com/the-bay"%string] (-1));
      [vm_compute; reflexivity|exact Hw|reflexivity].
  - apply (main_zero_workers circular_site empty_world
             "https://apartments.com/the-ave"
             ["https://apartments.com/the-bay"%string] 2);
      [vm_compute; reflexivity|exact Hw|reflexivity].
Defined.

(** ** The links of the traversal *)

Section Links.
Context `{!PyLib} {D : Type} `{!Driver D}.

Lemma gather_links (elems : list Element) (t : Traversal) (pl : list string) :
  links_inv t →
  links_inv (gather elems t pl).1 ∧
  ∃ more, collected (gather elems t pl).1 = collected t ++ more.
Proof.
  revert t pl. induction elems as [|e r IH]; intros t pl Hinv; cbn [gather].
  - split; [done|]. exists []. by rewrite app_nil_r.
  - destruct (get_attribute e "href") as [raw|]; [|by apply IH].
    destruct (negb (PyStr.nonempty raw)); [by apply IH|].
    destruct (negb (PyStr.nonempty (normalize_url raw))) eqn:Hne;
      [by apply IH|].
    destruct (decide _) as [Hin|Hnew]; [by apply IH|].
    set (t' := mkTraversal _ _ _ _).
    destruct (IH t' (pl ++ [normalize_url raw])) as [Hinv' [more Hmore]].
    + destruct Hinv as (Hnd & Hseen & Hnon). repeat split; cbn.
      * apply NoDup_app. split; [done|]. split; [|apply NoDup_singleton].
        intros x Hx ->%list_elem_of_singleton. by apply Hnew, Hseen.
      * intros x [Hx| ->%list_elem_of_singleton]%elem_of_app; set_solver.
      * apply Forall_app. split; [done|]. constructor; [|done].
        intros Heq. rewrite Heq in Hne. done.
    + split; [done|]. exists (normalize_url raw :: more).
      rewrite Hmore. cbn. by rewrite <- app_assoc.
Qed.

Lemma gather_selectors_links (d : D) (sels : list string) (t : Traversal)
    (pl : list string) :
  links_inv t →
  links_inv (gather_selectors d sels t pl).1 ∧
  ∃ more, collected (gather_selectors d sels t pl).1 = collected t ++ more.
Proof.
  revert t pl. induction sels as [|sel r IH]; intros t pl Hinv;
    cbn [gather_selectors].
  - split; [done|]. exists []. by rewrite app_nil_r.
  - destruct (find_elements d CSS_SELECTOR sel) as [elems|]; [|by apply IH].
    destruct (gather_links elems t pl Hinv) as [Hinv1 [more1 Hmore1]].
    destruct (gather elems t pl) as [t1 pl1]. cbn [fst] in *.
    destruct (30 <=? length pl1); [split; [done|by exists more1]|].
    destruct (IH t1 pl1 Hinv1) as [Hinv2 [more2 Hmore2]].
    split; [done|]. exists (more1 ++ more2).
    by rewrite Hmore2, Hmore1, <- app_assoc.
Qed.

Lemma gather_fallback_links (d : D) (t : Traversal) (pl : list string) :
  links_inv t →
  links_inv (gather_fallback d t pl).1 ∧
  ∃ more, collected (gather_fallback d t pl).1 = collected t ++ more.
Proof.
  intros Hinv. unfold gather_fallback.
  destruct pl; [destruct (find_elements d CSS_SELECTOR _)|];
    try (by apply gather_links);
    (split; [done|]; exists []; by rewrite app_nil_r).
Qed.

(** One iteration of the loop. *)
Lemma paginate_S (remaining : nat) (max_listings : option nat) (d : D)
    (t : Traversal) :
  paginate (S remaining) max_listings d t
  = let t := mkTraversal (collected t) (seen t) (visited_page_urls t)
               (S (page_index t)) in
    let current := current_url d in
    if decide (current ∈ visited_page_urls t) then t
    else
      let t := mkTraversal (collected t) (seen t)
                 ({[current]} ∪ visited_page_urls t) (page_index t) in
      let d := reveal d in
      let '(t, page_links) := gather_selectors d link_selectors t [] in
      let '(t, page_links) := gather_fallback d t page_links in
      if reached max_listings (length (collected t)) then t
      else if reached MAX_LISTINGS (length (collected t)) then t
      else
        let '(d, found_next) := advance d in
        if found_next then paginate remaining max_listings d t else t.
Proof. reflexivity. Qed.

Lemma paginate_links (remaining : nat) (max_listings : option nat) (d : D)
    (t : Traversal) :
  links_inv t →
  links_inv (paginate remaining max_listings d t) ∧
  ∃ more, collected (paginate remaining max_listings d t) = collected t ++ more.
Proof.
  revert d t. induction remaining as [|n IH]; intros d t Hinv.
  - split; [done|]. exists []. by rewrite app_nil_r.
  - rewrite paginate_S. cbv zeta. cbn [visited_page_urls page_index collected seen].
    assert (∀ v i, links_inv (mkTraversal (collected t) (seen t) v i)) as Hsame
      by (intros; exact Hinv).
    destruct (decide _);
      [split; [apply Hsame|]; exists []; cbn; by rewrite app_nil_r|].
    destruct (gather_selectors_links (reveal d) link_selectors
                (mkTraversal (collected t) (seen t)
                   ({[current_url d]} ∪ visited_page_urls t)
                   (S (page_index t))) [] (Hsame _ _)) as [Hinv1 [more1 Hm1]].
    destruct (gather_selectors _ _ _ _) as [t1 pl1]. cbn [fst collected] in *.
    destruct (gather_fallback_links (reveal d) t1 pl1 Hinv1)
      as [Hinv2 [more2 Hm2]].
    destruct (gather_fallback _ _ _) as [t2 pl2]. cbn [fst] in *.
    assert (collected t2 = collected t ++ (more1 ++ more2)) as Hm
      by (by rewrite Hm2, Hm1, <- app_assoc).
    destruct (reached max_listings _); [split; [done|by eexists]|].
    destruct (reached MAX_LISTINGS _); [split; [done|by eexists]|].
    destruct (advance (reveal d)) as [d' found_next].
    destruct found_next; [|split; [done|by eexists]].
    destruct (IH d' t2 Hinv2) as [Hinv3 [more3 Hm3]].
    split; [done|]. exists ((more1 ++ more2) ++ more3).
    by rewrite Hm3, Hm, <- app_assoc.
Qed.

(** X7: The links that the traversal returns are pairwise different, and none
    of them is the empty sentinel. *)
Theorem collected_links_distinct (d : D) (search_url : string)
    (max_listings : option nat) (max_pages : nat) (links : list string) :
  collect_listing_links d search_url max_listings max_pages = Ok links →
  NoDup links ∧ Forall (fun x => x ≠ EmptyString) links.
Proof.
  unfold collect_listing_links, traverse.
  destruct (get d search_url) as [d0 [e|]]; [done|]. intros [= <-].
  destruct (paginate_links max_pages max_listings d0 (mkTraversal [] ∅ ∅ 0))
    as [(Hnd & _ & Hne) _]; [|done].
  repeat split; cbn; [constructor|set_solver|constructor].
Qed.

Lemma paginate_more (remaining : nat) (max_listings : option nat) (d : D)
    (t : Traversal) :
  links_inv t →
  ∃ more,
    collected (paginate (S remaining) max_listings d t)
    = collected (paginate remaining max_listings d t) ++ more.
Proof.
  revert d t. induction remaining as [|n IH]; intros d t Hinv.
  - change (paginate 0 max_listings d t) with t. apply paginate_links, Hinv.
  - rewrite (paginate_S (S n)), (paginate_S n). cbv zeta.
    cbn [visited_page_urls page_index collected seen].
    assert (∀ v i, links_inv (mkTraversal (collected t) (seen t) v i)) as Hsame
      by (intros; exact Hinv).
    destruct (decide _); [exists []; by rewrite app_nil_r|].
    destruct (gather_selectors_links (reveal d) link_selectors
                (mkTraversal (collected t) (seen t)
                   ({[current_url d]} ∪ visited_page_urls t)
                   (S (page_index t))) [] (Hsame _ _)) as [Hinv1 _].
    destruct (gather_selectors _ _ _ _) as [t1 pl1]. cbn [fst] in *.
    destruct (gather_fallback_links (reveal d) t1 pl1 Hinv1) as [Hinv2 _].
    destruct (gather_fallback _ _ _) as [t2 pl2]. cbn [fst] in *.
    destruct (reached max_listings _); [exists []; by rewrite app_nil_r|].
    destruct (reached MAX_LISTINGS _); [exists []; by rewrite app_nil_r|].
    destruct (advance (reveal d)) as [d' found_next].
    destruct found_next; [|exists []; by rewrite app_nil_r].
    by apply IH.
Qed.

(** X8: A larger [max_pages] only adds links at the end: the links returned
    with one page more begin with the links returned before. *)
Theorem more_pages_extend_links (d : D) (search_url : string)
    (max_listings : option nat) (max_pages : nat) (links : list string) :
  collect_listing_links d search_url max_listings max_pages = Ok links →
  ∃ more,
    collect_listing_links d search_url max_listings (S max_pages)
    = Ok (links ++ more).
Proof.
  unfold collect_listing_links, traverse.
  destruct (get d search_url) as [d0 [e|]]; [done|]. intros [= <-].
  destruct (paginate_more max_pages max_listings d0 (mkTraversal [] ∅ ∅ 0))
    as [more Hmore].
  { repeat split; cbn; [constructor|set_solver|constructor]. }
  exists more. by rewrite Hmore.
Qed.

Lemma paginate_cap (remaining : nat) (cap : nat) (d : D) (t : Traversal) :
  links_inv t →
  ∃ more,
    collected (paginate remaining None d t)
    = collected (paginate remaining (Some cap) d t) ++ more.
Proof.
  revert d t. induction remaining as [|n IH]; intros d t Hinv.
  - exists []. by rewrite app_nil_r.
  - rewrite !paginate_S. cbv zeta.
    cbn [visited_page_urls page_index collected seen].
    assert (∀ v i, links_inv (mkTraversal (collected t) (seen t) v i)) as Hsame
      by (intros; exact Hinv).
    destruct (decide _); [exists []; by rewrite app_nil_r|].
    destruct (gather_selectors_links (reveal d) link_selectors
                (mkTraversal (collected t) (seen t)
                   ({[current_url d]} ∪ visited_page_urls t)
                   (S (page_index t))) [] (Hsame _ _)) as [Hinv1 _].
    destruct (gather_selectors _ _ _ _) as [t1 pl1]. cbn [fst] in *.
    destruct (gather_fallback_links (reveal d) t1 pl1 Hinv1) as [Hinv2 _].
    destruct (gather_fallback _ _ _) as [t2 pl2]. cbn [fst] in *.
    change (reached None (length (collected t2))) with false. cbv iota.
    destruct (reached (Some cap) _).
    + destruct (reached MAX_LISTINGS _); [exists []; by rewrite app_nil_r|].
      destruct (advance (reveal d)) as [d' found_next].
      destruct found_next; [|exists []; by rewrite app_nil_r].
      by apply paginate_links.
    + destruct (reached MAX_LISTINGS _); [exists []; by rewrite app_nil_r|].
      destruct (advance (reveal d)) as [d' found_next].
      destruct found_next; [|exists []; by rewrite app_nil_r].
      by apply IH.
Qed.

(** X9: A cap on the number of listings only cuts the traversal short: the
    links returned under a cap are the first of the links returned
    without one. *)
Theorem max_listings_cuts_short (d : D) (search_url : string) (cap : nat)
    (max_pages : nat) (links : list string) :
  collect_listing_links d search_url (Some cap) max_pages = Ok links →
  ∃ more,
    collect_listing_links d search_url None max_pages = Ok (links ++ more).
Proof.
  unfold collect_listing_links, traverse.
  destruct (get d search_url) as [d0 [e|]]; [done|]. intros [= <-].
  destruct (paginate_cap max_pages cap d0 (mkTraversal [] ∅ ∅ 0))
    as [more Hmore].
  { repeat split; cbn; [constructor|set_solver|constructor]. }
  exists more. by rewrite Hmore.
Qed.

Lemma paginate_cap_zero (remaining : nat) (d : D) (t : Traversal) :
  paginate remaining (Some 0) d t = paginate remaining None d t.
Proof.
  revert d t. induction remaining as [|n IH]; intros d t; [done|].
  rewrite !paginate_S. cbv zeta.
  destruct (decide _); [done|].
  destruct (gather_selectors _ _ _ _) as [t1 pl1].
  destruct (gather_fallback _ _ _) as [t2 pl2].
  change (reached (Some 0) (length (collected t2))) with false.
  change (reached None (length (collected t2))) with false. cbv iota.
  destruct (reached MAX_LISTINGS _); [done|].
  destruct (advance (reveal d)) as [d' found_next].
  destruct found_next; [apply IH|done].
Qed.

(** X10: A cap of 0 is no cap: [max_listings=0] gives the traversal of
    [max_listings=None]. *)
Theorem max_listings_zero_is_unlimited (d : D) (search_url : string)
    (max_pages : nat) :
  collect_listing_links d search_url (Some 0) max_pages
  = collect_listing_links d search_url None max_pages.
Proof.
  unfold collect_listing_links, traverse.
  destruct (get d search_url) as [d0 [e|]]; [done|].
  by rewrite paginate_cap_zero.
Qed.

End Links.

Lemma collected_links_distinct_witness :
  let links := ["https://apartments.com/the-ave";
                "https://apartments.com/the-bay"]%string in
  collect_listing_links circular_site SEARCH_URL None 50 = Ok links ∧
  NoDup links ∧ Forall (fun x => x ≠ EmptyString) links.
Proof.
  intros links. split; [vm_compute; reflexivity|].
  apply (collected_links_distinct circular_site SEARCH_URL None 50 links).
  vm_compute; reflexivity.
Defined.

(** One page gives the first link of the circular site, two pages give
    it followed by more. *)
Lemma more_pages_extend_links_witness :
  collect_listing_links circular_site SEARCH_URL None 1
  = Ok ["https://apartments.com/the-ave"%string] ∧
  ∃ more,
    collect_listing_links circular_site SEARCH_URL None 2
    = Ok (["https://apartments.com/the-ave"%string] ++ more).
Proof.
  split; [vm_compute; reflexivity|].
  apply (more_pages_extend_links circular_site SEARCH_URL None 1).
  vm_compute; reflexivity.
Defined.

(** With a cap of one listing the traversal of the circular site stops
    after its first page. *)
Lemma max_listings_cuts_short_witness :
  collect_listing_links circular_site SEARCH_URL (Some 1) 50
  = Ok ["https://apartments.com/the-ave"%string] ∧
  ∃ more,
    collect_listing_links circular_site SEARCH_URL None 50
    = Ok (["https://apartments.com/the-ave"%string] ++ more).
Proof.
  split; [vm_compute; reflexivity|].
  apply (max_listings_cuts_short circular_site SEARCH_URL 1 50).
  vm_compute; reflexivity.
Defined.

(** ** normalize_url on absolute http and https URLs *)

Module SplitFacts.
Import PyStr StrFacts Urllib CharFacts.

Lemma cut_nil (c : ascii) : cut c EmptyString = EmptyString.
Proof. reflexivity. Qed.

Lemma cut_here (c : ascii) (x : string) : cut c (String c x) = EmptyString.
Proof.
  unfold cut, split1. cbn [has_char find]. unfold is_char.
  by rewrite Ascii.eqb_refl.
Qed.

Lemma cut_skip (c a : ascii) (x : string) :
  is_char c a = false → cut c (String a x) = String a (cut c x).
Proof.
  intros Ha. unfold cut, split1. cbn [has_char find]. rewrite Ha. cbn [orb].
  destruct (has_char c x) eqn:Hx; [|done].
  destruct (find c x) as [i|]; done.
Qed.

Lemma cut_prefix (c : ascii) (q r : string) :
  has_char c q = false → cut c (q +:+ r) = q +:+ cut c r.
Proof.
  induction q as [|a q IH]; [done|]. cbn [has_char].
  intros [Ha Hq]%orb_false_iff. rewrite !sapp_cons, cut_skip by done.
  by rewrite IH.
Qed.

End SplitFacts.

Section AbsoluteUrls.
Context `{!PyLib}.
Import PyStr StrFacts Urllib CharFacts SplitFacts.

Lemma raw_host_facts (c : ascii) :
  raw_host_char c = true →
  graphic c = true ∧ is_delim c = false ∧
  is_char "[" c = false ∧ is_char "]" c = false ∧
  raw_host_char (lower_char c) = true.
Proof. destruct c as [[] [] [] [] [] [] [] []]; vm_compute; intuition congruence. Qed.

Lemma url_host_inv (h : string) :
  url_host h = true →
  nonempty h = true ∧ all_chars raw_host_char h = true ∧
  all_chars graphic h = true ∧ all_chars isascii h = true ∧
  has_char "[" h = false ∧ has_char "]" h = false.
Proof.
  unfold url_host. intros [Hn Hh]%andb_true_iff.
  assert (all_chars graphic h = true) as Hg.
  { apply (all_chars_impl raw_host_char); [|done].
    intros c Hc. by destruct (raw_host_facts c Hc) as [-> _]. }
  repeat split; try done.
  - apply (all_chars_impl graphic); [|done].
    intros c Hc. by destruct (graphic_facts c Hc) as (_ & -> & _).
  - apply (has_char_none _ raw_host_char); [|done].
    intros c Hc. by destruct (raw_host_facts c Hc) as (_ & _ & -> & _).
  - apply (has_char_none _ raw_host_char); [|done].
    intros c Hc. by destruct (raw_host_facts c Hc) as (_ & _ & _ & -> & _).
Qed.

Lemma url_path_inv (p : string) :
  url_path p = true →
  all_chars graphic p = true ∧
  has_char "?" p = false ∧ has_char "#" p = false ∧
  (p = EmptyString ∨ startswith "/" p = true).
Proof.
  unfold url_path. intros [Hp Hs]%andb_true_iff.
  split; [|split; [|split]].
  - apply (all_chars_impl path_char); [|done].
    intros c Hc. by destruct (path_char_facts c Hc) as [-> _].
  - by apply path_no_char.
  - by apply path_no_char.
  - apply orb_true_iff in Hs as [Hs|Hs]; [left; by destruct p|by right].
Qed.

Lemma url_tail_inv (t : string) :
  url_tail t = true →
  all_chars graphic t = true ∧
  (t = EmptyString ∨ (∃ t', t = String "?" t') ∨ (∃ t', t = String "#" t')).
Proof.
  unfold url_tail. intros [Hg Hs]%andb_true_iff. split; [done|].
  destruct t as [|c t']; [by left|right]. cbn [nonempty negb orb startswith] in Hs.
  rewrite !andb_true_r in Hs. apply orb_true_iff in Hs as [Hs|Hs];
    apply Ascii.eqb_eq in Hs as <-; eauto.
Qed.

Lemma span_netloc_host (h rest : string) :
  all_chars raw_host_char h = true →
  (rest = EmptyString ∨ ∃ c r, rest = String c r ∧ is_delim c = true) →
  span_netloc (h +:+ rest) = (h, rest).
Proof.
  intros Hh Hrest. induction h as [|a h IH].
  - rewrite sapp_nil_l. destruct Hrest as [->|(c & r & -> & Hc)]; [done|].
    cbn. by rewrite Hc.
  - cbn in Hh. apply andb_true_iff in Hh as [Ha Hh].
    rewrite sapp_cons. cbn [span_netloc].
    destruct (raw_host_facts a Ha) as (_ & -> & _). by rewrite IH.
Qed.

Lemma path_cut (p t : string) :
  url_path p = true → url_tail t = true →
  cut "?" (cut "#" (p +:+ t)) = p.
Proof.
  intros (_ & Hq & Hf & _)%url_path_inv (_ & Ht)%url_tail_inv.
  rewrite (cut_prefix "#") by done.
  destruct Ht as [->|[[t' ->]|[t' ->]]].
  - by rewrite cut_nil, (cut_prefix "?"), cut_nil, !sapp_nil_r.
  - rewrite (cut_skip "#" "?") by done.
    by rewrite (cut_prefix "?"), cut_here, sapp_nil_r.
  - by rewrite cut_here, (cut_prefix "?"), cut_nil, !sapp_nil_r.
Qed.

Lemma absolute_graphic (h p t : string) :
  url_host h = true → url_path p = true → url_tail t = true →
  all_chars graphic (h +:+ p +:+ t) = true.
Proof.
  intros (_ & _ & Hh & _)%url_host_inv (Hp & _)%url_path_inv
    (Ht & _)%url_tail_inv.
  by rewrite !all_chars_app, Hh, Hp, Ht.
Qed.

Lemma authority_ends (p t : string) :
  url_path p = true → url_tail t = true →
  p +:+ t = EmptyString ∨ ∃ c r, p +:+ t = String c r ∧ is_delim c = true.
Proof.
  intros (_ & _ & _ & Hp)%url_path_inv (_ & Ht)%url_tail_inv.
  destruct p as [|a p].
  - rewrite sapp_nil_l.
    destruct Ht as [->|[[t' ->]|[t' ->]]]; [by left|right..]; eauto.
  - right. destruct Hp as [|Hp]; [done|]. cbn [startswith] in Hp.
    rewrite andb_true_r in Hp. apply Ascii.eqb_eq in Hp as <-.
    rewrite sapp_cons. eauto.
Qed.

(** The part of [urlsplit] after the scheme has been split off. *)
Local Ltac split_rest h p t Hh Hp Ht :=
  unfold splitnetloc2; cbn [drop];
  rewrite (span_netloc_host h (p +:+ t))
    by (first [by apply url_host_inv | by apply authority_ends]);
  cbv iota;
  destruct (url_host_inv h Hh) as (Hn & _ & _ & Hascii & -> & ->);
  cbn [andb orb negb mbind option_bind];
  pose proof (path_cut p t Hp Ht) as Hcut; unfold cut in Hcut;
  destruct (if has_char "#" (p +:+ t) then _ else _) as [u1 f1];
  cbn [fst] in Hcut;
  destruct (if has_char "?" u1 then _ else _) as [u2 q2];
  cbn [fst] in Hcut; subst u2;
  unfold checknetloc; rewrite Hn, Hascii; cbn [negb orb]; eauto.

Lemma urlsplit_absolute (sch h p t : string) :
  sch = "http"%string ∨ sch = "https"%string →
  url_host h = true → url_path p = true → url_tail t = true →
  ∃ q f,
    urlsplit (absolute_url sch h p t) EmptyString
    = Some (mkSplit sch h p q f).
Proof.
  intros Hs Hh Hp Ht. pose proof (absolute_graphic h p t Hh Hp Ht) as Hg.
  unfold absolute_url. set (rest := h +:+ p +:+ t) in *.
  destruct Hs as [-> | ->].
  - set (url := ("http" +:+ "://" +:+ rest)%string).
    assert (url = String "h" (String "t" (String "t" (String "p"
             (String ":" (String "/" (String "/" rest))))))) as Hurl
      by reflexivity.
    clearbody url. subst url.
    unfold urlsplit.
    match goal with |- context [lstrip c0_control_or_space ?u] =>
      assert (lstrip c0_control_or_space u = u) as -> by reflexivity;
      assert (remove_unsafe u = u) as ->
        by (apply remove_unsafe_graphic; cbn [all_chars]; rewrite Hg;
            reflexivity);
      assert (find ":" u = Some 4) as -> by reflexivity
    end.
    cbn [take drop].
    change (isasciialpha "h" && all_chars scheme_char "http") with true.
    change (lower "http") with "http"%string.
    cbv iota.
    change (startswith "//" (String "/" (String "/" rest))) with true.
    subst rest. split_rest h p t Hh Hp Ht.
  - set (url := ("https" +:+ "://" +:+ rest)%string).
    assert (url = String "h" (String "t" (String "t" (String "p" (String "s"
             (String ":" (String "/" (String "/" rest)))))))) as Hurl
      by reflexivity.
    clearbody url. subst url.
    unfold urlsplit.
    match goal with |- context [lstrip c0_control_or_space ?u] =>
      assert (lstrip c0_control_or_space u = u) as -> by reflexivity;
      assert (remove_unsafe u = u) as ->
        by (apply remove_unsafe_graphic; cbn [all_chars]; rewrite Hg;
            reflexivity);
      assert (find ":" u = Some 5) as -> by reflexivity
    end.
    cbn [take drop].
    change (isasciialpha "h" && all_chars scheme_char "https") with true.
    change (lower "https") with "https"%string.
    cbv iota.
    change (startswith "//" (String "/" (String "/" rest))) with true.
    subst rest. split_rest h p t Hh Hp Ht.
Qed.

(** [normalize_url] on an absolute http or https URL, without the parsing:
    the host in lower case less one leading [www.], the path with its runs
    of slashes collapsed and its last slash removed, no query and no
    fragment. *)
Lemma normalize_url_absolute (sch h p t : string) :
  sch = "http"%string ∨ sch = "https"%string →
  url_host h = true → url_path p = true → url_tail t = true →
  normalize_url (absolute_url sch h p t)
  = urlunsplit sch
      (if startswith "www." (lower h) then drop 4 (lower h) else lower h)
      (rstrip (is_char "/") (re_sub_slashes (or_else p "/")))
      EmptyString EmptyString.
Proof.
  intros Hs Hh Hp Ht. pose proof (absolute_graphic h p t Hh Hp Ht) as Hg.
  destruct (urlsplit_absolute sch h p t Hs Hh Hp Ht) as (q & f & Hsplit).
  destruct (url_host_inv h Hh) as (Hn & _).
  unfold normalize_url, normalize_url_try.
  unfold absolute_url in *.
  assert (strip (sch +:+ "://" +:+ h +:+ p +:+ t)
          = sch +:+ "://" +:+ h +:+ p +:+ t) as ->.
  { apply strip_graphic. rewrite all_chars_app, all_chars_app, Hg.
    by destruct Hs as [-> | ->]. }
  assert (nonempty (sch +:+ "://" +:+ h +:+ p +:+ t) = true) as ->
    by (by destruct Hs as [-> | ->]).
  assert (startswith "javascript:" (lower (sch +:+ "://" +:+ h +:+ p +:+ t))
          = false) as -> by (by destruct Hs as [-> | ->]).
  assert (startswith "mailto:" (lower (sch +:+ "://" +:+ h +:+ p +:+ t))
          = false) as -> by (by destruct Hs as [-> | ->]).
  cbn [negb orb]. rewrite Hsplit.
  cbn [mbind option_bind netloc scheme path]. rewrite Hn. cbn [negb].
  cbn [mbind option_bind netloc scheme path default].
  assert (nonempty sch = true) as -> by (by destruct Hs as [-> | ->]).
  reflexivity.
Qed.

(** X12: The query and the fragment of an absolute http or https URL do not
    count: the URL normalises as it does without them. *)
Theorem normalize_drops_query_fragment (sch h p t : string) :
  sch = "http"%string ∨ sch = "https"%string →
  url_host h = true → url_path p = true → url_tail t = true →
  normalize_url (absolute_url sch h p t)
  = normalize_url (absolute_url sch h p EmptyString).
Proof.
  intros Hs Hh Hp Ht.
  by rewrite !normalize_url_absolute.
Qed.

Lemma lower_char_idem (c : ascii) : lower_char (lower_char c) = lower_char c.
Proof. by destruct c as [[] [] [] [] [] [] [] []]. Qed.

Lemma lower_idem (s : string) : lower (lower s) = lower s.
Proof.
  induction s as [|c s IH]; [done|]. cbn. by rewrite lower_char_idem, IH.
Qed.

Lemma url_host_lower (h : string) : url_host h = true → url_host (lower h) = true.
Proof.
  unfold url_host. intros [Hn Hh]%andb_true_iff.
  apply andb_true_iff. split; [by destruct h|].
  clear Hn. induction h as [|c h IH]; [done|]. cbn in *.
  apply andb_true_iff in Hh as [Hc Hh].
  destruct (raw_host_facts c Hc) as (_ & _ & _ & _ & ->). by rewrite IH.
Qed.

(** X13: The letter case of the host does not count. *)
Theorem normalize_host_case (sch h p t : string) :
  sch = "http"%string ∨ sch = "https"%string →
  url_host h = true → url_path p = true → url_tail t = true →
  normalize_url (absolute_url sch h p t)
  = normalize_url (absolute_url sch (lower h) p t).
Proof.
  intros Hs Hh Hp Ht.
  rewrite !normalize_url_absolute by (try done; by apply url_host_lower).
  by rewrite lower_idem.
Qed.

(** X14: One [www.] before a host that does not begin with [www.] itself does
    not count. *)
Theorem normalize_www (sch h p t : string) :
  sch = "http"%string ∨ sch = "https"%string →
  url_host h = true → url_path p = true → url_tail t = true →
  startswith "www." (lower h) = false →
  normalize_url (absolute_url sch ("www." +:+ h) p t)
  = normalize_url (absolute_url sch h p t).
Proof.
  intros Hs Hh Hp Ht Hw.
  assert (url_host ("www." +:+ h) = true) as Hh'.
  { unfold url_host in *. apply andb_true_iff in Hh as [_ Hh].
    rewrite all_chars_app, Hh. done. }
  rewrite !normalize_url_absolute by done.
  rewrite lower_app, Hw.
  change (lower "www.") with "www."%string.
  by rewrite startswith_app.
Qed.

Lemma re_sub_slashes_double (p1 p2 : string) :
  re_sub_slashes (p1 +:+ String "/" (String "/" p2))
  = re_sub_slashes (p1 +:+ String "/" p2).
Proof.
  induction p1 as [|c p1 IH]; [done|].
  rewrite !sapp_cons. cbn [re_sub_slashes].
  destruct p1 as [|c' p1].
  - rewrite !sapp_nil_l in *. rewrite IH. done.
  - rewrite !sapp_cons in *. by rewrite IH.
Qed.

Lemma rstrip_collapse_slash (p : string) :
  nonempty p = true →
  rstrip (is_char "/") (re_sub_slashes (p +:+ "/"))
  = rstrip (is_char "/") (re_sub_slashes p).
Proof.
  induction p as [|c p IH]; [done|]. intros _.
  destruct p as [|c' p].
  - rewrite sapp_cons, sapp_nil_l. cbn [re_sub_slashes].
    change (is_char "/" "/") with true. rewrite andb_true_r.
    destruct (is_char "/" c) eqn:Hc; cbn [rstrip]; rewrite Hc; [|done].
    change (is_char "/" "/") with true. done.
  - specialize (IH eq_refl). rewrite !sapp_cons in *.
    cbn [re_sub_slashes].
    destruct (is_char "/" c && is_char "/" c'); [exact IH|].
    cbn [rstrip]. cbn [re_sub_slashes] in IH. by rewrite IH.
Qed.

Lemma url_path_parts (p1 p2 : string) :
  url_path (p1 +:+ String "/" p2) = true →
  url_path (p1 +:+ String "/" (String "/" p2)) = true.
Proof.
  unfold url_path. rewrite !all_chars_app. cbn [all_chars].
  intros [[H1 [Hc H2]%andb_true_iff]%andb_true_iff Hs]%andb_true_iff.
  rewrite H1, Hc, H2. cbn [andb].
  destruct p1 as [|a p1]; [done|]. by rewrite !sapp_cons in *.
Qed.

(** X15: A doubled slash in the path counts as one slash. *)
Theorem normalize_double_slash (sch h p1 p2 t : string) :
  sch = "http"%string ∨ sch = "https"%string →
  url_host h = true → url_path (p1 +:+ "/" +:+ p2) = true →
  url_tail t = true →
  normalize_url (absolute_url sch h (p1 +:+ "//" +:+ p2) t)
  = normalize_url (absolute_url sch h (p1 +:+ "/" +:+ p2) t).
Proof.
  intros Hs Hh Hp Ht.
  rewrite !normalize_url_absolute by (try done; by apply url_path_parts).
  assert (∀ x, nonempty (p1 +:+ String "/" x) = true) as Hne
    by (intros; by destruct p1).
  unfold or_else.
  change ("//" +:+ p2) with (String "/" (String "/" p2)).
  change ("/" +:+ p2) with (String "/" p2).
  by rewrite !Hne, re_sub_slashes_double.
Qed.

(** X16: A slash at the end of the path does not count. *)
Theorem normalize_trailing_slash (sch h p t : string) :
  sch = "http"%string ∨ sch = "https"%string →
  url_host h = true → url_path p = true → url_tail t = true →
  normalize_url (absolute_url sch h (p +:+ "/") t)
  = normalize_url (absolute_url sch h p t).
Proof.
  intros Hs Hh Hp Ht.
  assert (url_path (p +:+ "/") = true) as Hp'.
  { unfold url_path in *. apply andb_true_iff in Hp as [Hc Hstart].
    rewrite all_chars_app, Hc. cbn [andb].
    destruct p as [|a p]; [done|]. by rewrite sapp_cons in *. }
  rewrite !normalize_url_absolute by done.
  destruct p as [|a p]; [done|].
  unfold or_else.
  assert (nonempty (String a p +:+ "/") = true) as -> by done.
  cbn [nonempty]. by rewrite rstrip_collapse_slash.
Qed.

End AbsoluteUrls.

Lemma normalize_drops_query_fragment_witness :
  url_host "apartments.com" = true ∧ url_path "/the-ave" = true ∧
  url_tail "?tour=1#photos" = true ∧
  normalize_url "https://apartments.com/the-ave?tour=1#photos"
  = normalize_url "https://apartments.com/the-ave".
Proof.
  do 3 (split; [reflexivity|]).
  apply (normalize_drops_query_fragment "https" "apartments.com" "/the-ave"
           "?tour=1#photos"); [by right|reflexivity..].
Defined.

Lemma normalize_host_case_witness :
  url_host "Apartments.COM" = true ∧ url_path "/the-ave" = true ∧
  url_tail EmptyString = true ∧
  normalize_url "http://Apartments.COM/the-ave"
  = normalize_url "http://apartments.com/the-ave".
Proof.
  do 3 (split; [reflexivity|]).
  apply (normalize_host_case "http" "Apartments.COM" "/the-ave" EmptyString);
    [by left|reflexivity..].
Defined.

Lemma normalize_www_witness :
  url_host "apartments.com" = true ∧ url_path "/the-ave" = true ∧
  url_tail EmptyString = true ∧
  PyStr.startswith "www." (PyStr.lower "apartments.com") = false ∧
  normalize_url "https://www.apartments.com/the-ave"
  = normalize_url "https://apartments.com/the-ave".
Proof.
  do 4 (split; [reflexivity|]).
  apply (normalize_www "https" "apartments.com" "/the-ave" EmptyString);
    [by right|reflexivity..].
Defined.

Lemma normalize_double_slash_witness :
  url_host "apartments.com" = true ∧
  url_path "/seattle-wa/the-ave" = true ∧ url_tail EmptyString = true ∧
  normalize_url "https://apartments.com/seattle-wa//the-ave"
  = normalize_url "https://apartments.com/seattle-wa/the-ave".
Proof.
  do 3 (split; [reflexivity|]).
  apply (normalize_double_slash "https" "apartments.com" "/seattle-wa"
           "the-ave" EmptyString); [by right|reflexivity..].
Defined.

Lemma normalize_trailing_slash_witness :
  url_host "apartments.com" = true ∧ url_path "/the-ave" = true ∧
  url_tail "?tour=1" = true ∧
  normalize_url "https://apartments.com/the-ave/?tour=1"
  = normalize_url "https://apartments.com/the-ave?tour=1".
Proof.
  do 3 (split; [reflexivity|]).
  apply (normalize_trailing_slash "https" "apartments.com" "/the-ave"
           "?tour=1"); [by right|reflexivity..].
Defined.

(** ** No query and no fragment in a normalised URL *)

Module PlainFacts.
Import PyStr StrFacts Urllib CharFacts.

Lemma plain_lower_char (c : ascii) :
  plain_char c = true → plain_char (lower_char c) = true.
Proof. destruct c as [[] [] [] [] [] [] [] []]; vm_compute; congruence. Qed.

Lemma plain_scheme_char (c : ascii) :
  scheme_char c = true → plain_char (lower_char c) = true.
Proof. destruct c as [[] [] [] [] [] [] [] []]; vm_compute; congruence. Qed.

Lemma plain_not_delim (c : ascii) : is_delim c = false → plain_char c = true.
Proof. destruct c as [[] [] [] [] [] [] [] []]; vm_compute; congruence. Qed.

Lemma all_chars_take (P : ascii → bool) (n : nat) (s : string) :
  all_chars P s = true → all_chars P (take n s) = true.
Proof.
  revert n. induction s as [|c s IH]; intros [|n]; try done. cbn.
  intros [Hc Hs]%andb_true_iff. by rewrite Hc, IH.
Qed.

Lemma all_chars_drop (P : ascii → bool) (n : nat) (s : string) :
  all_chars P s = true → all_chars P (drop n s) = true.
Proof.
  revert n. induction s as [|c s IH]; intros [|n]; try done. cbn.
  intros [Hc Hs]%andb_true_iff. by apply IH.
Qed.

Lemma all_chars_lower (P : ascii → bool) (s : string) :
  (∀ c, P c = true → P (lower_char c) = true) →
  all_chars P s = true → all_chars P (lower s) = true.
Proof.
  intros HP. induction s as [|c s IH]; [done|]. cbn.
  intros [Hc Hs]%andb_true_iff. by rewrite HP, IH.
Qed.

Lemma all_chars_rstrip (P q : ascii → bool) (s : string) :
  all_chars P s = true → all_chars P (rstrip q s) = true.
Proof.
  induction s as [|c s IH]; [done|]. cbn.
  intros [Hc Hs]%andb_true_iff. specialize (IH Hs).
  destruct (rstrip q s); [destruct (q c); [done|by cbn; rewrite Hc]|].
  cbn in *. by rewrite Hc, IH.
Qed.

Lemma all_chars_re_sub_slashes (P : ascii → bool) (s : string) :
  all_chars P s = true → all_chars P (re_sub_slashes s) = true.
Proof.
  induction s as [|c s IH]; [done|]. cbn [all_chars re_sub_slashes].
  intros [Hc Hs]%andb_true_iff. specialize (IH Hs).
  destruct s as [|c' s]; [by cbn; rewrite Hc|].
  destruct (is_char "/" c && is_char "/" c'); [done|].
  cbn [all_chars]. by rewrite Hc, IH.
Qed.

Lemma all_chars_lstrip (P q : ascii → bool) (s : string) :
  all_chars P s = true → all_chars P (lstrip q s) = true.
Proof.
  induction s as [|c s IH]; [done|]. cbn.
  intros [Hc Hs]%andb_true_iff. destruct (q c); [by apply IH|].
  cbn. by rewrite Hc, Hs.
Qed.

Lemma span_netloc_plain (s : string) :
  all_chars plain_char (span_netloc s).1 = true.
Proof.
  induction s as [|c s IH]; [done|]. cbn.
  destruct (is_delim c) eqn:Hc; [done|].
  destruct (span_netloc s) as [n r]. cbn in *.
  by rewrite plain_not_delim, IH.
Qed.

(** What is cut off before the first [c] has no [c], and keeps what the
    whole text has. *)
Lemma cut_none (c : ascii) (x : string) : has_char c (cut c x) = false.
Proof.
  unfold cut, split1. destruct (has_char c x) eqn:Hx; [|done].
  induction x as [|a x IH]; [done|]. cbn [has_char find] in *.
  destruct (is_char c a) eqn:Ha; [done|]. cbn [orb] in Hx.
  specialize (IH Hx). destruct (find c x) as [i|]; cbn in *.
  - by rewrite Ha, IH.
  - by rewrite Ha, IH.
Qed.

Lemma cut_keeps (a c : ascii) (x : string) :
  has_char a x = false → has_char a (cut c x) = false.
Proof.
  unfold cut, split1. intros Hx. destruct (has_char c x); [|done].
  destruct (find c x) as [i|]; [|done]. cbn [fst].
  revert i. induction x as [|b x IH]; intros [|i]; try done.
  cbn [has_char take] in *. apply orb_false_iff in Hx as [Hb Hx].
  by rewrite Hb, IH.
Qed.

Lemma plain_has_char (s : string) :
  all_chars plain_char s = true ↔
  has_char "?" s = false ∧ has_char "#" s = false.
Proof.
  induction s as [|c s IH]; [done|]. cbn [all_chars has_char].
  rewrite andb_true_iff, IH, !orb_false_iff. unfold plain_char.
  rewrite andb_true_iff, !negb_true_iff. tauto.
Qed.

End PlainFacts.

Section NoQuery.
Context `{!PyLib}.
Import PyStr StrFacts Urllib CharFacts PlainFacts.

Lemma urlsplit_plain (u : string) (p : SplitResult) :
  urlsplit u EmptyString = Some p →
  all_chars plain_char (scheme p) = true ∧
  all_chars plain_char (netloc p) = true ∧
  all_chars plain_char (path p) = true.
Proof.
  unfold urlsplit.
  set (url := remove_unsafe (lstrip c0_control_or_space u)).
  change (remove_unsafe (rstrip c0_control_or_space
            (lstrip c0_control_or_space EmptyString))) with EmptyString.
  set (first := match find ":" url with Some (S i') => _ | _ => _ end).
  assert (all_chars plain_char first.1 = true) as Hsch.
  { subst first. destruct (find ":" url) as [[|i']|]; try done.
    destruct url as [|c0 url']; [done|].
    destruct (isasciialpha c0 && all_chars scheme_char _) eqn:Hc; [|done].
    apply andb_true_iff in Hc as [_ Hc]. cbn [fst].
    revert Hc. generalize (take (S i') (String c0 url')).
    induction s as [|c s IH]; [done|]. cbn.
    intros [Hc Hs]%andb_true_iff. by rewrite plain_scheme_char, IH. }
  destruct first as [sch url1]. cbn [fst] in Hsch.
  set (second := if startswith "//" url1 then _ else _).
  assert (∀ nl rest, second = Some (nl, rest) →
            all_chars plain_char nl = true) as Hnl.
  { subst second. intros nl rest.
    destruct (startswith "//" url1); [|by intros [= <- _]].
    unfold splitnetloc2.
    pose proof (span_netloc_plain (drop 2 url1)) as Hspan.
    destruct (span_netloc (drop 2 url1)) as [nl' rest']. cbn [fst] in Hspan.
    destruct (_ || _); [done|].
    destruct (_ && _); [destruct (check_bracketed_netloc nl'); [|done]|];
      by intros [= <- _]. }
  destruct second as [[nl url0]|]; [|done].
  specialize (Hnl nl url0 eq_refl). cbn [mbind option_bind].
  pose proof (cut_none "#" url0) as Hf.
  pose proof (cut_none "?" (cut "#" url0)) as Hq.
  pose proof (cut_keeps "#" "?" (cut "#" url0) Hf) as Hqf.
  unfold cut in Hf, Hq, Hqf.
  destruct (if has_char "#" url0 then _ else _) as [url2 frag].
  cbn [fst] in Hf, Hq, Hqf.
  destruct (if has_char "?" url2 then _ else _) as [url3 qry].
  cbn [fst] in Hq, Hqf.
  destruct (checknetloc nl); [|done]. intros [= <-]. cbn.
  split; [done|]. split; [done|]. by apply plain_has_char.
Qed.

Lemma urlunsplit_plain (sch nl pth : string) :
  all_chars plain_char sch = true → all_chars plain_char nl = true →
  all_chars plain_char pth = true →
  all_chars plain_char (urlunsplit sch nl pth EmptyString EmptyString) = true.
Proof.
  intros Hs Hn Hp. unfold urlunsplit. cbn [nonempty].
  set (body := if nonempty nl || _ then _ else _).
  assert (all_chars plain_char body = true) as Hb.
  { subst body. destruct (_ || _); [|done].
    change (String.append "//" ?x) with (String "/" (String "/" x)).
    cbn [all_chars]. change (plain_char "/") with true. cbn [andb].
    change String.append with (fun a b : string => a +:+ b). cbv beta.
    rewrite all_chars_app, Hn. cbn [andb].
    destruct (_ && _); [|done]. cbn [all_chars]. by rewrite Hp. }
  destruct (nonempty sch); [|done].
  change String.append with (fun a b : string => a +:+ b). cbv beta.
  rewrite all_chars_app, Hs. cbn [andb all_chars]. by rewrite Hb.
Qed.

(** X11: Whatever the input, the result of [normalize_url] holds neither a
    [?] nor a [#]: no query and no fragment is left in it. *)
Theorem normalize_url_no_query_fragment (u : string) :
  has_char "?" (normalize_url u) = false ∧
  has_char "#" (normalize_url u) = false.
Proof.
  apply plain_has_char. unfold normalize_url, normalize_url_try.
  destruct (negb (nonempty u)); [done|].
  destruct (_ || _); [done|].
  destruct (urlsplit (strip u) EmptyString) as [p|] eqn:Hp; [|done].
  cbn [mbind option_bind].
  set (second := if negb (nonempty (netloc p)) then _ else _).
  assert (∀ p2, second = Some p2 →
            all_chars plain_char (scheme p2) = true ∧
            all_chars plain_char (netloc p2) = true ∧
            all_chars plain_char (path p2) = true) as Hp2.
  { subst second. intros p2. destruct (negb (nonempty (netloc p))).
    - destruct (urljoin SEARCH_URL (strip u)) as [joined|]; [|done].
      cbn [mbind option_bind]. apply urlsplit_plain.
    - intros [= <-]. by apply (urlsplit_plain (strip u)). }
  destruct second as [p2|]; [|done].
  destruct (Hp2 p2 eq_refl) as (Hs & Hn & Hpath).
  cbn [mbind option_bind default]. apply urlunsplit_plain.
  - by destruct (negb (nonempty (scheme p2))).
  - assert (all_chars plain_char (lower (netloc p2)) = true) as Hl
      by (apply all_chars_lower; [apply plain_lower_char|done]).
    destruct (startswith "www." _); [by apply all_chars_drop|done].
  - apply all_chars_rstrip, all_chars_re_sub_slashes.
    unfold or_else. by destruct (nonempty (path p2)).
Qed.

End NoQuery.

(** ** The dedup pass, once more *)

Section DedupTwice.
Context `{!PyLib}.

Lemma dedupe_from_twice (seen_res : gset string) (results : list ResultRow) :
  dedupe_from seen_res (dedupe_from seen_res results)
  = dedupe_from seen_res results.
Proof.
  revert seen_res. induction results as [|r rest IH]; intros seen_res; [done|].
  cbn [dedupe_from].
  destruct (decide (key r = EmptyString ∨ key r ∈ seen_res)) as [Hd|Hd];
    [apply IH|].
  cbn [dedupe_from]. rewrite decide_False by done. by rewrite IH.
Qed.

(** X17: The dedup pass applied to its own output changes nothing. *)
Theorem dedupe_idempotent (results : list ResultRow) :
  dedupe (dedupe results [] ∅) [] ∅ = dedupe results [] ∅.
Proof. rewrite !dedupe_acc, !app_nil_l. apply dedupe_from_twice. Qed.

End DedupTwice.

(** ** Title and address of a listing *)

Module StripFacts.
Import PyStr StrFacts.

Lemma rstrip_idem (q : ascii → bool) (s : string) :
  rstrip q (rstrip q s) = rstrip q s.
Proof.
  induction s as [|c s IH]; [done|]. cbn [rstrip].
  destruct (rstrip q s) as [|c' t] eqn:Hr.
  - destruct (q c) eqn:Hc; [done|]. cbn. by rewrite Hc.
  - cbn [rstrip] in *. rewrite IH. done.
Qed.

Lemma rstrip_head (q : ascii → bool) (c : ascii) (s : string) :
  q c = false → ∃ t, rstrip q (String c s) = String c t.
Proof.
  intros Hc. cbn [rstrip]. destruct (rstrip q s); [rewrite Hc|]; eauto.
Qed.

Lemma lstrip_head (q : ascii → bool) (s : string) :
  lstrip q s = EmptyString ∨ ∃ c t, lstrip q s = String c t ∧ q c = false.
Proof.
  induction s as [|c s IH]; [by left|]. cbn.
  destruct (q c) eqn:Hc; [done|]. right. eauto.
Qed.

Lemma strip_idem (s : string) : strip (strip s) = strip s.
Proof.
  unfold strip.
  destruct (lstrip_head isspace s) as [->|(c & t & -> & Hc)]; [done|].
  destruct (rstrip_head isspace c t Hc) as [t' Ht]. rewrite Ht.
  cbn [lstrip]. rewrite Hc, <- Ht. apply rstrip_idem.
Qed.

End StripFacts.

Section Extraction.
Context `{!PyLib} {D : Type} `{!Driver D}.
Import PyStr StripFacts.

(** X18: The title and the address that go to the audit log carry no white
    space at their ends, whatever the page holds. *)
Theorem title_address_trimmed (d : D) :
  strip (extract_title d) = extract_title d ∧
  strip (extract_address d) = extract_address d.
Proof.
  unfold extract_title, extract_address. split.
  - destruct (find_elements d CSS_SELECTOR "h1") as [[|el ?]|]; try done.
    destruct (nonempty _); [apply strip_idem|done].
  - set (first := match find_elements d CSS_SELECTOR
                          ".propertyAddress, .property-address, .js-address"
                  with Some (el :: _) => _ | _ => _ end).
    assert (strip first = first) as Hfirst.
    { subst first. destruct (find_elements d CSS_SELECTOR _) as [[|el ?]|];
        try done.
      destruct (nonempty _); [apply strip_idem|done]. }
    destruct (negb (nonempty first)); [|done].
    destruct (find_elements d CSS_SELECTOR "meta[name='description']")
      as [[|m ?]|]; try done.
    destruct (get_attribute m "content") as [content|]; [|done].
    destruct (nonempty content); [apply strip_idem|done].
Qed.

End Extraction.

(** ** normalize_url on links without a host *)

Section RelativeUrls.
Context `{!PyLib}.
Import PyStr StrFacts Urllib CharFacts SplitFacts.

Lemma strip_spaces (ws : string) :
  all_chars isspace ws = true → strip ws = EmptyString.
Proof.
  intros Hws. unfold strip.
  assert (lstrip isspace ws = EmptyString) as ->; [|done].
  induction ws as [|c ws IH]; [done|]. cbn in *.
  apply andb_true_iff in Hws as [-> Hws]. by apply IH.
Qed.

(** X19: Only the empty string is taken for no link at all: a string of white
    space is stripped after that test, is then joined to [SEARCH_URL] as
    an empty relative reference, and gets the key of the search page. *)
Theorem normalize_whitespace_only (ws : string) :
  nonempty ws = true → all_chars isspace ws = true →
  normalize_url ws = "https://apartments.com/apartments/seattle-wa"%string.
Proof.
  intros Hne Hws. unfold normalize_url, normalize_url_try.
  rewrite Hne, (strip_spaces ws Hws). vm_compute. reflexivity.
Qed.

Lemma split_nonempty (c : ascii) (s : string) : split c s ≠ [].
Proof.
  induction s as [|a s IH]; [done|]. cbn.
  destruct (is_char c a); [done|]. by destruct (split c s).
Qed.

Lemma join_split (s : string) : join "/" (split "/" s) = s.
Proof.
  induction s as [|a s IH]; [done|]. cbn [split].
  pose proof (split_nonempty "/" s) as Hne.
  destruct (is_char "/" a) eqn:Ha.
  - apply Ascii.eqb_eq in Ha as <-.
    destruct (split "/" s) as [|x r]; [done|].
    cbn [join]. cbn [join] in IH. by rewrite IH.
  - destruct (split "/" s) as [|x r]; [done|].
    destruct r as [|y r]; cbn [join] in *; [by rewrite IH|].
    change (String.append (String a x) ?t) with (String a (String.append x t)).
    by rewrite IH.
Qed.

Lemma resolve_plain (segs rev_acc : list string) :
  forallb (fun seg => negb (String.eqb seg ".") && negb (String.eqb seg ".."))
    segs = true →
  resolve segs rev_acc = rev rev_acc ++ segs.
Proof.
  revert rev_acc. induction segs as [|seg r IH]; intros rev_acc Hs; cbn.
  - by rewrite app_nil_r.
  - cbn in Hs. apply andb_true_iff in Hs as [Hseg Hr].
    apply andb_true_iff in Hseg as [H1 H2].
    apply negb_true_iff in H1, H2. rewrite H1, H2, IH by done.
    cbn. by rewrite <- app_assoc.
Qed.

Lemma last_plain (segs : list string) :
  segs ≠ [] →
  forallb (fun seg => negb (String.eqb seg ".") && negb (String.eqb seg ".."))
    segs = true →
  String.eqb (List.last segs EmptyString) "." = false ∧
  String.eqb (List.last segs EmptyString) ".." = false.
Proof.
  induction segs as [|seg r IH]; [done|]. intros _ Hs. cbn in Hs.
  apply andb_true_iff in Hs as [Hseg Hr].
  destruct r as [|seg' r]; [|by apply IH].
  cbn. apply andb_true_iff in Hseg as [H1 H2].
  by apply negb_true_iff in H1, H2.
Qed.

Lemma root_relative_inv (p : string) :
  root_relative p = true →
  url_path p = true ∧ (∃ p', p = String "/" p') ∧
  startswith "//" p = false ∧ has_char ";" p = false ∧
  forallb (fun seg => negb (String.eqb seg ".") && negb (String.eqb seg ".."))
    (split "/" p) = true.
Proof.
  unfold root_relative.
  intros [[[[Hp Hn]%andb_true_iff Hs%negb_true_iff]%andb_true_iff
            Hsc%negb_true_iff]%andb_true_iff Hdots]%andb_true_iff.
  repeat split; try done.
  destruct (url_path_inv p Hp) as (_ & _ & _ & [->|Hstart]); [done|].
  destruct p as [|a p']; [done|]. cbn [startswith] in Hstart.
  rewrite andb_true_r in Hstart. apply Ascii.eqb_eq in Hstart as <-. eauto.
Qed.

Lemma urlsplit_rooted (p s0 : string) :
  root_relative p = true →
  s0 = EmptyString ∨ s0 = "https"%string →
  urlsplit p s0 = Some (mkSplit s0 EmptyString p EmptyString EmptyString).
Proof.
  intros (Hp & [p' ->] & Hss & _)%root_relative_inv Hs0.
  destruct (url_path_inv _ Hp) as (Hg & Hq & Hf & _).
  unfold urlsplit.
  assert (lstrip c0_control_or_space (String "/" p') = String "/" p') as ->
    by reflexivity.
  rewrite (remove_unsafe_graphic (String "/" p')) by done.
  assert (remove_unsafe
            (rstrip c0_control_or_space (lstrip c0_control_or_space s0)) = s0)
    as -> by (by destruct Hs0 as [-> | ->]).
  assert (∀ i', (if isasciialpha "/" &&
                     all_chars scheme_char (take (S i') (String "/" p'))
                 then (lower (take (S i') (String "/" p')),
                       drop (S (S i')) (String "/" p'))
                 else (s0, String "/" p')) = (s0, String "/" p')) as Hno
    by done.
  destruct (find ":" (String "/" p')) as [[|i']|]; rewrite ?Hno;
    rewrite Hss; cbn [mbind option_bind]; rewrite Hf, Hq; reflexivity.
Qed.

Lemma urlparse_rooted (p s0 : string) :
  root_relative p = true →
  s0 = EmptyString ∨ s0 = "https"%string →
  urlparse p s0
  = Some (mkParse s0 EmptyString p EmptyString EmptyString EmptyString).
Proof.
  intros Hp Hs0. unfold urlparse. rewrite urlsplit_rooted by done.
  cbn [mbind option_bind scheme netloc path query fragment].
  destruct (root_relative_inv p Hp) as (_ & _ & _ & -> & _).
  by rewrite andb_false_r.
Qed.

(** [urljoin] puts a link from the root under the host of [SEARCH_URL]. *)
Lemma urljoin_rooted (p : string) :
  root_relative p = true →
  urljoin SEARCH_URL p = Some ("https://www.apartments.com" +:+ p).
Proof.
  intros Hp.
  destruct (root_relative_inv p Hp) as (_ & [p' ->] & _ & _ & Hdots).
  unfold urljoin.
  change (negb (nonempty SEARCH_URL)) with false.
  change (negb (nonempty (String "/" p'))) with false. cbv iota.
  assert (urlparse SEARCH_URL EmptyString
          = Some (mkParse "https" "www.apartments.com"
                    "/apartments/seattle-wa/" EmptyString EmptyString
                    EmptyString)) as -> by (vm_compute; reflexivity).
  cbn [mbind option_bind pscheme].
  rewrite urlparse_rooted by (done || by right).
  cbn [mbind option_bind pscheme pnetloc ppath pparams pquery pfragment].
  change (negb (String.eqb "https" "https") ||
          negb (mem "https" uses_relative)) with false.
  change (mem "https" uses_netloc) with true.
  cbn [andb nonempty negb]. cbv iota.
  change (startswith "/" (String "/" p')) with true. cbv iota zeta.
  rewrite resolve_plain by done. cbn [rev app].
  destruct (last_plain (split "/" (String "/" p'))) as [-> ->];
    [apply split_nonempty|done|].
  cbn [orb]. rewrite join_split.
  reflexivity.
Qed.

(** X20: A link from the root of the site gets the key of the same path on the
    host of [SEARCH_URL]. *)
Theorem normalize_root_relative (p : string) :
  root_relative p = true →
  normalize_url p = normalize_url ("https://www.apartments.com" +:+ p).
Proof.
  intros Hp.
  destruct (root_relative_inv p Hp) as (Hpath & [p' Hp'] & _).
  destruct (url_path_inv p Hpath) as (Hg & _).
  assert (normalize_url ("https://www.apartments.com" +:+ p)
          = normalize_url
              (absolute_url "https" "www.apartments.com" p EmptyString)) as ->.
  { unfold absolute_url. by rewrite sapp_nil_r. }
  destruct (urlsplit_absolute "https" "www.apartments.com" p EmptyString)
    as (q & f & Hsplit); [by right|done..|].
  rewrite normalize_url_absolute by (done || by right).
  unfold normalize_url, normalize_url_try.
  rewrite (strip_graphic p Hg).
  assert (nonempty p = true) as -> by (by subst p).
  assert (startswith "javascript:" (lower p) = false) as -> by (by subst p).
  assert (startswith "mailto:" (lower p) = false) as -> by (by subst p).
  cbn [negb orb]. rewrite (urlsplit_rooted p EmptyString) by (done || by left).
  cbn [mbind option_bind netloc nonempty negb].
  rewrite urljoin_rooted by done. cbn [mbind option_bind].
  unfold absolute_url in Hsplit. rewrite sapp_nil_r in Hsplit.
  change ("https://www.apartments.com" +:+ p)
    with ("https" +:+ "://" +:+ "www.apartments.com" +:+ p).
  rewrite Hsplit.
  reflexivity.
Qed.

End RelativeUrls.

Lemma normalize_root_relative_witness :
  root_relative "/the-ave/" = true ∧
  normalize_url "/the-ave/" = normalize_url "https://www.apartments.com/the-ave/" ∧
  normalize_url "/the-ave/" = "https://apartments.com/the-ave"%string.
Proof.
  split; [reflexivity|]. split; [|vm_compute; reflexivity].
  apply (normalize_root_relative "/the-ave/"). reflexivity.
Defined.

Lemma normalize_whitespace_only_witness :
  normalize_url "  " = "https://apartments.com/apartments/seattle-wa"%string ∧
  normalize_url EmptyString = EmptyString.
Proof.
  split; [|reflexivity].
  apply (normalize_whitespace_only "  "); reflexivity.
Defined.

(** ** Links that are no pages *)

Section Rejected.
Context `{!PyLib}.
Import PyStr StrFacts.

Lemma isspace_lower_char (c : ascii) : isspace (lower_char c) = isspace c.
Proof. by destruct c as [[] [] [] [] [] [] [] []]. Qed.

Lemma no_space_lower (s : string) :
  all_chars (fun c => negb (isspace c)) (lower s) = true →
  all_chars (fun c => negb (isspace c)) s = true.
Proof.
  induction s as [|c s IH]; [done|]. cbn.
  rewrite isspace_lower_char. intros [-> Hs]%andb_true_iff. by apply IH.
Qed.

Lemma rstrip_after (q : ascii → bool) (k r : string) :
  all_chars (fun c => negb (q c)) k = true →
  rstrip q (k +:+ r) = k +:+ rstrip q r.
Proof.
  induction k as [|c k IH]; [done|]. cbn [all_chars].
  intros [Hc%negb_true_iff Hk]%andb_true_iff.
  rewrite !sapp_cons. cbn [rstrip]. rewrite (IH Hk), Hc.
  by destruct (k +:+ rstrip q r).
Qed.

Lemma lstrip_keyword (k r : string) :
  nonempty k = true → all_chars (fun c => negb (isspace c)) k = true →
  lstrip isspace (k +:+ r) = k +:+ r.
Proof.
  destruct k as [|c k]; [done|]. intros _. cbn [all_chars].
  intros [Hc%negb_true_iff _]%andb_true_iff.
  rewrite sapp_cons. cbn [lstrip]. by rewrite Hc.
Qed.

(** X21: A link that begins, after white space and in any letter case, with
    [javascript:] or [mailto:] gets the empty sentinel, whatever
    follows. *)
Theorem normalize_script_mail_rejected (ws kw rest : string) :
  all_chars isspace ws = true →
  lower kw = "javascript:"%string ∨ lower kw = "mailto:"%string →
  normalize_url (ws +:+ kw +:+ rest) = EmptyString.
Proof.
  intros Hws Hkw. unfold normalize_url, normalize_url_try.
  assert (nonempty kw = true ∧
          all_chars (fun c => negb (isspace c)) kw = true) as [Hne Hns].
  { split; [destruct Hkw as [Hk|Hk]; by destruct kw|].
    apply no_space_lower. by destruct Hkw as [-> | ->]. }
  assert (nonempty (ws +:+ kw +:+ rest) = true) as ->.
  { destruct ws; [|done]. rewrite sapp_nil_l. by destruct kw. }
  assert (strip (ws +:+ kw +:+ rest) = kw +:+ rstrip isspace rest) as ->.
  { unfold strip. rewrite lstrip_app_all, lstrip_keyword by done.
    by apply rstrip_after. }
  rewrite lower_app.
  destruct Hkw as [-> | ->]; rewrite startswith_app; [done|].
  by rewrite orb_true_r.
Qed.

End Rejected.

Lemma normalize_script_mail_rejected_witness :
  normalize_url "  JavaScript:void(0)" = EmptyString ∧
  normalize_url "MAILTO:office@example.com" = EmptyString.
Proof.
  split.
  - apply (normalize_script_mail_rejected "  " "JavaScript:" "void(0)");
      [reflexivity|by left].
  - apply (normalize_script_mail_rejected EmptyString "MAILTO:"
             "office@example.com"); [reflexivity|by right].
Defined.

(** ** The jobs handed to the pool *)

Lemma submit_spec (k : nat) (batches : list (list string)) (i : nat)
    (b : list string) :
  (i, b) ∈ submit k batches ↔
  k ≤ i ∧ batches !! (i - k) = Some b ∧ b ≠ [].
Proof.
  revert k. induction batches as [|b0 r IH]; intros k.
  - cbn. split; [by intros ?%elem_of_nil|by intros (_ & ? & _)].
  - assert ((i, b) ∈ submit (S k) r ↔
            k < i ∧ (b0 :: r) !! (i - k) = Some b ∧ b ≠ []) as Hrest.
    { rewrite IH. split.
      - intros (Hk & Hl & Hb). split; [lia|]. split; [|done].
        replace (i - k) with (S (i - S k)) by lia. done.
      - intros (Hk & Hl & Hb). split; [lia|]. split; [|done].
        replace (i - k) with (S (i - S k)) in Hl by lia. done. }
    destruct b0 as [|x b0].
    + cbn [submit]. rewrite Hrest. split.
      * intros (Hk & Hl & Hb). split; [lia|done].
      * intros (Hk & Hl & Hb). split; [|done].
        destruct (decide (i = k)) as [->|]; [|lia].
        rewrite Nat.sub_diag in Hl. cbn in Hl. congruence.
    + cbn [submit]. rewrite elem_of_cons, Hrest. split.
      * intros [[= -> ->]|(Hk & Hl & Hb)].
        -- split; [done|]. by rewrite Nat.sub_diag.
        -- split; [lia|done].
      * intros (Hk & Hl & Hb).
        destruct (decide (i = k)) as [->|]; [|right; split; [lia|done]].
        left. rewrite Nat.sub_diag in Hl. cbn in Hl. congruence.
Qed.

Lemma submit_ids_distinct (k : nat) (batches : list (list string)) :
  NoDup (submit k batches).*1.
Proof.
  revert k. induction batches as [|b0 r IH]; intros k; [constructor|].
  destruct b0 as [|x b0]; cbn [submit]; [apply IH|].
  cbn. constructor; [|apply IH].
  intros ((i & b) & Hi & Hin%submit_spec)%list_elem_of_fmap.
  cbn in Hi. destruct Hin. lia.
Qed.

(** X22: The jobs of [main]: the batch at position [i], counted from 1, is
    handed out under the worker number [i] if and only if it is not
    empty; so the worker numbers of the jobs are pairwise different. *)
Theorem jobs_are_numbered_batches (batches : list (list string)) :
  (∀ i b, (i, b) ∈ submit 1 batches ↔
          1 ≤ i ∧ batches !! (i - 1) = Some b ∧ b ≠ []) ∧
  NoDup (submit 1 batches).*1.
Proof. split; [intros; apply submit_spec|apply submit_ids_distinct]. Qed.

(** Three batches, the second one empty: the third keeps the number 3. *)
Lemma jobs_are_numbered_batches_witness :
  (3, ["c"%string]) ∈ submit 1 [["a"%string]; []; ["c"%string]] ∧
  (2, @nil string) ∉ submit 1 [["a"%string]; []; ["c"%string]].
Proof.
  destruct (jobs_are_numbered_batches [["a"%string]; []; ["c"%string]])
    as [Hjobs _].
  split.
  - apply Hjobs. split; [lia|]. split; [reflexivity|discriminate].
  - intros Hin%Hjobs. by destruct Hin as (_ & _ & Hne).
Defined.

(** ** Links that urlsplit refuses *)

Section Refused.
Context `{!PyLib}.
Import PyStr StrFacts Urllib CharFacts.

Lemma span_netloc_authority (h rest : string) :
  all_chars (fun c => negb (is_delim c)) h = true →
  (rest = EmptyString ∨ ∃ c r, rest = String c r ∧ is_delim c = true) →
  span_netloc (h +:+ rest) = (h, rest).
Proof.
  intros Hh Hrest. induction h as [|a h IH].
  - rewrite sapp_nil_l. destruct Hrest as [->|(c & r & -> & Hc)]; [done|].
    cbn. by rewrite Hc.
  - cbn in Hh. apply andb_true_iff in Hh as [Ha%negb_true_iff Hh].
    rewrite sapp_cons. cbn [span_netloc]. by rewrite Ha, IH.
Qed.

(** X23: An http or https URL whose authority has an opening bracket without a
    closing one, or a closing one without an opening one, makes [urlsplit]
    raise [ValueError]; [normalize_url] catches it and returns the empty
    sentinel. *)
Theorem normalize_unmatched_bracket (sch h p : string) :
  sch = "http"%string ∨ sch = "https"%string →
  all_chars graphic h = true →
  all_chars (fun c => negb (is_delim c)) h = true →
  has_char "[" h ≠ has_char "]" h →
  url_path p = true →
  normalize_url (sch +:+ "://" +:+ h +:+ p) = EmptyString.
Proof.
  intros Hs Hg Hnd Hbr Hp.
  destruct (url_path_inv p Hp) as (Hgp & _ & _ & Hstart).
  assert (all_chars graphic (h +:+ p) = true) as Hrest
    by (by rewrite all_chars_app, Hg, Hgp).
  assert (span_netloc (h +:+ p) = (h, p)) as Hspan.
  { apply span_netloc_authority; [done|].
    destruct Hstart as [->|Hst]; [by left|right].
    destruct p as [|a p]; [done|]. cbn [startswith] in Hst.
    rewrite andb_true_r in Hst. apply Ascii.eqb_eq in Hst as <-. eauto. }
  assert (has_char "[" h && negb (has_char "]" h)
          || has_char "]" h && negb (has_char "[" h) = true) as Hone
    by (by destruct (has_char "[" h), (has_char "]" h)).
  assert (urlsplit (sch +:+ "://" +:+ h +:+ p) EmptyString = None) as Hsplit.
  { set (rest := h +:+ p) in *. unfold urlsplit.
    destruct Hs as [-> | ->].
    - set (url := ("http" +:+ "://" +:+ rest)%string).
      assert (url = String "h" (String "t" (String "t" (String "p"
               (String ":" (String "/" (String "/" rest))))))) as Hurl
        by reflexivity.
      clearbody url. subst url.
      match goal with |- context [lstrip c0_control_or_space ?u] =>
        assert (lstrip c0_control_or_space u = u) as -> by reflexivity;
        assert (remove_unsafe u = u) as ->
          by (apply remove_unsafe_graphic; cbn [all_chars]; rewrite Hrest;
              reflexivity);
        assert (find ":" u = Some 4) as -> by reflexivity
      end.
      cbn [take drop].
      change (isasciialpha "h" && all_chars scheme_char "http") with true.
      cbv iota.
      change (startswith "//" (String "/" (String "/" rest))) with true.
      unfold splitnetloc2. cbn [drop]. rewrite Hspan. cbv iota.
      by rewrite Hone.
    - set (url := ("https" +:+ "://" +:+ rest)%string).
      assert (url = String "h" (String "t" (String "t" (String "p" (String "s"
               (String ":" (String "/" (String "/" rest)))))))) as Hurl
        by reflexivity.
      clearbody url. subst url.
      match goal with |- context [lstrip c0_control_or_space ?u] =>
        assert (lstrip c0_control_or_space u = u) as -> by reflexivity;
        assert (remove_unsafe u = u) as ->
          by (apply remove_unsafe_graphic; cbn [all_chars]; rewrite Hrest;
              reflexivity);
        assert (find ":" u = Some 5) as -> by reflexivity
      end.
      cbn [take drop].
      change (isasciialpha "h" && all_chars scheme_char "https") with true.
      cbv iota.
      change (startswith "//" (String "/" (String "/" rest))) with true.
      unfold splitnetloc2. cbn [drop]. rewrite Hspan. cbv iota.
      by rewrite Hone. }
  unfold normalize_url, normalize_url_try.
  assert (strip (sch +:+ "://" +:+ h +:+ p) = sch +:+ "://" +:+ h +:+ p) as ->.
  { apply strip_graphic. rewrite all_chars_app, all_chars_app, Hrest.
    by destruct Hs as [-> | ->]. }
  assert (nonempty (sch +:+ "://" +:+ h +:+ p) = true) as ->
    by (by destruct Hs as [-> | ->]).
  assert (startswith "javascript:" (lower (sch +:+ "://" +:+ h +:+ p))
          = false) as -> by (by destruct Hs as [-> | ->]).
  assert (startswith "mailto:" (lower (sch +:+ "://" +:+ h +:+ p))
          = false) as -> by (by destruct Hs as [-> | ->]).
  cbn [negb orb]. by rewrite Hsplit.
Qed.

End Refused.

Lemma normalize_unmatched_bracket_witness :
  normalize_url "http://[apartments.com/the-ave" = EmptyString.
Proof.
  apply (normalize_unmatched_bracket "http" "[apartments.com" "/the-ave");
    [by left|reflexivity|reflexivity|discriminate|reflexivity].
Defined.

(** ** Links without a scheme *)

Section SchemeRelative.
Context `{!PyLib}.
Import PyStr StrFacts Urllib CharFacts SplitFacts.

Lemma urlsplit_scheme_relative (h p t : string) :
  url_host h = true → url_path p = true → url_tail t = true →
  ∃ q f,
    urlsplit ("//" +:+ h +:+ p +:+ t) EmptyString
    = Some (mkSplit EmptyString h p q f).
Proof.
  intros Hh Hp Ht. pose proof (absolute_graphic h p t Hh Hp Ht) as Hg.
  set (rest := h +:+ p +:+ t) in *.
  change ("//" +:+ rest) with (String "/" (String "/" rest)).
  unfold urlsplit.
  assert (lstrip c0_control_or_space (String "/" (String "/" rest))
          = String "/" (String "/" rest)) as -> by reflexivity.
  rewrite (remove_unsafe_graphic (String "/" (String "/" rest)))
    by (cbn [all_chars]; by rewrite Hg).
  change (remove_unsafe (rstrip c0_control_or_space
            (lstrip c0_control_or_space EmptyString))) with EmptyString.
  assert (∀ i', (if isasciialpha "/" &&
                     all_chars scheme_char
                       (take (S i') (String "/" (String "/" rest)))
                 then (lower (take (S i') (String "/" (String "/" rest))),
                       drop (S (S i')) (String "/" (String "/" rest)))
                 else (EmptyString, String "/" (String "/" rest)))
                = (EmptyString, String "/" (String "/" rest))) as Hno
    by done.
  assert (match find ":" (String "/" (String "/" rest)) with
          | Some (S i') =>
              if isasciialpha "/" &&
                 all_chars scheme_char
                   (take (S i') (String "/" (String "/" rest)))
              then (lower (take (S i') (String "/" (String "/" rest))),
                    drop (S (S i')) (String "/" (String "/" rest)))
              else (EmptyString, String "/" (String "/" rest))
          | _ => (EmptyString, String "/" (String "/" rest))
          end = (EmptyString, String "/" (String "/" rest))) as ->
    by (destruct (find ":" _) as [[|i']|]; by rewrite ?Hno).
  change (startswith "//" (String "/" (String "/" rest))) with true.
  cbv iota. subst rest.
  unfold splitnetloc2. cbn [drop].
  rewrite (span_netloc_host h (p +:+ t))
    by (first [by apply url_host_inv | by apply authority_ends]).
  cbv iota.
  destruct (url_host_inv h Hh) as (Hn & _ & _ & Hascii & -> & ->).
  cbn [andb orb negb mbind option_bind].
  pose proof (path_cut p t Hp Ht) as Hcut. unfold cut in Hcut.
  destruct (if has_char "#" (p +:+ t) then _ else _) as [u1 f1].
  cbn [fst] in Hcut.
  destruct (if has_char "?" u1 then _ else _) as [u2 q2].
  cbn [fst] in Hcut. subst u2.
  unfold checknetloc. rewrite Hn, Hascii. cbn [negb orb]. eauto.
Qed.

(** X24: A link that starts at the host, [//host/path], is taken for an https
    link: it gets the key of [https://host/path]. *)
Theorem normalize_scheme_relative (h p t : string) :
  url_host h = true → url_path p = true → url_tail t = true →
  normalize_url ("//" +:+ h +:+ p +:+ t)
  = normalize_url (absolute_url "https" h p t).
Proof.
  intros Hh Hp Ht. pose proof (absolute_graphic h p t Hh Hp Ht) as Hg.
  destruct (urlsplit_scheme_relative h p t Hh Hp Ht) as (q & f & Hsplit).
  destruct (url_host_inv h Hh) as (Hn & _).
  rewrite normalize_url_absolute by (done || by right).
  unfold normalize_url, normalize_url_try.
  assert (strip ("//" +:+ h +:+ p +:+ t) = "//" +:+ h +:+ p +:+ t) as ->.
  { apply strip_graphic. by rewrite all_chars_app, Hg. }
  change (nonempty ("//" +:+ h +:+ p +:+ t)) with true.
  change (startswith "javascript:" (lower ("//" +:+ h +:+ p +:+ t)))
    with false.
  change (startswith "mailto:" (lower ("//" +:+ h +:+ p +:+ t))) with false.
  cbn [negb orb]. rewrite Hsplit.
  cbn [mbind option_bind netloc scheme path]. rewrite Hn. cbn [negb].
  cbn [mbind option_bind netloc scheme path default nonempty negb].
  reflexivity.
Qed.

End SchemeRelative.

Lemma normalize_scheme_relative_witness :
  url_host "www.Apartments.com" = true ∧ url_path "/the-ave/" = true ∧
  url_tail "#top" = true ∧
  normalize_url "//www.Apartments.com/the-ave/#top"
  = normalize_url "https://www.Apartments.com/the-ave/#top".
Proof.
  do 3 (split; [reflexivity|]).
  apply (normalize_scheme_relative "www.Apartments.com" "/the-ave/" "#top");
    reflexivity.
Defined.

(** ** The partition at its ends *)

Lemma chunks_singletons (l : list string) :
  chunks 1 (length l) l = (fun x => [x]) <$> l.
Proof. induction l as [|x l IH]; [done|]. by rewrite fmap_cons, <- IH. Qed.

Lemma ceil_div_same (n : nat) : 0 < n → ceil_div n n = 1.
Proof.
  intros Hn. unfold ceil_div. symmetry.
  apply (Nat.div_unique (n + n - 1) n 1 (n - 1)); lia.
Qed.

Lemma ceil_div_one (n : nat) : ceil_div n 1 = n.
Proof. unfold ceil_div. rewrite Nat.div_1_r. lia. Qed.

(** X25: With at least as many workers as links every batch holds one link;
    with one worker the one batch holds all the links. *)
Theorem partition_ends (links : list string) :
  links ≠ [] →
  (∀ W : Z, (Z.of_nat (length links) ≤ W)%Z →
     make_batches W links = Some ((fun x => [x]) <$> links)) ∧
  make_batches 1 links = Some [links].
Proof.
  intros Hne.
  assert (0 < length links) as Hlen by (destruct links; [done|cbn; lia]).
  split.
  - intros W HW. rewrite <- (Z2Nat.id W) by lia.
    rewrite make_batches_chunks by lia.
    rewrite Nat.min_r by lia. rewrite ceil_div_same by done.
    by rewrite chunks_singletons.
  - change 1%Z with (Z.of_nat 1). rewrite make_batches_chunks by lia.
    rewrite Nat.min_l by lia. rewrite ceil_div_one. cbn.
    by rewrite firstn_all.
Qed.

Lemma partition_ends_witness :
  make_batches 5 ["a"; "b"; "c"]%string
  = Some [["a"]; ["b"]; ["c"]]%string ∧
  make_batches 1 ["a"; "b"; "c"]%string = Some [["a"; "b"; "c"]]%string.
Proof.
  destruct (partition_ends ["a"; "b"; "c"]%string) as [Hmany Hone];
    [discriminate|].
  split; [apply (Hmany 5%Z); cbn; lia|exact Hone].
Defined.

(** * normalize_url, applied twice *)

(** A second call of [normalize_url] keeps the result of the first one
    exactly if that result is [stable].  The proof takes a result apart
    into the parts from which [urlunsplit] built it ([out_parts]), runs
    the second call on them, and bounds the length of what a second call
    can return on a link that is not stable. *)

(** ** Characters and strings *)

Module TwiceFacts.
Import PyStr StrFacts Urllib CharFacts SplitFacts PlainFacts StripFacts.

Lemma length_app (s t : string) :
  String.length (s +:+ t) = String.length s + String.length t.
Proof. induction s as [|c s IH]; [done|]. rewrite sapp_cons. cbn. by rewrite IH. Qed.

Lemma take_app_length (s t : string) : take (String.length s) (s +:+ t) = s.
Proof.
  induction s as [|c s IH]; [by destruct t|]. rewrite sapp_cons. cbn.
  by rewrite IH.
Qed.

Lemma drop_app_length (s t : string) : drop (String.length s) (s +:+ t) = t.
Proof. induction s as [|c s IH]; [by destruct t|]. by rewrite sapp_cons. Qed.

Lemma drop_app_length_S (s t : string) (a : ascii) :
  drop (S (String.length s)) (s +:+ String a t) = t.
Proof.
  induction s as [|c s IH]; [by rewrite sapp_nil_l|]. by rewrite sapp_cons.
Qed.

Lemma valid_scheme_char_facts (c : ascii) :
  valid_scheme_char c = true →
  scheme_char c = true ∧ lower_char c = c ∧ is_char ":" c = false ∧
  c0_control_or_space c = false ∧ unsafe_char c = false ∧ isspace c = false ∧
  is_char "/" c = false.
Proof. destruct c as [[] [] [] [] [] [] [] []]; vm_compute; intuition congruence. Qed.

Lemma scheme_char_lower (c : ascii) :
  scheme_char c = true → valid_scheme_char (lower_char c) = true.
Proof. destruct c as [[] [] [] [] [] [] [] []]; vm_compute; intuition congruence. Qed.

Lemma alpha_lower (c : ascii) :
  isasciialpha c = true → isasciialpha (lower_char c) = true.
Proof. destruct c as [[] [] [] [] [] [] [] []]; vm_compute; intuition congruence. Qed.

Lemma host_ok_facts (c : ascii) :
  host_ok c = true →
  is_delim c = false ∧ unsafe_char c = false ∧ host_ok (lower_char c) = true ∧
  is_char "/" c = false ∧ is_char "?" c = false ∧ is_char "#" c = false.
Proof. destruct c as [[] [] [] [] [] [] [] []]; vm_compute; intuition congruence. Qed.

Lemma path_ok_facts (c : ascii) :
  path_ok c = true →
  unsafe_char c = false ∧ is_char "?" c = false ∧ is_char "#" c = false.
Proof. destruct c as [[] [] [] [] [] [] [] []]; vm_compute; intuition congruence. Qed.

Lemma find_scheme_colon (s x : string) :
  all_chars valid_scheme_char s = true →
  find ":" (s +:+ String ":" x) = Some (String.length s).
Proof.
  induction s as [|c s IH]; [by rewrite sapp_nil_l|].
  rewrite sapp_cons. cbn [find all_chars String.length].
  intros [Hc Hs]%andb_true_iff.
  destruct (valid_scheme_char_facts c Hc) as (_ & _ & -> & _).
  by rewrite IH.
Qed.

Lemma lower_valid_scheme (s : string) :
  all_chars valid_scheme_char s = true → lower s = s.
Proof.
  induction s as [|c s IH]; [done|]. cbn [lower all_chars].
  intros [Hc Hs]%andb_true_iff.
  destruct (valid_scheme_char_facts c Hc) as (_ & -> & _). by rewrite IH.
Qed.

Lemma lower_scheme_valid (s : string) :
  all_chars scheme_char s = true → all_chars valid_scheme_char (lower s) = true.
Proof.
  induction s as [|c s IH]; [done|]. cbn [all_chars lower].
  intros [Hc Hs]%andb_true_iff. by rewrite scheme_char_lower, IH.
Qed.

Lemma remove_all_chars (P : ascii → bool) (a : ascii) (s : string) :
  all_chars P s = true → all_chars P (remove a s) = true.
Proof.
  induction s as [|c s IH]; [done|]. cbn [remove all_chars].
  intros [Hc Hs]%andb_true_iff.
  destruct (is_char a c); cbn [all_chars]; [by apply IH|].
  by rewrite Hc, IH.
Qed.

Lemma remove_not (a : ascii) (s : string) : has_char a (remove a s) = false.
Proof.
  induction s as [|c s IH]; [done|]. cbn [remove].
  destruct (is_char a c) eqn:Hc; [done|]. cbn [has_char]. by rewrite Hc.
Qed.

Lemma has_char_remove (a b : ascii) (s : string) :
  has_char a s = false → has_char a (remove b s) = false.
Proof.
  induction s as [|c s IH]; [done|]. cbn [remove has_char].
  intros [Hc Hs]%orb_false_iff.
  destruct (is_char b c); cbn [has_char]; [by apply IH|].
  by rewrite Hc, IH.
Qed.

Lemma safe_has_char (s : string) :
  all_chars (fun c => negb (unsafe_char c)) s = true ↔
  has_char "009" s = false ∧ has_char "013" s = false ∧ has_char "010" s = false.
Proof.
  induction s as [|c s IH]; [done|]. cbn [all_chars has_char].
  unfold unsafe_char at 1.
  rewrite andb_true_iff, IH, !orb_false_iff, negb_true_iff, !orb_false_iff.
  tauto.
Qed.

Lemma remove_unsafe_safe (s : string) :
  all_chars (fun c => negb (unsafe_char c)) (remove_unsafe s) = true.
Proof.
  apply safe_has_char. unfold remove_unsafe. split; [|split].
  - do 2 apply has_char_remove. apply remove_not.
  - apply has_char_remove. apply remove_not.
  - apply remove_not.
Qed.

Lemma remove_unsafe_id (s : string) :
  all_chars (fun c => negb (unsafe_char c)) s = true → remove_unsafe s = s.
Proof.
  intros (H1 & H2 & H3)%safe_has_char. unfold remove_unsafe.
  by rewrite (remove_none "009"), (remove_none "013"), (remove_none "010").
Qed.

End TwiceFacts.

Module ShapeFacts.
Import PyStr StrFacts Urllib CharFacts SplitFacts PlainFacts StripFacts TwiceFacts.

Lemma all_chars_and (P Q : ascii → bool) (s : string) :
  all_chars (fun c => P c && Q c) s = all_chars P s && all_chars Q s.
Proof.
  induction s as [|c s IH]; [done|]. cbn [all_chars]. rewrite IH.
  destruct (P c), (Q c), (all_chars P s), (all_chars Q s); done.
Qed.

Lemma span_netloc_delims (s : string) :
  all_chars (fun c => negb (is_delim c)) (span_netloc s).1 = true ∧
  ((span_netloc s).2 = EmptyString ∨
   ∃ c r, (span_netloc s).2 = String c r ∧ is_delim c = true).
Proof.
  induction s as [|c s IH]; [by split; [|left]|]. cbn [span_netloc].
  destruct (is_delim c) eqn:Hc; [split; [done|right; eauto]|].
  destruct (span_netloc s) as [n r]. cbn [fst snd] in *.
  cbn [all_chars]. by rewrite Hc.
Qed.

Lemma span_netloc_all (P : ascii → bool) (s : string) :
  all_chars P s = true →
  all_chars P (span_netloc s).1 = true ∧ all_chars P (span_netloc s).2 = true.
Proof.
  induction s as [|c s IH]; [done|]. cbn [span_netloc all_chars].
  intros [Hc Hs]%andb_true_iff.
  destruct (is_delim c); [cbn [fst snd all_chars]; by rewrite Hc, Hs|].
  destruct (IH Hs) as [H1 H2].
  destruct (span_netloc s) as [n r]. cbn [fst snd all_chars] in *.
  by rewrite Hc.
Qed.

Lemma span_netloc_split (h rest : string) :
  all_chars (fun c => negb (is_delim c)) h = true →
  (rest = EmptyString ∨ ∃ c r, rest = String c r ∧ is_delim c = true) →
  span_netloc (h +:+ rest) = (h, rest).
Proof.
  intros Hh Hrest. induction h as [|c h IH].
  - rewrite sapp_nil_l. destruct Hrest as [->|(c & r & -> & Hc)]; [done|].
    cbn [span_netloc]. by rewrite Hc.
  - cbn [all_chars] in Hh. apply andb_true_iff in Hh as [Hc Hh].
    apply negb_true_iff in Hc. rewrite sapp_cons. cbn [span_netloc].
    by rewrite Hc, IH.
Qed.

Lemma cut_step (c a : ascii) (x : string) :
  cut c (String a x) = if is_char c a then EmptyString else String a (cut c x).
Proof.
  destruct (is_char c a) eqn:Ha; [|by apply cut_skip].
  apply Ascii.eqb_eq in Ha as <-. apply cut_here.
Qed.

Lemma cut_all (P : ascii → bool) (c : ascii) (x : string) :
  all_chars P x = true → all_chars P (cut c x) = true.
Proof.
  induction x as [|a x IH]; [done|]. rewrite cut_step. cbn [all_chars].
  intros [Ha Hx]%andb_true_iff. destruct (is_char c a); [done|].
  cbn [all_chars]. by rewrite Ha, IH.
Qed.

Lemma cut_id (c : ascii) (x : string) : has_char c x = false → cut c x = x.
Proof.
  induction x as [|a x IH]; [done|]. rewrite cut_step. cbn [has_char].
  intros [-> Hx]%orb_false_iff. by rewrite IH.
Qed.

Lemma re_sub_slashes_head (c : ascii) (s : string) :
  ∃ t, re_sub_slashes (String c s) = String c t.
Proof.
  revert c. induction s as [|c' s IH]; intros c; [by exists EmptyString|].
  cbn [re_sub_slashes].
  destruct (is_char "/" c) eqn:Hc, (is_char "/" c') eqn:Hc'; cbn [andb]; eauto.
  apply Ascii.eqb_eq in Hc as <-. apply Ascii.eqb_eq in Hc' as <-.
  apply IH.
Qed.

Lemma re_sub_slashes_single (s : string) :
  contains "//" (re_sub_slashes s) = false.
Proof.
  induction s as [|c s IH]; [done|].
  destruct s as [|c' s]; [cbn; by rewrite andb_false_r|].
  change (re_sub_slashes (String c (String c' s)))
    with (if is_char "/" c && is_char "/" c'
          then re_sub_slashes (String c' s)
          else String c (re_sub_slashes (String c' s))).
  destruct (is_char "/" c && is_char "/" c') eqn:Hcc; [done|].
  destruct (re_sub_slashes_head c' s) as [t Ht]. rewrite Ht in IH |- *.
  cbn [contains] in IH |- *. rewrite orb_false_iff. split; [|exact IH].
  cbn [startswith]. fold (is_char "/" c) (is_char "/" c').
  by rewrite andb_true_r.
Qed.

Lemma rstrip_prefix (q : ascii → bool) (s : string) :
  ∃ t, s = rstrip q s +:+ t.
Proof.
  induction s as [|c s [t IH]]; [by exists EmptyString|]. cbn [rstrip].
  destruct (rstrip q s) as [|c' r] eqn:Hr.
  - destruct (q c); [by exists (String c s)|].
    exists s. by rewrite sapp_cons, sapp_nil_l.
  - exists t. by rewrite sapp_cons, <- IH.
Qed.

Lemma contains_prefix (sub x t : string) :
  contains sub (x +:+ t) = false → contains sub x = false.
Proof.
  intros Hno. destruct (contains sub x) eqn:Hx; [|done].
  apply contains_spec in Hx as (pre & post & ->).
  assert (contains sub ((pre +:+ sub +:+ post) +:+ t) = true) as Hyes;
    [|congruence].
  apply contains_spec. exists pre, (post +:+ t). by rewrite !sapp_assoc.
Qed.

Lemma contains_rstrip (sub : string) (q : ascii → bool) (s : string) :
  contains sub s = false → contains sub (rstrip q s) = false.
Proof.
  intros Hs. destruct (rstrip_prefix q s) as [t Ht]. rewrite Ht in Hs.
  by apply contains_prefix in Hs.
Qed.

Lemma last_char_rstrip (q : ascii → bool) (s : string) (c : ascii) :
  last_char (rstrip q s) = Some c → q c = false.
Proof.
  induction s as [|a s IH]; [done|]. cbn [rstrip].
  destruct (rstrip q s) as [|c' r] eqn:Hr.
  - destruct (q a) eqn:Ha; [done|]. cbn. by intros [= <-].
  - intros Hl. apply IH. exact Hl.
Qed.

Lemma startswith_rstrip (q : ascii → bool) (c : ascii) (s : string) :
  rstrip q (String c s) = EmptyString ∨ ∃ t, rstrip q (String c s) = String c t.
Proof. cbn [rstrip]. destruct (rstrip q s); [destruct (q c)|]; eauto. Qed.

Lemma lower_drop (n : nat) (s : string) : lower (drop n s) = drop n (lower s).
Proof.
  revert s. induction n as [|n IH]; intros s; [by destruct s|].
  destruct s as [|c s]; [done|]. cbn [drop lower]. apply IH.
Qed.

(** The path of a result: [re.sub] and [rstrip] of lines 64-65. *)
Lemma result_path (p : string) :
  let q := rstrip (is_char "/") (re_sub_slashes (or_else p "/")) in
  contains "//" q = false ∧ last_char q ≠ Some "/"%char ∧
  (p = EmptyString ∨ startswith "/" p = true →
   q = EmptyString ∨ startswith "/" q = true) ∧
  ∀ P, P "/"%char = true → all_chars P p = true → all_chars P q = true.
Proof.
  cbn zeta. split; [apply contains_rstrip, re_sub_slashes_single|].
  split.
  { intros Hl. by apply last_char_rstrip in Hl. }
  split.
  - intros Hp.
    assert (∃ s, or_else p "/" = String "/" s) as [s ->].
    { destruct Hp as [->|Hp]; [by exists EmptyString|].
      destruct p as [|c p]; [done|]. cbn [startswith] in Hp.
      apply andb_true_iff in Hp as [Hc _]. apply Ascii.eqb_eq in Hc as <-.
      by exists p. }
    destruct (re_sub_slashes_head "/" s) as [t ->].
    destruct (startswith_rstrip (is_char "/") "/" t) as [->|[t' ->]];
      [by left|by right].
  - intros P HP Hall. apply all_chars_rstrip, all_chars_re_sub_slashes.
    destruct p; [cbn; by rewrite HP|done].
Qed.

End ShapeFacts.

(** ** What urlsplit returns *)

Section Shape.
Context `{!PyLib}.
Import PyStr StrFacts Urllib CharFacts SplitFacts PlainFacts StripFacts
  TwiceFacts ShapeFacts.

(** What [urlsplit] returns, whatever it is given. *)
Lemma urlsplit_shape (u : string) (p : SplitResult) :
  urlsplit u EmptyString = Some p →
  (scheme p = EmptyString ∨ valid_scheme (scheme p) = true) ∧
  all_chars host_ok (netloc p) = true ∧
  all_chars path_ok (path p) = true ∧
  (netloc p ≠ EmptyString →
   path p = EmptyString ∨ startswith "/" (path p) = true).
Proof.
  unfold urlsplit.
  pose proof (remove_unsafe_safe (lstrip c0_control_or_space u)) as Hsafe.
  set (url := remove_unsafe (lstrip c0_control_or_space u)) in *.
  change (remove_unsafe (rstrip c0_control_or_space
            (lstrip c0_control_or_space EmptyString))) with EmptyString.
  set (first := match find ":" url with Some (S i') => _ | _ => _ end).
  assert ((first.1 = EmptyString ∨ valid_scheme first.1 = true) ∧
          all_chars (fun c => negb (unsafe_char c)) first.2 = true)
    as [Hsch Hsafe1].
  { subst first. destruct (find ":" url) as [[|i']|]; try (split; [by left|done]).
    destruct url as [|c0 url']; [split; [by left|done]|].
    destruct (isasciialpha c0 && all_chars scheme_char _) eqn:Hc;
      [|split; [by left|done]].
    apply andb_true_iff in Hc as [Ha Hc]. cbn [fst snd]. split.
    - right. apply lower_scheme_valid in Hc. cbn [take lower] in *.
      cbn [valid_scheme]. by rewrite alpha_lower, Hc.
    - by apply all_chars_drop. }
  destruct first as [sch url1]. cbn [fst snd] in Hsch, Hsafe1.
  set (second := if startswith "//" url1 then _ else _).
  assert (∀ nl rest, second = Some (nl, rest) →
            all_chars host_ok nl = true ∧
            all_chars (fun c => negb (unsafe_char c)) rest = true ∧
            (nl ≠ EmptyString →
             rest = EmptyString ∨
             ∃ c r, rest = String c r ∧ is_delim c = true)) as Hnl.
  { subst second. intros nl rest.
    destruct (startswith "//" url1);
      [|intros [= <- <-]; split; [done|]; split; [done|]; by intros []].
    unfold splitnetloc2.
    pose proof (span_netloc_delims (drop 2 url1)) as [Hd Hrest].
    pose proof (span_netloc_all _ (drop 2 url1)
                  (all_chars_drop _ 2 _ Hsafe1)) as [Hs1 Hs2].
    destruct (span_netloc (drop 2 url1)) as [nl' rest']. cbn [fst snd] in *.
    destruct (_ || _); [done|].
    destruct (_ && _); [destruct (check_bracketed_netloc nl'); [|done]|];
      intros [= <- <-]; (split; [|split; [done|by intros _]]);
      unfold host_ok; by rewrite all_chars_and, Hd, Hs1. }
  destruct second as [[nl url0]|]; [|done].
  destruct (Hnl nl url0 eq_refl) as (Hhost & Hsafe0 & Hrest).
  cbn [mbind option_bind].
  pose proof (cut_none "#" url0) as Hf.
  pose proof (cut_none "?" (cut "#" url0)) as Hq.
  pose proof (cut_keeps "#" "?" (cut "#" url0) Hf) as Hqf.
  pose proof (cut_all _ "?" _ (cut_all _ "#" _ Hsafe0)) as Hsafep.
  assert (nl ≠ EmptyString →
          cut "?" (cut "#" url0) = EmptyString ∨
          startswith "/" (cut "?" (cut "#" url0)) = true) as Hstart.
  { intros Hne. destruct (Hrest Hne) as [->|(c & r & -> & Hc)]; [by left|].
    rewrite (cut_step "#" c r).
    destruct (is_char "#" c) eqn:H1; [by left|].
    rewrite (cut_step "?" c).
    destruct (is_char "?" c) eqn:H2; [by left|]. right.
    unfold is_delim in Hc. rewrite H1, H2, !orb_false_r in Hc.
    cbn [startswith]. unfold is_char in Hc. by rewrite Hc. }
  unfold cut in Hf, Hq, Hqf, Hsafep, Hstart.
  destruct (if has_char "#" url0 then _ else _) as [url2 frag].
  cbn [fst] in Hf, Hq, Hqf, Hsafep, Hstart.
  destruct (if has_char "?" url2 then _ else _) as [url3 qry].
  cbn [fst] in Hq, Hqf, Hsafep, Hstart.
  destruct (checknetloc nl); [|done]. intros [= <-]. cbn.
  split; [done|]. split; [done|]. split; [|done].
  unfold path_ok. rewrite all_chars_and, Hsafep, andb_true_r.
  by apply plain_has_char.
Qed.

End Shape.

(** ** The parts of a result *)

Section FirstPass.
Context `{!PyLib}.
Import PyStr StrFacts Urllib CharFacts SplitFacts PlainFacts StripFacts
  TwiceFacts ShapeFacts.

Lemma normalize_url_parts (u : string) :
  normalize_url u = EmptyString ∨
  ∃ sch nl pth,
    normalize_url u = urlunsplit sch nl pth EmptyString EmptyString ∧
    out_parts sch nl pth.
Proof.
  unfold normalize_url, normalize_url_try.
  destruct (negb (nonempty u)); [by left|].
  destruct (_ || _); [by left|].
  destruct (urlsplit (strip u) EmptyString) as [p|] eqn:Hp; [|by left].
  cbn [mbind option_bind].
  assert (∀ p2,
    (if negb (nonempty (netloc p))
     then urljoin SEARCH_URL (strip u) ≫= (fun joined => urlsplit joined EmptyString)
     else Some p) = Some p2 →
    ∃ x, urlsplit x EmptyString = Some p2) as Hsplit.
  { intros p2. destruct (negb (nonempty (netloc p))); [|intros [= <-]; eauto].
    destruct (urljoin SEARCH_URL (strip u)) as [joined|]; [|done].
    cbn [mbind option_bind]. eauto. }
  destruct (if negb (nonempty (netloc p)) then _ else _) as [p2|]; [|by left].
  destruct (Hsplit p2 eq_refl) as [x Hx]. clear Hsplit.
  destruct (urlsplit_shape x p2 Hx) as (Hsch & Hhost & Hpath & Hstart).
  cbn [mbind option_bind default]. right.
  eexists _, _, _. split; [reflexivity|].
  destruct (result_path (path p2)) as (Hnd & Hlast & Hroot & Hall).
  unfold out_parts. split; [|split; [|split; [|split; [|split; [|split]]]]].
  - destruct Hsch as [->|Hv]; [reflexivity|].
    destruct (scheme p2); [done|exact Hv].
  - assert (all_chars host_ok (lower (netloc p2)) = true) as Hl.
    { apply all_chars_lower; [|done]. intros c Hc. by apply host_ok_facts. }
    destruct (startswith "www." _); [by apply all_chars_drop|done].
  - destruct (startswith "www." _); [|apply lower_idem].
    by rewrite lower_drop, lower_idem.
  - apply Hall; done.
  - exact Hnd.
  - exact Hlast.
  - intros Hne. apply Hroot, Hstart. intros Hnl. apply Hne.
    rewrite Hnl. reflexivity.
Qed.

End FirstPass.

(** ** The second call on a stable result *)

Section SecondPass.
Context `{!PyLib}.
Import PyStr StrFacts Urllib CharFacts SplitFacts PlainFacts StripFacts
  TwiceFacts ShapeFacts.

Lemma valid_scheme_inv (sch : string) :
  valid_scheme sch = true →
  ∃ c s, sch = String c s ∧ isasciialpha c = true ∧
         all_chars valid_scheme_char sch = true.
Proof.
  destruct sch as [|c s]; [done|]. cbn [valid_scheme].
  intros [Hc Hs]%andb_true_iff. eauto.
Qed.

Lemma alpha_not_c0 (c : ascii) :
  isasciialpha c = true → c0_control_or_space c = false ∧ isspace c = false.
Proof. destruct c as [[] [] [] [] [] [] [] []]; vm_compute; intuition congruence. Qed.

(** [urlsplit] finds a valid scheme that is written out, whatever the
    default scheme is, and goes on with the rest. *)
Lemma urlsplit_scheme_rest (sch rest s0 : string) :
  valid_scheme sch = true →
  all_chars (fun c => negb (unsafe_char c)) rest = true →
  urlsplit (sch +:+ String ":" rest) s0
  = ('(nl, url) ←
       (if startswith "//" rest then
          let '(nl, rest') := splitnetloc2 rest in
          let ob := has_char "[" nl in
          let cb := has_char "]" nl in
          if (ob && negb cb) || (cb && negb ob) then None
          else if ob && cb then
            (if check_bracketed_netloc nl then Some (nl, rest') else None)
          else Some (nl, rest')
        else Some (EmptyString, rest));
     let '(url, frag) :=
       if has_char "#" url then split1 "#" url else (url, EmptyString) in
     let '(url, qry) :=
       if has_char "?" url then split1 "?" url else (url, EmptyString) in
     if checknetloc nl then Some (mkSplit sch nl url qry frag) else None).
Proof.
  intros Hv Hrest. destruct (valid_scheme_inv sch Hv) as (c & s & -> & Ha & Hs).
  unfold urlsplit.
  assert (lstrip c0_control_or_space (String c s +:+ String ":" rest)
          = String c s +:+ String ":" rest) as ->.
  { rewrite sapp_cons. cbn [lstrip].
    by destruct (alpha_not_c0 c Ha) as [-> _]. }
  rewrite remove_unsafe_id.
  2:{ rewrite all_chars_app. apply andb_true_iff. split.
      - eapply all_chars_impl; [|exact Hs]. intros a Ha'.
        destruct (valid_scheme_char_facts a Ha') as (_ & _ & _ & _ & -> & _).
        done.
      - cbn [all_chars]. by rewrite Hrest. }
  rewrite find_scheme_colon by done.
  cbn [String.length]. rewrite sapp_cons.
  change (take (S (String.length s)) (String c (s +:+ String ":" rest)))
    with (take (String.length (String c s)) (String c s +:+ String ":" rest)).
  rewrite take_app_length.
  assert (all_chars scheme_char (String c s) = true) as ->.
  { eapply all_chars_impl; [|exact Hs]. intros a Ha'.
    by destruct (valid_scheme_char_facts a Ha') as (-> & _). }
  rewrite Ha. cbn [andb]. rewrite (lower_valid_scheme _ Hs).
  change (drop (S (S (String.length s))) (String c (s +:+ String ":" rest)))
    with (drop (S (String.length (String c s)))
            (String c s +:+ String ":" rest)).
  rewrite drop_app_length_S. reflexivity.
Qed.

Lemma no_double_start (x : string) :
  contains "//" x = false → startswith "//" x = false.
Proof. destruct x; cbn [contains]; by intros [? _]%orb_false_iff. Qed.

Lemma rooted_facts (pth : string) :
  all_chars path_ok pth = true → contains "//" pth = false →
  last_char pth ≠ Some "/"%char →
  all_chars path_ok (rooted pth) = true ∧
  contains "//" (rooted pth) = false ∧
  last_char (rooted pth) ≠ Some "/"%char ∧
  (rooted pth = EmptyString ∨ ∃ t, rooted pth = String "/" t) ∧
  rooted (rooted pth) = rooted pth.
Proof.
  intros Hok Hnd Hlast.
  destruct pth as [|c p]; [repeat split; try done; by left|].
  destruct (Ascii.eqb "/" c) eqn:Hc.
  - apply Ascii.eqb_eq in Hc as <-.
    change (rooted (String "/" p)) with (String "/" p).
    repeat split; try done. right; eauto.
  - assert (rooted (String c p) = String "/" (String c p)) as ->
      by (unfold rooted; cbn [nonempty startswith]; by rewrite Hc).
    change (rooted (String "/" (String c p))) with (String "/" (String c p)).
    split.
    { change (all_chars path_ok (String "/" (String c p)))
        with (path_ok "/" && all_chars path_ok (String c p)).
      by rewrite Hok. }
    split.
    { change (contains "//" (String "/" (String c p)))
        with (Ascii.eqb "/" "/" && (Ascii.eqb "/" c && true)
              || contains "//" (String c p)).
      by rewrite Hc, Hnd. }
    split; [exact Hlast|]. split; [right; eauto|done].
Qed.

Lemma path_fixed (q : string) :
  contains "//" q = false → last_char q ≠ Some "/"%char →
  rstrip (is_char "/") (re_sub_slashes (or_else q "/")) = q.
Proof.
  intros Hnd Hlast. destruct q as [|c q]; [reflexivity|].
  change (or_else (String c q) "/") with (String c q).
  rewrite re_sub_slashes_id by done. apply rstrip_last.
  intros a Ha. destruct (is_char "/" a) eqn:Hs; [|done].
  apply Ascii.eqb_eq in Hs as <-. contradiction.
Qed.

Lemma valid_scheme_nonempty (sch : string) :
  valid_scheme sch = true → nonempty sch = true.
Proof. by destruct sch. Qed.

Lemma urlunsplit_form (sch nl pth : string) :
  valid_scheme sch = true → contains "//" pth = false →
  urlunsplit sch nl pth EmptyString EmptyString
  = sch +:+ String ":"
      (if nonempty nl || mem sch uses_netloc
       then "//" +:+ nl +:+ rooted pth else pth).
Proof.
  intros Hv Hnd. unfold urlunsplit, rooted.
  rewrite (valid_scheme_nonempty sch Hv), (no_double_start pth Hnd).
  cbn [andb negb nonempty]. rewrite andb_true_r. reflexivity.
Qed.

Lemma accepts_nil : accepts EmptyString = true.
Proof. reflexivity. Qed.

Lemma path_ok_safe (s : string) :
  all_chars path_ok s = true →
  all_chars (fun c => negb (unsafe_char c)) s = true ∧
  has_char "?" s = false ∧ has_char "#" s = false.
Proof.
  unfold path_ok. rewrite all_chars_and.
  intros [Hp Hs]%andb_true_iff. split; [done|]. by apply plain_has_char.
Qed.

Lemma host_ok_safe (s : string) :
  all_chars host_ok s = true →
  all_chars (fun c => negb (unsafe_char c)) s = true ∧
  all_chars (fun c => negb (is_delim c)) s = true.
Proof.
  unfold host_ok. rewrite all_chars_and. by intros [Hp Hs]%andb_true_iff.
Qed.

(** [urlsplit] takes a result of [normalize_url] apart into the parts from
    which it was built, if it accepts the authority. *)
Lemma urlsplit_result (sch nl pth s0 : string) :
  out_parts sch nl pth →
  urlsplit (urlunsplit sch nl pth EmptyString EmptyString) s0
  = if accepts nl
    then Some (mkSplit sch nl
                 (if nonempty nl || mem sch uses_netloc then rooted pth
                  else pth) EmptyString EmptyString)
    else None.
Proof.
  intros (Hv & Hhost & Hlow & Hpath & Hnd & Hlast & Hroot).
  destruct (rooted_facts pth Hpath Hnd Hlast) as (Hrp & Hrnd & Hrl & Hrs & Hrr).
  destruct (path_ok_safe _ Hpath) as (Hps & Hpq & Hpf).
  destruct (path_ok_safe _ Hrp) as (Hrps & Hrpq & Hrpf).
  destruct (host_ok_safe _ Hhost) as (Hhs & Hhd).
  rewrite urlunsplit_form by done.
  destruct (nonempty nl || mem sch uses_netloc) eqn:Hcase.
  - rewrite urlsplit_scheme_rest; [|done|].
    2:{ rewrite !all_chars_app, Hhs, Hrps. reflexivity. }
    change (startswith "//" ("//" +:+ nl +:+ rooted pth)) with true.
    cbv iota. unfold splitnetloc2.
    change (drop 2 ("//" +:+ nl +:+ rooted pth)) with (nl +:+ rooted pth).
    rewrite span_netloc_split; [|done|].
    2:{ destruct Hrs as [->|[t ->]]; [by left|right; eauto]. }
    unfold accepts.
    destruct (has_char "[" nl), (has_char "]" nl); cbn [andb orb negb];
      try reflexivity.
    + destruct (check_bracketed_netloc nl); cbn [andb mbind option_bind];
        [|reflexivity].
      rewrite Hrpf, Hrpq. by destruct (checknetloc nl).
    + cbn [mbind option_bind]. rewrite Hrpf, Hrpq.
      by destruct (checknetloc nl).
  - apply orb_false_iff in Hcase as [Hnl _].
    destruct nl; [|done].
    rewrite urlsplit_scheme_rest by done.
    rewrite (no_double_start pth Hnd). cbn [mbind option_bind].
    rewrite Hpf, Hpq. reflexivity.
Qed.

Lemma urlparse_of_split (x s0 : string) (p : SplitResult) :
  urlsplit x s0 = Some p →
  ∃ pp, urlparse x s0 = Some pp ∧ pscheme pp = scheme p ∧
        pnetloc pp = netloc p.
Proof.
  intros Hp. unfold urlparse. rewrite Hp. cbn [mbind option_bind].
  destruct (if mem (scheme p) uses_params && has_char ";" (path p)
            then splitparams (path p) else (path p, EmptyString))
    as [u params].
  eauto.
Qed.

Lemma search_url_parsed :
  urlparse SEARCH_URL EmptyString
  = Some (mkParse "https" "www.apartments.com" "/apartments/seattle-wa/"
            EmptyString EmptyString EmptyString).
Proof. vm_compute. reflexivity. Qed.

(** [urljoin] leaves a link of another scheme than that of [SEARCH_URL]
    as it is. *)
Lemma urljoin_other_scheme (x : string) (p : SplitResult) :
  nonempty x = true → urlsplit x "https" = Some p →
  scheme p ≠ "https"%string →
  urljoin SEARCH_URL x = Some x.
Proof.
  intros Hx Hp Hs. unfold urljoin.
  change (negb (nonempty SEARCH_URL)) with false. rewrite Hx.
  cbn [negb]. rewrite search_url_parsed. cbn [mbind option_bind pscheme].
  destruct (urlparse_of_split x "https" p Hp) as (pp & -> & Hsch & _).
  cbn [mbind option_bind]. rewrite Hsch.
  destruct (String.eqb_spec (scheme p) "https") as [|_]; [done|].
  reflexivity.
Qed.

Lemma result_nonempty (sch nl pth : string) :
  valid_scheme sch = true → contains "//" pth = false →
  nonempty (urlunsplit sch nl pth EmptyString EmptyString) = true.
Proof.
  intros Hv Hnd. rewrite urlunsplit_form by done.
  destruct sch; [done|]. by rewrite sapp_cons.
Qed.

(** The second call on a result of [normalize_url]. *)
Lemma normalize_parts_fixed (sch nl pth : string) :
  out_parts sch nl pth →
  let r := urlunsplit sch nl pth EmptyString EmptyString in
  strip r = r →
  startswith "javascript:" (lower r) = false →
  startswith "mailto:" (lower r) = false →
  accepts nl = true → startswith "www." nl = false →
  ¬ (sch = "https"%string ∧ nl = EmptyString) →
  normalize_url r = r.
Proof.
  intros Hout r Hstrip Hjs Hmail Hacc Hwww Hhttps.
  pose proof Hout as (Hv & Hhost & Hlow & Hpath & Hnd & Hlast & Hroot).
  destruct (rooted_facts pth Hpath Hnd Hlast) as (Hrp & Hrnd & Hrl & Hrs & Hrr).
  unfold normalize_url, normalize_url_try.
  assert (nonempty r = true) as Hne by by apply result_nonempty.
  rewrite Hne, Hstrip, Hjs, Hmail. cbn [negb orb].
  assert (∀ s0, urlsplit r s0
          = Some (mkSplit sch nl
                    (if nonempty nl || mem sch uses_netloc then rooted pth
                     else pth) EmptyString EmptyString)) as Hsplit.
  { intros s0. subst r. by rewrite urlsplit_result, Hacc. }
  rewrite Hsplit. cbn [mbind option_bind netloc].
  assert ((if negb (nonempty nl)
           then urljoin SEARCH_URL r ≫= (fun joined => urlsplit joined EmptyString)
           else Some (mkSplit sch nl
                        (if nonempty nl || mem sch uses_netloc then rooted pth
                         else pth) EmptyString EmptyString))
          = Some (mkSplit sch nl
                    (if nonempty nl || mem sch uses_netloc then rooted pth
                     else pth) EmptyString EmptyString)) as ->.
  { destruct (nonempty nl) eqn:Hnl; [done|]. cbn [negb].
    rewrite (urljoin_other_scheme r _ Hne (Hsplit "https"%string)).
    - cbn [mbind option_bind]. apply Hsplit.
    - cbn [scheme]. intros ->. apply Hhttps. split; [done|]. by destruct nl. }
  cbn [mbind option_bind scheme netloc path default].
  rewrite (valid_scheme_nonempty sch Hv), Hlow, Hwww. cbn [negb].
  subst r. rewrite !urlunsplit_form; try done.
  - destruct (nonempty nl || mem sch uses_netloc).
    + rewrite path_fixed by done. by rewrite Hrr.
    + by rewrite path_fixed.
  - destruct (nonempty nl || mem sch uses_netloc);
      rewrite path_fixed by done; done.
Qed.

End SecondPass.

Section Twice.
Context `{!PyLib}.
Import PyStr StrFacts Urllib CharFacts SplitFacts PlainFacts StripFacts
  TwiceFacts ShapeFacts.

(** A stable result is kept by a second call. *)
Lemma stable_fixed (u : string) :
  stable (normalize_url u) →
  normalize_url (normalize_url u) = normalize_url u.
Proof.
  intros [Hr | (Hstrip & Hjs & Hmail & p & Hp & Hwww & Hhttps)];
    [by rewrite Hr|].
  destruct (normalize_url_parts u) as [Hr|(sch & nl & pth & Hr & Hout)];
    [by rewrite Hr|].
  rewrite Hr in *. rewrite urlsplit_result in Hp by done.
  destruct (accepts nl) eqn:Hacc; [|done]. injection Hp as <-.
  cbn [scheme netloc] in Hwww, Hhttps.
  by apply normalize_parts_fixed.
Qed.

End Twice.

(** ** Lengths *)

Module LengthFacts.
Import PyStr StrFacts Urllib CharFacts SplitFacts PlainFacts StripFacts
  TwiceFacts ShapeFacts.

Lemma length_rstrip (q : ascii → bool) (s : string) :
  String.length (rstrip q s) ≤ String.length s.
Proof.
  destruct (rstrip_prefix q s) as [t Ht]. rewrite Ht at 2.
  rewrite length_app. lia.
Qed.

Lemma rstrip_shorter (q : ascii → bool) (s : string) :
  rstrip q s ≠ s → String.length (rstrip q s) < String.length s.
Proof.
  intros Hne. destruct (rstrip_prefix q s) as [t Ht].
  destruct t as [|c t]; [by rewrite sapp_nil_r in Ht|].
  rewrite Ht at 2. rewrite length_app. cbn [String.length]. lia.
Qed.

Lemma length_re_sub_slashes (s : string) :
  String.length (re_sub_slashes s) ≤ String.length s.
Proof.
  induction s as [|c s IH]; [done|].
  destruct s as [|c' s]; [done|].
  change (re_sub_slashes (String c (String c' s)))
    with (if is_char "/" c && is_char "/" c'
          then re_sub_slashes (String c' s)
          else String c (re_sub_slashes (String c' s))).
  destruct (is_char "/" c && is_char "/" c'); cbn [String.length] in *; lia.
Qed.

Lemma length_lower (s : string) : String.length (lower s) = String.length s.
Proof. induction s as [|c s IH]; [done|]. cbn. by rewrite IH. Qed.


Lemma length_drop_www (s : string) :
  startswith "www." s = true →
  String.length (drop 4 s) < String.length s.
Proof.
  intros [t ->]%startswith_inv.
  change (drop 4 ("www." +:+ t)) with t.
  rewrite length_app. cbn. lia.
Qed.

(** Lines 64-65 never make a path longer. *)
Lemma length_result_path (p : string) :
  String.length (rstrip (is_char "/") (re_sub_slashes (or_else p "/")))
  ≤ String.length p.
Proof.
  destruct p as [|c p]; [done|].
  change (or_else (String c p) "/") with (String c p).
  etransitivity; [apply length_rstrip|apply length_re_sub_slashes].
Qed.

Lemma rstrip_keep (q : ascii → bool) (a s : string) :
  all_chars (fun c => negb (q c)) a = true →
  rstrip q (a +:+ s) = a +:+ rstrip q s.
Proof.
  induction a as [|c a IH]; [by rewrite !sapp_nil_l|].
  cbn [all_chars]. intros [Hc Ha]%andb_true_iff.
  apply negb_true_iff in Hc. rewrite !sapp_cons. cbn [rstrip].
  rewrite IH by done. rewrite Hc. by destruct (a +:+ rstrip q s).
Qed.

Lemma rstrip_nil (q : ascii → bool) (s : string) :
  rstrip q s = EmptyString → all_chars q s = true.
Proof.
  induction s as [|c s IH]; [done|]. cbn [rstrip all_chars].
  destruct (rstrip q s); [|done].
  destruct (q c); [intros _; by rewrite IH|done].
Qed.

Lemma rstrip_app (q : ascii → bool) (a b : string) :
  rstrip q (a +:+ b)
  = if nonempty (rstrip q b) then a +:+ rstrip q b else rstrip q a.
Proof.
  induction a as [|c a IH].
  - rewrite !sapp_nil_l. by destruct (rstrip q b).
  - rewrite !sapp_cons. cbn [rstrip]. rewrite IH.
    destruct (rstrip q b) as [|c' r]; cbn [nonempty]; [done|].
    destruct (a +:+ String c' r) eqn:Ha; [|done].
    destruct a; discriminate Ha.
Qed.

End LengthFacts.

(** ** normalize_url on links with a scheme *)

Section Forms.
Context `{!PyLib}.
Import PyStr StrFacts Urllib CharFacts SplitFacts PlainFacts StripFacts
  TwiceFacts ShapeFacts LengthFacts.

(** [urlsplit] on [scheme://host/path]. *)
Lemma urlsplit_host_form (sch n pp s0 : string) :
  valid_scheme sch = true → all_chars host_ok n = true →
  all_chars path_ok pp = true →
  (pp = EmptyString ∨ ∃ t, pp = String "/" t) →
  urlsplit (sch +:+ String ":" ("//" +:+ n +:+ pp)) s0
  = if accepts n then Some (mkSplit sch n pp EmptyString EmptyString)
    else None.
Proof.
  intros Hv Hhost Hpath Hroot.
  destruct (path_ok_safe _ Hpath) as (Hps & Hpq & Hpf).
  destruct (host_ok_safe _ Hhost) as (Hhs & Hhd).
  rewrite urlsplit_scheme_rest; [|done|].
  2:{ rewrite !all_chars_app, Hhs, Hps. reflexivity. }
  change (startswith "//" ("//" +:+ n +:+ pp)) with true.
  cbv iota. unfold splitnetloc2.
  change (drop 2 ("//" +:+ n +:+ pp)) with (n +:+ pp).
  rewrite span_netloc_split; [|done|].
  2:{ destruct Hroot as [->|[t ->]]; [by left|right; eauto]. }
  unfold accepts.
  destruct (has_char "[" n), (has_char "]" n); cbn [andb orb negb];
    try reflexivity.
  - destruct (check_bracketed_netloc n); cbn [andb mbind option_bind];
      [|reflexivity].
    rewrite Hpf, Hpq. by destruct (checknetloc n).
  - cbn [mbind option_bind]. rewrite Hpf, Hpq.
    by destruct (checknetloc n).
Qed.

(** [urlsplit] on [scheme:path]. *)
Lemma urlsplit_path_form (sch pp s0 : string) :
  valid_scheme sch = true → all_chars path_ok pp = true →
  startswith "//" pp = false →
  urlsplit (sch +:+ String ":" pp) s0
  = Some (mkSplit sch EmptyString pp EmptyString EmptyString).
Proof.
  intros Hv Hpath Hnd.
  destruct (path_ok_safe _ Hpath) as (Hps & Hpq & Hpf).
  rewrite urlsplit_scheme_rest by done.
  rewrite Hnd. cbn [mbind option_bind]. rewrite Hpf, Hpq. reflexivity.
Qed.

Lemma remove_app (a : ascii) (s t : string) :
  remove a (s +:+ t) = remove a s +:+ remove a t.
Proof.
  induction s as [|c s IH]; [by rewrite !sapp_nil_l|].
  rewrite sapp_cons. cbn [remove]. rewrite IH.
  destruct (is_char a c); [done|]. by rewrite sapp_cons.
Qed.

Lemma remove_unsafe_app (s t : string) :
  remove_unsafe (s +:+ t) = remove_unsafe s +:+ remove_unsafe t.
Proof. unfold remove_unsafe. by rewrite !remove_app. Qed.

Lemma remove_unsafe_cons (c : ascii) (s : string) :
  unsafe_char c = false →
  remove_unsafe (String c s) = String c (remove_unsafe s).
Proof.
  unfold unsafe_char, remove_unsafe.
  intros [[H1 H2]%orb_false_iff H3]%orb_false_iff.
  cbn [remove]. rewrite H1. cbn [remove]. rewrite H2. cbn [remove].
  by rewrite H3.
Qed.

Lemma c0_unsafe (c : ascii) :
  c0_control_or_space c = false → unsafe_char c = false.
Proof. destruct c as [[] [] [] [] [] [] [] []]; vm_compute; congruence. Qed.

(** [urlsplit] sees its argument only after the cleaning of lines
    468-472 of [parse.py]. *)
Lemma urlsplit_cleaned (x s0 : string) :
  urlsplit x s0 = urlsplit (remove_unsafe (lstrip c0_control_or_space x)) s0.
Proof.
  unfold urlsplit.
  assert (remove_unsafe
            (lstrip c0_control_or_space
               (remove_unsafe (lstrip c0_control_or_space x)))
          = remove_unsafe (lstrip c0_control_or_space x)) as ->; [|done].
  destruct (lstrip_head c0_control_or_space x) as [->|(c & t & -> & Hc)];
    [done|].
  rewrite (remove_unsafe_cons c t) by by apply c0_unsafe.
  cbn [lstrip]. rewrite Hc.
  rewrite <- (remove_unsafe_cons c t) by by apply c0_unsafe.
  apply remove_unsafe_id, remove_unsafe_safe.
Qed.

(** A link of the scheme [https] without an authority is put under the
    host of [SEARCH_URL]. *)
Lemma urljoin_https (x : string) (p : SplitResult) :
  nonempty x = true → urlsplit x "https" = Some p →
  scheme p = "https"%string → netloc p = EmptyString →
  ∃ pth prm q f,
    urljoin SEARCH_URL x
    = Some (urlunparse (mkParse "https" "www.apartments.com" pth prm q f)).
Proof.
  intros Hx Hp Hs Hn. unfold urljoin.
  change (negb (nonempty SEARCH_URL)) with false. rewrite Hx.
  cbn [negb]. rewrite search_url_parsed. cbn [mbind option_bind pscheme].
  destruct (urlparse_of_split x "https" p Hp) as (pp & -> & Hsch & Hnl).
  cbn [mbind option_bind]. rewrite Hsch, Hnl, Hs, Hn.
  change (negb (String.eqb "https" "https") ||
          negb (mem "https" uses_relative)) with false.
  change (mem "https" uses_netloc && nonempty EmptyString) with false.
  change (mem "https" uses_netloc) with true. cbv iota.
  cbn [pnetloc].
  destruct (negb (nonempty (ppath pp)) && negb (nonempty (pparams pp)));
    eauto.
Qed.

Lemma rooted_start (url : string) :
  rooted url = EmptyString ∨ ∃ t, rooted url = String "/" t.
Proof.
  unfold rooted. destruct url as [|c url]; [by left|].
  cbn [nonempty startswith andb]. rewrite andb_true_r.
  destruct (Ascii.eqb "/" c) eqn:Hc; cbn [negb]; [|right; eauto].
  apply Ascii.eqb_eq in Hc as <-. right; eauto.
Qed.

Lemma urlunparse_host_form (pth prm q f : string) :
  ∃ tail,
    urlunparse (mkParse "https" "www.apartments.com" pth prm q f)
    = "https://www.apartments.com" +:+ tail ∧
    (tail = EmptyString ∨ ∃ c t, tail = String c t ∧ is_delim c = true).
Proof.
  unfold urlunparse, urlunsplit. cbn [pscheme pnetloc ppath pparams pquery
    pfragment].
  set (url := if nonempty prm then _ else _).
  change (nonempty "www.apartments.com" || _) with true.
  change (nonempty "https") with true. cbv iota.
  fold (rooted url).
  exists (rooted url +:+ (if nonempty q then String "?" q else EmptyString)
            +:+ (if nonempty f then String "#" f else EmptyString)).
  split.
  - change (String.append "https"
              (String ":" (String.append "//"
                 (String.append "www.apartments.com" (rooted url)))))
      with ("https://www.apartments.com" +:+ rooted url).
    destruct (nonempty q), (nonempty f);
      change String.append with (fun a b => a +:+ b); cbv beta;
      rewrite ?sapp_assoc, ?sapp_nil_r, ?sapp_nil_l; reflexivity.
  - destruct (rooted_start url) as [->|[t ->]].
    + rewrite sapp_nil_l. destruct (nonempty q); [right; eauto|].
      rewrite sapp_nil_l. destruct (nonempty f); [right; eauto|by left].
    + right. rewrite sapp_cons. eauto.
Qed.

Lemma delim_safe (c : ascii) : is_delim c = true → unsafe_char c = false.
Proof. destruct c as [[] [] [] [] [] [] [] []]; vm_compute; congruence. Qed.

(** What [urlsplit] finds in a link that [urljoin] has put under the host
    of [SEARCH_URL]. *)
Lemma urlsplit_joined (tail : string) (p : SplitResult) :
  (tail = EmptyString ∨ ∃ c t, tail = String c t ∧ is_delim c = true) →
  urlsplit ("https://www.apartments.com" +:+ tail) EmptyString = Some p →
  scheme p = "https"%string ∧ netloc p = "www.apartments.com"%string.
Proof.
  intros Htail. rewrite urlsplit_cleaned.
  assert (lstrip c0_control_or_space ("https://www.apartments.com" +:+ tail)
          = "https://www.apartments.com" +:+ tail) as -> by reflexivity.
  rewrite remove_unsafe_app.
  change (remove_unsafe "https://www.apartments.com" +:+ remove_unsafe tail)
    with ("https" +:+ String ":" ("//www.apartments.com"
                                   +:+ remove_unsafe tail)).
  assert (remove_unsafe tail = EmptyString ∨
          ∃ c t, remove_unsafe tail = String c t ∧ is_delim c = true)
    as Htail'.
  { destruct Htail as [->|(c & t & -> & Hc)]; [by left|right].
    rewrite remove_unsafe_cons by by apply delim_safe. eauto. }
  pose proof (remove_unsafe_safe tail) as Hsafe.
  rewrite urlsplit_scheme_rest; [|done|].
  2:{ rewrite all_chars_app, Hsafe. reflexivity. }
  change (startswith "//" ("//www.apartments.com" +:+ remove_unsafe tail))
    with true.
  cbv iota. unfold splitnetloc2.
  change (drop 2 ("//www.apartments.com" +:+ remove_unsafe tail))
    with ("www.apartments.com" +:+ remove_unsafe tail).
  rewrite span_netloc_split by done.
  change (has_char "[" "www.apartments.com") with false.
  change (has_char "]" "www.apartments.com") with false.
  cbn [andb orb negb mbind option_bind].
  destruct (if has_char "#" (remove_unsafe tail) then _ else _) as [u1 f1].
  destruct (if has_char "?" u1 then _ else _) as [u2 q2].
  change (checknetloc "www.apartments.com") with true. cbv iota.
  by intros [= <-].
Qed.

Lemma form_nonempty (sch rest : string) :
  valid_scheme sch = true → nonempty (sch +:+ String ":" rest) = true.
Proof. destruct sch; [done|]. by rewrite sapp_cons. Qed.

(** [normalize_url] on [scheme://host/path]. *)
Lemma normalize_host_form (sch n pp : string) :
  valid_scheme sch = true → all_chars host_ok n = true →
  all_chars path_ok pp = true →
  (pp = EmptyString ∨ ∃ t, pp = String "/" t) →
  let x := sch +:+ String ":" ("//" +:+ n +:+ pp) in
  strip x = x →
  normalize_url x = EmptyString ∨
  (nonempty n = true ∧
   normalize_url x
   = urlunsplit sch
       (if startswith "www." (lower n) then drop 4 (lower n) else lower n)
       (rstrip (is_char "/") (re_sub_slashes (or_else pp "/")))
       EmptyString EmptyString) ∨
  (n = EmptyString ∧ sch ≠ "https"%string ∧
   normalize_url x
   = urlunsplit sch EmptyString
       (rstrip (is_char "/") (re_sub_slashes (or_else pp "/")))
       EmptyString EmptyString) ∨
  (n = EmptyString ∧ sch = "https"%string ∧
   startswith "https://apartments.com" (normalize_url x) = true).
Proof.
  intros Hv Hhost Hpath Hroot x Hstrip.
  assert (nonempty x = true) as Hx by by apply form_nonempty.
  assert (∀ s0, urlsplit x s0
          = if accepts n then Some (mkSplit sch n pp EmptyString EmptyString)
            else None) as Hsplit
    by (intros s0; by apply urlsplit_host_form).
  unfold normalize_url, normalize_url_try.
  rewrite Hx, Hstrip. cbn [negb].
  destruct (_ || _); [by left|].
  rewrite Hsplit. destruct (accepts n) eqn:Hacc; [|by left].
  cbn [mbind option_bind netloc].
  destruct (nonempty n) eqn:Hn; cbn [negb].
  { right. left. split; [done|].
    cbn [mbind option_bind scheme netloc path default].
    by rewrite (valid_scheme_nonempty sch Hv). }
  destruct n; [|done].
  destruct (decide (sch = "https"%string)) as [->|Hs].
  - destruct (urljoin_https x _ Hx (Hsplit "https"%string) eq_refl eq_refl)
      as (pth & prm & q & f & ->).
    destruct (urlunparse_host_form pth prm q f) as (tail & -> & Htail).
    cbn [mbind option_bind].
    destruct (urlsplit ("https://www.apartments.com" +:+ tail) EmptyString)
      as [p2|] eqn:Hp2; [|by left].
    right. right. right. split; [done|]. split; [done|].
    destruct (urlsplit_joined tail p2 Htail Hp2) as [Hs2 Hn2].
    cbn [mbind option_bind default]. rewrite Hs2, Hn2.
    change (lower "www.apartments.com") with "www.apartments.com"%string.
    change (startswith "www." "www.apartments.com") with true.
    change (negb (nonempty "https")) with false. cbv iota.
    change (drop 4 "www.apartments.com") with "apartments.com"%string.
    destruct (result_path (path p2)) as (Hnd & _).
    rewrite urlunsplit_form by done.
    reflexivity.
  - right. right. left. split; [done|]. split; [done|].
    rewrite (urljoin_other_scheme x _ Hx (Hsplit "https"%string)) by done.
    cbn [mbind option_bind]. rewrite Hsplit.
    cbn [mbind option_bind scheme netloc path default].
    by rewrite (valid_scheme_nonempty sch Hv).
Qed.

(** [normalize_url] on [scheme:path], for a scheme without authority. *)
Lemma normalize_path_form (sch pp : string) :
  valid_scheme sch = true → mem sch uses_netloc = false →
  all_chars path_ok pp = true → startswith "//" pp = false →
  let x := sch +:+ String ":" pp in
  strip x = x →
  normalize_url x = EmptyString ∨
  normalize_url x
  = urlunsplit sch EmptyString
      (rstrip (is_char "/") (re_sub_slashes (or_else pp "/")))
      EmptyString EmptyString.
Proof.
  intros Hv Hmem Hpath Hnd x Hstrip.
  assert (nonempty x = true) as Hx by by apply form_nonempty.
  assert (∀ s0, urlsplit x s0
          = Some (mkSplit sch EmptyString pp EmptyString EmptyString))
    as Hsplit by (intros s0; by apply urlsplit_path_form).
  unfold normalize_url, normalize_url_try.
  rewrite Hx, Hstrip. cbn [negb].
  destruct (_ || _); [by left|].
  rewrite Hsplit. cbn [mbind option_bind netloc nonempty negb].
  rewrite (urljoin_other_scheme x _ Hx (Hsplit "https"%string)).
  2:{ cbn [scheme]. by intros ->. }
  cbn [mbind option_bind]. rewrite Hsplit.
  cbn [mbind option_bind scheme netloc path default]. right.
  by rewrite (valid_scheme_nonempty sch Hv).
Qed.

End Forms.

(** ** Results that the second call changes *)

Section Converse.
Context `{!PyLib}.
Import PyStr StrFacts Urllib CharFacts SplitFacts PlainFacts StripFacts
  TwiceFacts ShapeFacts LengthFacts.

Lemma rooted_id (pp : string) :
  pp = EmptyString ∨ startswith "/" pp = true → rooted pp = pp.
Proof. intros [->|Hs]; [done|]. unfold rooted. by rewrite Hs, andb_false_r. Qed.

Lemma length_urlunsplit (sch n2 pp2 : string) :
  valid_scheme sch = true → contains "//" pp2 = false →
  pp2 = EmptyString ∨ startswith "/" pp2 = true →
  String.length (urlunsplit sch n2 pp2 EmptyString EmptyString)
  ≤ String.length sch + 3 + String.length n2 + String.length pp2.
Proof.
  intros Hv Hnd Hroot. rewrite urlunsplit_form by done.
  rewrite rooted_id by done.
  destruct (nonempty n2 || mem sch uses_netloc);
    rewrite !length_app; cbn [String.length]; rewrite ?length_app;
    cbn [String.length]; lia.
Qed.

Lemma length_urlunsplit_path (sch pp2 : string) :
  valid_scheme sch = true → contains "//" pp2 = false →
  mem sch uses_netloc = false →
  String.length (urlunsplit sch EmptyString pp2 EmptyString EmptyString)
  = String.length sch + 1 + String.length pp2.
Proof.
  intros Hv Hnd Hmem. rewrite urlunsplit_form by done. rewrite Hmem.
  cbn [nonempty orb]. rewrite length_app. cbn [String.length]. lia.
Qed.

Lemma normalize_url_strip (r : string) :
  nonempty r = true → nonempty (strip r) = true →
  normalize_url r = normalize_url (strip r).
Proof.
  intros Hr Hs. unfold normalize_url, normalize_url_try.
  by rewrite Hr, Hs, strip_idem.
Qed.

Lemma lstrip_alpha (sch rest : string) :
  valid_scheme sch = true →
  lstrip isspace (sch +:+ rest) = sch +:+ rest.
Proof.
  intros (c & s & -> & Ha & _)%valid_scheme_inv. rewrite sapp_cons.
  cbn [lstrip]. by destruct (alpha_not_c0 c Ha) as [_ ->].
Qed.

Lemma scheme_no_space (sch : string) :
  valid_scheme sch = true →
  all_chars (fun c => negb (isspace c)) sch = true.
Proof.
  intros (c & s & -> & _ & Hs)%valid_scheme_inv.
  eapply all_chars_impl; [|exact Hs]. intros a Ha.
  by destruct (valid_scheme_char_facts a Ha) as (_ & _ & _ & _ & _ & -> & _).
Qed.

(** [strip] of [scheme:rest] strips the rest on its right. *)
Lemma strip_form (sch rest : string) :
  valid_scheme sch = true →
  strip (sch +:+ String ":" rest) = sch +:+ String ":" (rstrip isspace rest).
Proof.
  intros Hv. unfold strip. rewrite lstrip_alpha by done.
  rewrite rstrip_keep by by apply scheme_no_space.
  f_equal. apply (rstrip_keep isspace ":" rest). reflexivity.
Qed.

Lemma rstrip_rooted (rp : string) :
  rp = EmptyString ∨ (∃ t, rp = String "/" t) →
  (rp = EmptyString ∧ rstrip isspace rp = EmptyString) ∨
  ∃ t, rstrip isspace rp = String "/" t.
Proof.
  intros [->|[t ->]]; [by left|right].
  apply (rstrip_head isspace "/" t). reflexivity.
Qed.

Lemma space_not_a (s : string) :
  all_chars isspace s = true → startswith "apartments.com" s = false.
Proof.
  destruct s as [|c s]; [done|]. cbn [all_chars startswith].
  intros [Hc _]%andb_true_iff.
  destruct (Ascii.eqb "a" c) eqn:Ha; [|done].
  apply Ascii.eqb_eq in Ha as <-. discriminate Hc.
Qed.

(** The stripped text of [scheme://host/path] has the same form. *)
Lemma strip_host_form (sch nl rp : string) :
  valid_scheme sch = true → all_chars host_ok nl = true →
  all_chars path_ok rp = true →
  (rp = EmptyString ∨ ∃ t, rp = String "/" t) →
  ∃ n pp,
    strip (sch +:+ String ":" ("//" +:+ nl +:+ rp))
    = sch +:+ String ":" ("//" +:+ n +:+ pp) ∧
    all_chars host_ok n = true ∧ all_chars path_ok pp = true ∧
    (pp = EmptyString ∨ ∃ t, pp = String "/" t) ∧
    (n = EmptyString → startswith "apartments.com" (nl +:+ rp) = false).
Proof.
  intros Hv Hhost Hpath Hroot. rewrite strip_form by done.
  rewrite (rstrip_keep isspace "//" (nl +:+ rp)) by reflexivity.
  rewrite rstrip_app.
  destruct (rstrip_rooted rp Hroot) as [[-> Hrp]|[t Hrp]]; rewrite Hrp;
    cbn [nonempty].
  - exists (rstrip isspace nl), EmptyString. rewrite !sapp_nil_r.
    split; [done|]. split; [by apply all_chars_rstrip|].
    split; [done|]. split; [by left|].
    intros Hn. by apply space_not_a, rstrip_nil.
  - exists nl, (String "/" t). split; [done|]. split; [done|].
    split; [rewrite <- Hrp; by apply all_chars_rstrip|].
    split; [right; eauto|].
    intros ->. rewrite sapp_nil_l.
    destruct Hroot as [->|[t' ->]]; reflexivity.
Qed.

Lemma rooted_or (pp : string) :
  pp = EmptyString ∨ (∃ t, pp = String "/" t) →
  pp = EmptyString ∨ startswith "/" pp = true.
Proof. intros [->|[t ->]]; [by left|by right]. Qed.

(** A second call on [scheme://host/path] gives nothing longer, and
    something shorter if the host begins with [www.]. *)
Lemma host_result_length (sch n pp : string) :
  valid_scheme sch = true →
  (pp = EmptyString ∨ ∃ t, pp = String "/" t) →
  let out :=
    urlunsplit sch
      (if startswith "www." (lower n) then drop 4 (lower n) else lower n)
      (rstrip (is_char "/") (re_sub_slashes (or_else pp "/")))
      EmptyString EmptyString in
  String.length out
  ≤ String.length (sch +:+ String ":" ("//" +:+ n +:+ pp)) ∧
  (startswith "www." (lower n) = true →
   String.length out
   < String.length (sch +:+ String ":" ("//" +:+ n +:+ pp))).
Proof.
  intros Hv Hroot. cbn zeta.
  destruct (result_path pp) as (Hnd & _ & Hr & _).
  pose proof (length_urlunsplit sch
                (if startswith "www." (lower n) then drop 4 (lower n)
                 else lower n)
                (rstrip (is_char "/") (re_sub_slashes (or_else pp "/")))
                Hv Hnd (Hr (rooted_or pp Hroot))) as Hlen.
  pose proof (length_result_path pp) as Hpath.
  pose proof (length_lower n) as Hlow.
  rewrite !length_app. cbn [String.length]. rewrite !length_app.
  cbn [String.length].
  destruct (startswith "www." (lower n)) eqn:Hwww.
  - pose proof (length_drop_www (lower n) Hwww). split; [lia|]. intros _. lia.
  - split; [lia|done].
Qed.

(** A result that ends in white space is not kept by a second call. *)
Lemma unstripped_host_form (sch nl rp : string) :
  valid_scheme sch = true → all_chars host_ok nl = true →
  all_chars path_ok rp = true →
  (rp = EmptyString ∨ ∃ t, rp = String "/" t) →
  let r := sch +:+ String ":" ("//" +:+ nl +:+ rp) in
  normalize_url r = r → strip r = r.
Proof.
  intros Hv Hhost Hpath Hroot r Hfix.
  destruct (decide (strip r = r)) as [|Hne]; [done|exfalso].
  assert (nonempty r = true) as Hr by by apply form_nonempty.
  destruct (strip_host_form sch nl rp Hv Hhost Hpath Hroot)
    as (n & pp & Hx & Hn & Hpp & Hroot' & Ha).
  fold r in Hx.
  assert (String.length (strip r) < String.length r) as Hshort.
  { subst r. rewrite strip_form in Hne |- * by done.
    rewrite !length_app. cbn [String.length].
    assert (rstrip isspace ("//" +:+ nl +:+ rp) ≠ "//" +:+ nl +:+ rp) as Hrs
      by (intros Heq; apply Hne; by rewrite Heq).
    apply rstrip_shorter in Hrs. lia. }
  assert (nonempty (strip r) = true) as Hsr
    by (rewrite Hx; by apply form_nonempty).
  rewrite (normalize_url_strip r Hr Hsr) in Hfix.
  assert (strip (strip r) = strip r) as Hidem by apply strip_idem.
  rewrite Hx in Hfix, Hidem, Hshort.
  destruct (host_result_length sch n pp Hv Hroot') as [Hlen _].
  destruct (normalize_host_form sch n pp Hv Hn Hpp Hroot' Hidem)
    as [He|[[_ He]|[(-> & _ & He)|(-> & -> & He)]]].
  - rewrite He in Hfix. by rewrite <- Hfix in Hr.
  - rewrite He in Hfix. rewrite Hfix in Hlen. lia.
  - rewrite He in Hfix. change (lower EmptyString) with EmptyString in Hlen.
    change (startswith "www." EmptyString) with false in Hlen.
    cbv iota in Hlen. rewrite Hfix in Hlen. lia.
  - rewrite Hfix in He. subst r.
    change (startswith "https://apartments.com"
              ("https" +:+ String ":" ("//" +:+ nl +:+ rp)))
      with (startswith "apartments.com" (nl +:+ rp)) in He.
    rewrite Ha in He; done.
Qed.

Lemma unstripped_path_form (sch pth : string) :
  valid_scheme sch = true → mem sch uses_netloc = false →
  all_chars path_ok pth = true → contains "//" pth = false →
  let r := sch +:+ String ":" pth in
  normalize_url r = r → strip r = r.
Proof.
  intros Hv Hmem Hpath Hnd r Hfix.
  destruct (decide (strip r = r)) as [|Hne]; [done|exfalso].
  assert (nonempty r = true) as Hr by by apply form_nonempty.
  assert (strip r = sch +:+ String ":" (rstrip isspace pth)) as Hx
    by by apply strip_form.
  assert (String.length (strip r) < String.length r) as Hshort.
  { rewrite Hx. subst r. rewrite !length_app. cbn [String.length].
    assert (rstrip isspace pth ≠ pth) as Hrs
      by (intros Heq; apply Hne; by rewrite Hx, Heq).
    apply rstrip_shorter in Hrs. lia. }
  assert (nonempty (strip r) = true) as Hsr
    by (rewrite Hx; by apply form_nonempty).
  rewrite (normalize_url_strip r Hr Hsr) in Hfix.
  assert (strip (strip r) = strip r) as Hidem by apply strip_idem.
  rewrite Hx in Hfix, Hidem, Hshort.
  destruct (normalize_path_form sch (rstrip isspace pth) Hv Hmem)
    as [He|He]; [by apply all_chars_rstrip| |exact Hidem| |].
  - by apply no_double_start, contains_rstrip.
  - rewrite He in Hfix. by rewrite <- Hfix in Hr.
  - rewrite He in Hfix.
    destruct (result_path (rstrip isspace pth)) as (Hnd' & _).
    pose proof (length_urlunsplit_path sch _ Hv Hnd' Hmem) as Hlen.
    rewrite Hfix in Hlen.
    pose proof (length_result_path (rstrip isspace pth)).
    rewrite length_app in Hshort. cbn [String.length] in Hshort. lia.
Qed.

Lemma fixed_not_rejected (r : string) :
  nonempty r = true → strip r = r → normalize_url r = r →
  startswith "javascript:" (lower r) = false ∧
  startswith "mailto:" (lower r) = false ∧
  ∃ p, urlsplit r EmptyString = Some p.
Proof.
  intros Hr Hstrip. unfold normalize_url, normalize_url_try.
  rewrite Hr, Hstrip. cbn [negb].
  destruct (startswith "javascript:" (lower r));
    [cbn; intros <-; discriminate Hr|].
  destruct (startswith "mailto:" (lower r));
    [cbn; intros <-; discriminate Hr|].
  cbn [orb].
  destruct (urlsplit r EmptyString) as [p|];
    [eauto|cbn; intros <-; discriminate Hr].
Qed.

(** A result of [normalize_url] that a second call keeps is stable. *)
Lemma fixed_stable (u : string) :
  normalize_url (normalize_url u) = normalize_url u →
  stable (normalize_url u).
Proof.
  destruct (normalize_url_parts u) as [->|(sch & nl & pth & -> & Hout)];
    [by left|].
  intros Hfix. right.
  pose proof Hout as (Hv & Hhost & Hlow & Hpath & Hnd & Hlast & Hroot).
  destruct (rooted_facts pth Hpath Hnd Hlast) as (Hrp & Hrnd & Hrl & Hrs & Hrr).
  pose proof (result_nonempty sch nl pth Hv Hnd) as Hne.
  rewrite urlunsplit_form in * by done.
  destruct (nonempty nl || mem sch uses_netloc) eqn:Hcase.
  - pose proof (unstripped_host_form sch nl (rooted pth) Hv Hhost Hrp Hrs Hfix)
      as Hstrip.
    destruct (fixed_not_rejected _ Hne Hstrip Hfix) as (Hjs & Hmail & p & Hp).
    split; [done|]. split; [done|]. split; [done|].
    exists p. split; [done|].
    rewrite urlsplit_host_form in Hp by done.
    destruct (accepts nl); [|done]. injection Hp as <-. cbn [scheme netloc].
    destruct (host_result_length sch nl (rooted pth) Hv Hrs) as [_ Hlen].
    rewrite Hlow in Hlen.
    destruct (normalize_host_form sch nl (rooted pth) Hv Hhost Hrp Hrs Hstrip)
      as [He|[[Hn He]|[(-> & Hs & He)|(-> & -> & He)]]].
    + rewrite He in Hfix. by rewrite <- Hfix in Hne.
    + rewrite Hlow in He.
      split; [|intros [_ ->]; discriminate Hn].
      destruct (startswith "www." nl) eqn:Hwww; [exfalso|done].
      specialize (Hlen eq_refl). rewrite <- He, Hfix in Hlen. lia.
    + split; [done|]. by intros [? _].
    + exfalso. rewrite Hfix in He.
      change (startswith "https://apartments.com"
                ("https" +:+ String ":" ("//" +:+ "" +:+ rooted pth)))
        with (startswith "apartments.com" (rooted pth)) in He.
      destruct Hrs as [Hr|[t Hr]]; rewrite Hr in He; discriminate He.
  - apply orb_false_iff in Hcase as [Hnl Hmem]. destruct nl; [|done].
    pose proof (unstripped_path_form sch pth Hv Hmem Hpath Hnd Hfix)
      as Hstrip.
    destruct (fixed_not_rejected _ Hne Hstrip Hfix) as (Hjs & Hmail & p & Hp).
    split; [done|]. split; [done|]. split; [done|].
    exists p. split; [done|].
    rewrite urlsplit_path_form in Hp
      by (try done; by apply no_double_start).
    injection Hp as <-. cbn [scheme netloc]. split; [done|].
    intros [-> _]. discriminate Hmem.
Qed.

(** C10, amended: normalising twice gives the same text as normalising
    once exactly where the first result is stable, that is, where it is
    the sentinel, or has no white space at its end, is no [javascript:]
    and no [mailto:] link, is accepted by [urlsplit], has a host that does
    not begin with [www.], and has a host at all if its scheme is
    [https].  Every other result is changed by the second call. *)
Theorem C10_idempotent_iff_stable (u : string) :
  normalize_url (normalize_url u) = normalize_url u ↔
  stable (normalize_url u).
Proof. split; [apply fixed_stable|apply stable_fixed]. Qed.

End Converse.

(** The second call keeps a link of another scheme than http and https,
    and a link with a space in its path; it keeps the sentinel. *)
Lemma C10_idempotent_iff_stable_witness :
  stable (normalize_url "ftp://a.com/x") ∧
  normalize_url (normalize_url "ftp://a.com/x") = normalize_url "ftp://a.com/x" ∧
  normalize_url (normalize_url "http://a.com/a b/c")
  = normalize_url "http://a.com/a b/c" ∧
  normalize_url (normalize_url "mailto:a@b.com") = normalize_url "mailto:a@b.com".
Proof.
  assert (∀ r p,
            PyStr.strip r = r →
            PyStr.startswith "javascript:" (PyStr.lower r) = false →
            PyStr.startswith "mailto:" (PyStr.lower r) = false →
            Urllib.urlsplit r EmptyString = Some p →
            PyStr.startswith "www." (Urllib.netloc p) = false →
            PyStr.nonempty (Urllib.netloc p) = true →
            stable r) as Hstable.
  { intros r p H1 H2 H3 H4 H5 H6. right. do 3 (split; [done|]).
    exists p. split; [done|]. split; [done|].
    intros [_ Hn]. by rewrite Hn in H6. }
  assert (stable (normalize_url "ftp://a.com/x")) as Hftp
    by (eapply Hstable; vm_compute; reflexivity).
  split; [exact Hftp|]. split; [|split].
  - apply (C10_idempotent_iff_stable "ftp://a.com/x"). exact Hftp.
  - apply (C10_idempotent_iff_stable "http://a.com/a b/c").
    eapply Hstable; vm_compute; reflexivity.
  - apply (C10_idempotent_iff_stable "mailto:a@b.com"). left.
    vm_compute. reflexivity.
Defined.
